(** * Command relay of the printer agent: dispatcher, dedup ledger, transport

    A shallow embedding of [octoprint_thespaghettidetective/client_conn.py]:
    the class [ClientConn] (method [on_message_to_plugin], [send_msg_to_client])
    and the class [DataChannelConn] (method [send]).

    Python values are embedded as the JSON-shaped universe the envelopes are
    decoded from (null, booleans, integers, strings, lists, string-keyed
    objects); floating-point numbers are left out of the universe.  A method
    is a function from the object's fields to an outcome (normal return or a
    raised exception), the fields after the call, and the list of externally
    visible effects in program order. *)

From Stdlib Require Import String Ascii ZArith Bool Lia Arith List.
From Stdlib Require Import Strings.Byte.
Import ListNotations.
Open Scope string_scope.
Open Scope list_scope.

Set Warnings "-register-all".

(** ** Python values *)

Inductive pyval : Type :=
| PyNone
| PyBool (b : bool)
| PyInt (n : Z)
| PyStr (s : string)
| PyList (l : list pyval)
| PyDict (d : list (string * pyval)).

(** A [dict] keeps its keys in insertion order (which [json.dumps] follows),
    so it is an association list; the binding of a key is its first entry. *)
Definition dict := list (string * pyval).

Fixpoint dict_lookup (k : string) (d : dict) : option pyval :=
  match d with
  | [] => None
  | (k', v) :: r => if String.eqb k k' then Some v else dict_lookup k r
  end.

(** [d.get(k)]: the value, or [None] when the key is missing. *)
Definition dict_get (d : dict) (k : string) : pyval :=
  match dict_lookup k d with Some v => v | None => PyNone end.

(** [d.get(k, default)]. *)
Definition dict_get_default (d : dict) (k : string) (dflt : pyval) : pyval :=
  match dict_lookup k d with Some v => v | None => dflt end.

(** [d[k] = v]: replaces the binding in place, or appends a new key. *)
Fixpoint dict_set (k : string) (v : pyval) (d : dict) : dict :=
  match d with
  | [] => [(k, v)]
  | (k', v') :: r =>
      if String.eqb k k' then (k', v) :: r else (k', v') :: dict_set k v r
  end.

(** Truth value of an object, as tested by [if x:] and [not x]. *)
Definition truthy (v : pyval) : bool :=
  match v with
  | PyNone => false
  | PyBool b => b
  | PyInt n => negb (Z.eqb n 0)
  | PyStr s => negb (String.eqb s "")
  | PyList l => match l with [] => false | _ => true end
  | PyDict d => match d with [] => false | _ => true end
  end.

(** [x is not None]. *)
Definition is_not_None (v : pyval) : bool :=
  match v with PyNone => false | _ => true end.

Definition Z_of_bool (b : bool) : Z := if b then 1%Z else 0%Z.

(** [a == b].  [bool] is a subclass of [int], so [True == 1]; lists compare
    element by element; dicts compare as maps, whatever the key order. *)
Fixpoint py_eq (a b : pyval) {struct a} : bool :=
  match a, b with
  | PyNone, PyNone => true
  | PyBool x, PyBool y => Bool.eqb x y
  | PyBool x, PyInt y => Z.eqb (Z_of_bool x) y
  | PyInt x, PyBool y => Z.eqb x (Z_of_bool y)
  | PyInt x, PyInt y => Z.eqb x y
  | PyStr x, PyStr y => String.eqb x y
  | PyList l1, PyList l2 =>
      (fix eq_items (xs ys : list pyval) {struct xs} : bool :=
         match xs, ys with
         | [], [] => true
         | x :: xs', y :: ys' => py_eq x y && eq_items xs' ys'
         | _, _ => false
         end) l1 l2
  | PyDict d1, PyDict d2 =>
      let same_binding :=
        fix same_binding (k : string) (d : dict) (other : option pyval)
            {struct d} : bool :=
          match d with
          | [] => match other with None => true | Some _ => false end
          | (k', v) :: r =>
              if String.eqb k k'
              then match other with Some w => py_eq v w | None => false end
              else same_binding k r other
          end in
      forallb (fun k => same_binding k d1 (dict_lookup k d2))
              (map fst d1 ++ map fst d2)
  | _, _ => false
  end.

(** [a != b]. *)
Definition py_ne (a b : pyval) : bool := negb (py_eq a b).

(** ** [collections.deque] with [maxlen] *)

Record deque : Type := Deque { maxlen : nat; items : list pyval }.

(** [deque(maxlen=n)]. *)
Definition deque_new (n : nat) : deque := Deque n [].

(** [d.append(x)]: the item goes to the right end; when that makes the deque
    longer than [maxlen], one item is removed from the left end. *)
Definition deque_append (x : pyval) (d : deque) : deque :=
  let l := items d ++ [x] in
  Deque (maxlen d) (if Nat.ltb (maxlen d) (length l) then tl l else l).

(** [x in d]: a linear scan comparing each item with [x]. *)
Definition deque_contains (x : pyval) (d : deque) : bool :=
  existsb (fun item => py_eq item x) (items d).

(** ** Exceptions, effects and the method monad *)

Inductive exn : Type :=
| Exception_ (msg : string)        (* [Exception(msg)] *)
| KeyError (key : string)
| AttributeError (name : string)
| TypeError (what : string)
| OSError (what : string)
| SocketError (what : string)      (* [socket.error] *)
| OtherError (cls : string).

Inductive loglevel : Type := DEBUG | ERROR.

(** A socket object, named by a number so that two sockets can be told apart. *)
Definition handle := nat.

(** What a method does to the outside, in program order. *)
Inductive event : Type :=
| Log (lv : loglevel) (fmt : string)
    (* [_logger.debug(fmt)], [_logger.error(fmt % ...)] *)
| OpenSocket
    (* [socket.socket(socket.AF_INET, socket.SOCK_DGRAM)] is called *)
| SendTo (h : handle) (payload : list byte) (addr : string) (port : Z)
    (* [h.sendto(payload, (addr, port))] is called *)
| DataChannelSend (payload : list byte)
    (* [self.data_channel_conn.send(payload)] is called *)
| Invoke (target func : string) (args : list pyval)
    (* the resolved operation is called with [args] *)
| SendWs (m : pyval)
    (* [self.plugin.send_ws_msg_to_server(m)] *)
| Sleep (ms : nat)
    (* [time.sleep] *)
| PostUpdate.
    (* [self.plugin.post_update_to_server()] *)

Inductive res (A : Type) : Type :=
| Done (a : A)
| Raise (e : exn).
Arguments Done {A} a.
Arguments Raise {A} e.

(** A method body over fields [S]: outcome, fields afterwards, effects. *)
Definition M (S A : Type) : Type := S -> res A * S * list event.

Definition ret {S A : Type} (a : A) : M S A := fun s => (Done a, s, []).

Definition raise {S A : Type} (e : exn) : M S A := fun s => (Raise e, s, []).

Definition bind {S A B : Type} (m : M S A) (k : A -> M S B) : M S B :=
  fun s =>
    match m s with
    | (Done a, s1, t1) =>
        match k a s1 with (r, s2, t2) => (r, s2, t1 ++ t2) end
    | (Raise e, s1, t1) => (Raise e, s1, t1)
    end.

Definition emit {S : Type} (e : event) : M S unit := fun s => (Done tt, s, [e]).

Definition get {S : Type} : M S S := fun s => (Done s, s, []).

(** Runs a method of a component held in a field. *)
Definition zoom {S T A : Type} (proj : S -> T) (upd : T -> S -> S)
    (m : M T A) : M S A :=
  fun s => match m (proj s) with (r, t', tr) => (r, upd t' s, tr) end.

Declare Scope method_scope.
Delimit Scope method_scope with method.
Notation "x <- m ;; k" := (bind m (fun x => k))
  (at level 61, m at next level, right associativity) : method_scope.
Notation "m ;; k" := (bind m (fun _ => k))
  (at level 61, right associativity) : method_scope.
Open Scope method_scope.

Definition outcome {S A : Type} (r : res A * S * list event) : res A :=
  fst (fst r).
Definition fields {S A : Type} (r : res A * S * list event) : S :=
  snd (fst r).
Definition effects {S A : Type} (r : res A * S * list event) : list event :=
  snd r.

(** [d[k]]: raises [KeyError] when the key is missing. *)
Definition subscript {S : Type} (d : dict) (k : string) : M S pyval :=
  match dict_lookup k d with
  | Some v => ret v
  | None => raise (KeyError k)
  end.

(** ** The operating system's answers to the socket calls of one [send] *)

Inductive create_result : Type :=
| Created (h : handle)
| CreateFails (e : exn).

Record os : Type := OS {
  socket_socket : create_result;
  sendto : handle -> list byte -> option exn   (* [None]: the call returns *)
}.

(** ** The agent ([self.plugin]) as the dispatcher sees it *)

Inductive call_result : Type :=
| Returns (v : pyval)
| Raises (e : exn).

(** An attribute found by [getattr]: something callable, or plain data.
    A callable is known by what it returns or raises on given arguments;
    what it does to the printer is outside this model, and it does not
    reach back into the fields of the [ClientConn] that calls it. *)
Inductive attr : Type :=
| Callable (f : list pyval -> call_result)
| Data (v : pyval).

(** An object is known by its attributes. *)
Definition pyobj := string -> option attr.

Record Plugin : Type := {
  linked_printer : dict;
  plugin_attr : string -> option pyobj
}.

(** ** class DataChannelConn *)

Module DataChannelConn.

Record t : Type := Self { addr : string; port : Z; sock : option handle }.

Definition set_sock (s : option handle) : M t unit :=
  fun self => (Done tt, Self (addr self) (port self) s, []).

Section Methods.

(** [MAX_PAYLOAD_SIZE] is imported from the [janus] module. *)
Variable MAX_PAYLOAD_SIZE : Z.
(** The module constant [__python_version__] (2 or 3). *)
Variable __python_version__ : Z.

(** [isinstance(ex, socket.error)].  From Python 3.3 on [socket.error] is
    an alias of [OSError]; in Python 2 it is a class of its own, outside
    [OSError]. *)
Definition is_socket_error (ex : exn) : bool :=
  match ex with
  | SocketError _ => true
  | OSError _ => Z.eqb __python_version__ 3
  | _ => false
  end.

(** [isinstance(ex, OSError)]. *)
Definition is_OSError (ex : exn) : bool :=
  match ex with
  | OSError _ => true
  | SocketError _ => Z.eqb __python_version__ 3
  | _ => false
  end.

Definition __init__ (addr : string) (port : Z) : t := Self addr port None.

(** [def send(self, payload)].  The [with self.sock_lock] block is run as
    one uninterrupted step. *)
Definition send (o : os) (payload : list byte) : M t unit :=
  if (MAX_PAYLOAD_SIZE <? Z.of_nat (length payload))%Z then
    emit (Log ERROR "datachannel payload too big (%s)")
  else
    self <- get ;;
    match sock self with
    | None =>
        emit OpenSocket ;;
        match socket_socket o with
        | Created h => set_sock (Some h)
        | CreateFails ex =>
            if is_OSError ex
            then emit (Log ERROR "could not open udp socket (%s)")
            else raise ex
        end
    | Some _ => ret tt
    end ;;
    self <- get ;;
    match sock self with
    | Some h =>
        emit (SendTo h payload (addr self) (port self)) ;;
        match sendto o h payload with
        | None => ret tt
        | Some ex =>
            if is_socket_error ex then
              emit (Log ERROR "could not send to janus datachannel (%s)")
            else if is_OSError ex then
              emit (Log ERROR "udp socket might be closed (%s)") ;;
              set_sock None
            else raise ex
        end
    | None => ret tt
    end.

End Methods.

End DataChannelConn.

(** ** class ClientConn *)

Module ClientConn.

Record t : Type := Self {
  data_channel_conn : DataChannelConn.t;
  seen_refs : deque
}.

Definition set_seen_refs (d : deque) : M t unit :=
  fun self => (Done tt, Self (data_channel_conn self) d, []).

Definition set_data_channel_conn (c : DataChannelConn.t) (self : t) : t :=
  Self c (seen_refs self).

(** [getattr(self.plugin, name)], without a default. *)
Definition getattr_plugin (plugin : Plugin) (name : pyval) : M t pyobj :=
  match name with
  | PyStr n =>
      match plugin_attr plugin n with
      | Some o => ret o
      | None => raise (AttributeError n)
      end
  | _ => raise (TypeError "attribute name must be string")
  end.

(** [getattr(target, name, None)]; [None] stands for the default. *)
Definition getattr_default (target : pyobj) (name : pyval) : M t (option attr) :=
  match name with
  | PyStr n => ret (target n)
  | _ => raise (TypeError "attribute name must be string")
  end.

(** Truth value of what [getattr(target, name, None)] gave: functions and
    bound methods are true, the default [None] is false. *)
Definition attr_truthy (a : option attr) : bool :=
  match a with
  | Some (Callable _) => true
  | Some (Data v) => truthy v
  | None => false
  end.

(** Iterating over [x]: a list gives its items, a string its characters, a
    dict its keys; the other values are not iterable. *)
Definition unpack (x : pyval) : option (list pyval) :=
  match x with
  | PyList l => Some l
  | PyStr s => Some (map (fun c => PyStr (String c "")) (list_ascii_of_string s))
  | PyDict d => Some (map (fun kv => PyStr (fst kv)) d)
  | _ => None
  end.

(** The positional arguments obtained by unpacking [x] with a star. *)
Definition star_args (x : pyval) : M t (list pyval) :=
  match unpack x with
  | Some l => ret l
  | None => raise (TypeError "argument after * must be an iterable")
  end.

(** The call of [func] on the unpacked arguments. *)
Definition call (target func : pyval) (f : option attr) (args : list pyval)
    : M t pyval :=
  match f with
  | Some (Callable h) =>
      emit (Invoke (match target with PyStr s => s | _ => "" end)
                   (match func with PyStr s => s | _ => "" end) args) ;;
      match h args with
      | Returns v => ret v
      | Raises e => raise e
      end
  | _ => raise (TypeError "object is not callable")
  end.

Section Methods.

Variable JANUS_SERVER : string.
Variable JANUS_DATA_PORT : Z.
Variable MAX_PAYLOAD_SIZE : Z.
Variable __python_version__ : Z.

(** [json.dumps(data, default=str).encode('utf8')]. *)
Variable json_dumps : pyval -> list byte.
(** [zlib.compressobj(...)], then [compress(payload)] followed by [flush()];
    both branches on [__python_version__] pass the same five settings. *)
Variable zlib_compress : list byte -> list byte.

Definition __init__ : t :=
  Self (DataChannelConn.__init__ JANUS_SERVER JANUS_DATA_PORT) (deque_new 25).

(** [def send_msg_to_client(self, data)]. *)
Definition send_msg_to_client (plugin : Plugin) (o : os) (data : dict)
    : M t unit :=
  if negb (truthy (dict_get (linked_printer plugin) "id")) then ret tt
  else
    id <- subscript (linked_printer plugin) "id" ;;
    let data := dict_set "printer_id" id data in
    let payload := json_dumps (PyDict data) in
    let compressed_data := zlib_compress payload in
    emit (DataChannelSend compressed_data) ;;
    zoom data_channel_conn set_data_channel_conn
      (DataChannelConn.send MAX_PAYLOAD_SIZE __python_version__ o
         compressed_data).

(** [def on_message_to_plugin(self, msg)].  The [with self.seen_refs_lock]
    block is run as one uninterrupted step. *)
Definition on_message_to_plugin (plugin : Plugin) (o : os) (msg : dict)
    : M t unit :=
  let linked_printer := linked_printer plugin in
  (if truthy (dict_get msg "printer_id") then
     mine <- subscript msg "printer_id" ;;
     theirs <- subscript linked_printer "id" ;;
     if py_ne mine theirs then raise (Exception_ "printer_id mismatch")
     else ret tt
   else ret tt) ;;
  target <- getattr_plugin plugin (dict_get msg "target") ;;
  name <- subscript msg "func" ;;
  func <- getattr_default target name ;;
  if negb (attr_truthy func) then ret tt
  else
    let ack_ref := dict_get msg "ref" in
    let continue_ : M t unit :=
      args <- star_args (dict_get_default msg "args" (PyList [])) ;;
      ret_ <- call (dict_get msg "target") name func args ;;
      (if truthy ack_ref then
         emit (SendWs (PyDict [("passthru",
                 PyDict [("ref", ack_ref); ("ret", ret_)])])) ;;
         send_msg_to_client plugin o
           [("ref", ack_ref); ("ret", ret_); ("_webrtc", PyBool true)]
       else ret tt) ;;
      emit (Sleep 200) ;;
      emit PostUpdate in
    if is_not_None ack_ref then
      self <- get ;;
      if deque_contains ack_ref (seen_refs self) then
        emit (Log DEBUG "Got duplicate ref, ignoring msg")
      else
        set_seen_refs (deque_append ack_ref (seen_refs self)) ;;
        continue_
    else continue_.

End Methods.

End ClientConn.

(** * Properties *)

(** ** Equality of values *)

(** Induction over values that reaches inside lists and dicts. *)
Lemma pyval_nested_ind (P : pyval -> Prop) :
  P PyNone ->
  (forall b, P (PyBool b)) ->
  (forall n, P (PyInt n)) ->
  (forall s, P (PyStr s)) ->
  (forall l, Forall P l -> P (PyList l)) ->
  (forall d, Forall (fun kv => P (snd kv)) d -> P (PyDict d)) ->
  forall v, P v.
Proof.
  intros HN HB HI HS HL HD.
  fix IH 1.
  intros [ | b | n | s | l | d ].
  - exact HN.
  - apply HB.
  - apply HI.
  - apply HS.
  - apply HL. induction l as [ | x l IHl ]; constructor; [ apply IH | exact IHl ].
  - apply HD. induction d as [ | [k x] d IHd ]; constructor;
      [ apply IH | exact IHd ].
Qed.

(** The two local loops of [py_eq], named. *)
Fixpoint eq_items (xs ys : list pyval) : bool :=
  match xs, ys with
  | [], [] => true
  | x :: xs', y :: ys' => py_eq x y && eq_items xs' ys'
  | _, _ => false
  end.

Fixpoint same_binding (k : string) (d : dict) (other : option pyval) : bool :=
  match d with
  | [] => match other with None => true | Some _ => false end
  | (k', v) :: r =>
      if String.eqb k k'
      then match other with Some w => py_eq v w | None => false end
      else same_binding k r other
  end.

Lemma py_eq_list (l1 l2 : list pyval) :
  py_eq (PyList l1) (PyList l2) = eq_items l1 l2.
Proof.
  reflexivity.
Qed.

Lemma py_eq_dict (d1 d2 : dict) :
  py_eq (PyDict d1) (PyDict d2) =
  forallb (fun k => same_binding k d1 (dict_lookup k d2))
          (map fst d1 ++ map fst d2).
Proof.
  reflexivity.
Qed.

Lemma same_binding_self (d : dict) (k : string) :
  Forall (fun kv => py_eq (snd kv) (snd kv) = true) d ->
  same_binding k d (dict_lookup k d) = true.
Proof.
  induction 1 as [ | [k' v] d Hv _ IH ]; [ reflexivity | ].
  simpl. destruct (String.eqb k k'); [ exact Hv | exact IH ].
Qed.

(** [x == x] holds for every value of the universe. *)
Lemma py_eq_refl (v : pyval) : py_eq v v = true.
Proof.
  induction v as [ | b | n | s | l IH | d IH ] using pyval_nested_ind.
  - reflexivity.
  - simpl. destruct b; reflexivity.
  - simpl. apply Z.eqb_refl.
  - simpl. apply String.eqb_refl.
  - rewrite py_eq_list. induction IH as [ | x l Hx _ IHl ]; [ reflexivity | ].
    simpl. rewrite Hx. exact IHl.
  - rewrite py_eq_dict. apply forallb_forall. intros k _.
    apply same_binding_self. exact IH.
Qed.

Lemma same_binding_lookup (k : string) (d : dict) (other : option pyval) :
  same_binding k d other =
  match dict_lookup k d, other with
  | Some v, Some w => py_eq v w
  | None, None => true
  | _, _ => false
  end.
Proof.
  induction d as [ | [k' v] d IH ]; simpl.
  - destruct other; reflexivity.
  - destruct (String.eqb k k'); [ destruct other; reflexivity | exact IH ].
Qed.

Lemma dict_lookup_Forall (P : pyval -> Prop) (k : string) {d : dict} {v : pyval} :
  Forall (fun kv => P (snd kv)) d -> dict_lookup k d = Some v -> P v.
Proof.
  induction 1 as [ | [k' x] d Hx _ IH ]; simpl; [ discriminate | ].
  destruct (String.eqb k k'); [ | exact IH ].
  intros E. injection E as <-. exact Hx.
Qed.

Lemma forallb_pointwise (A : Type) (f g : A -> bool) (l : list A) :
  (forall a, f a = g a) -> forallb f l = forallb g l.
Proof.
  intros E. induction l as [ | a l IH ]; simpl; [ reflexivity | ].
  rewrite E, IH. reflexivity.
Qed.

Lemma eq_items_sym (l1 l2 : list pyval) :
  Forall (fun x => forall y, py_eq x y = py_eq y x) l1 ->
  eq_items l1 l2 = eq_items l2 l1.
Proof.
  intros H. revert l2.
  induction H as [ | x l1 Hx _ IH ]; intros [ | y l2 ]; try reflexivity.
  simpl. rewrite Hx, IH. reflexivity.
Qed.

(** [==] does not depend on the side a value stands on. *)
Lemma py_eq_sym (a b : pyval) : py_eq a b = py_eq b a.
Proof.
  revert b.
  induction a as [ | x | x | x | l IH | d IH ] using pyval_nested_ind;
    intros [ | y | y | y | l' | d' ]; try reflexivity.
  - simpl. destruct x, y; reflexivity.
  - simpl. apply Z.eqb_sym.
  - simpl. apply Z.eqb_sym.
  - simpl. apply Z.eqb_sym.
  - simpl. apply String.eqb_sym.
  - rewrite !py_eq_list. apply eq_items_sym. exact IH.
  - rewrite !py_eq_dict, !forallb_app, andb_comm.
    assert (E : forall k, same_binding k d (dict_lookup k d') =
                          same_binding k d' (dict_lookup k d)).
    { intros k. rewrite !same_binding_lookup.
      destruct (dict_lookup k d) as [ v | ] eqn:Ed;
        destruct (dict_lookup k d') as [ w | ]; try reflexivity.
      exact (dict_lookup_Forall (fun x => forall y, py_eq x y = py_eq y x)
               k IH Ed w). }
    f_equal; apply forallb_pointwise; exact E.
Qed.

(** ** The bounded ledger *)

(** The last [n] items of a list. *)
Definition lastn (n : nat) (l : list pyval) : list pyval :=
  skipn (length l - n) l.

(** What [ClientConn.__init__] sets up and every append keeps. *)
Definition ledger_ok (d : deque) : Prop :=
  maxlen d = 25 /\ length (items d) <= 25.

Lemma deque_new_ok : ledger_ok (deque_new 25).
Proof. split; simpl; [ reflexivity | lia ]. Qed.

(** A new [ClientConn] starts with an empty ledger of 25 places. *)
Lemma init_ledger_ok (JANUS_SERVER : string) (JANUS_DATA_PORT : Z) :
  ledger_ok (ClientConn.seen_refs (ClientConn.__init__ JANUS_SERVER JANUS_DATA_PORT)).
Proof. apply deque_new_ok. Qed.

Lemma deque_append_items (x : pyval) (d : deque) :
  length (items d) <= maxlen d ->
  items (deque_append x d) = lastn (maxlen d) (items d ++ [x]).
Proof.
  intros Hlen. unfold deque_append, lastn. simpl.
  assert (Hl : length (items d ++ [x]) = S (length (items d)))
    by (rewrite length_app; simpl; lia).
  rewrite Hl.
  destruct (Nat.ltb_spec (maxlen d) (S (length (items d)))) as [ Hlt | Hge ].
  - replace (S (length (items d)) - maxlen d) with 1 by lia.
    destruct (items d ++ [x]); reflexivity.
  - replace (S (length (items d)) - maxlen d) with 0 by lia. reflexivity.
Qed.

Lemma deque_append_ok (x : pyval) (d : deque) :
  ledger_ok d -> ledger_ok (deque_append x d).
Proof.
  intros [Hm Hl]. split; [ exact Hm | ].
  rewrite deque_append_items by lia. unfold lastn.
  rewrite length_skipn, length_app. simpl. lia.
Qed.

Lemma deque_contains_append_self (x : pyval) (d : deque) :
  1 <= maxlen d -> deque_contains x (deque_append x d) = true.
Proof.
  intros Hm. unfold deque_contains, deque_append. simpl.
  assert (Hx : existsb (fun item => py_eq item x) [x] = true)
    by (simpl; rewrite py_eq_refl; reflexivity).
  destruct (Nat.ltb_spec (maxlen d) (length (items d ++ [x]))) as [ Hlt | _ ].
  - destruct (items d) as [ | a l ]; [ simpl in Hlt; lia | ].
    cbn [app tl]. rewrite existsb_app, Hx. apply orb_true_r.
  - rewrite existsb_app, Hx. apply orb_true_r.
Qed.

Lemma existsb_skipn_false (f : pyval -> bool) (n : nat) (l : list pyval) :
  existsb f l = false -> existsb f (skipn n l) = false.
Proof.
  revert l. induction n as [ | n IH ]; intros [ | a l ]; simpl; auto.
  intros H. apply orb_false_iff in H. apply IH, H.
Qed.

Lemma lastn_app (n : nat) (l l' : list pyval) :
  lastn n (lastn n l ++ l') = lastn n (l ++ l').
Proof.
  unfold lastn.
  destruct (Nat.le_gt_cases (length l) n) as [ Hle | Hgt ].
  - replace (length l - n) with 0 by lia. reflexivity.
  - rewrite !length_app, length_skipn, !skipn_app, length_skipn, skipn_skipn.
    f_equal; f_equal; lia.
Qed.

Lemma lastn_overflow (l : list pyval) (x : pyval) (rest : list pyval) :
  length l <= 25 -> length (x :: rest) = 26 ->
  lastn 25 (l ++ x :: rest) = rest.
Proof.
  intros Hl Hr. unfold lastn. rewrite length_app, Hr.
  replace (length l + 26 - 25) with (S (length l)) by lia.
  rewrite skipn_app, skipn_all2 by lia.
  replace (S (length l) - length l) with 1 by lia. reflexivity.
Qed.

(** No two of the refs are equal. *)
Fixpoint py_distinct (l : list pyval) : bool :=
  match l with
  | [] => true
  | x :: r => negb (existsb (fun y => py_eq x y) r) && py_distinct r
  end.

(** ** Reasoning about method bodies *)

Ltac run_method :=
  unfold bind, emit, get, ret, raise, zoom, subscript,
    DataChannelConn.set_sock; cbn [fst snd app].

Lemma bind_done {S A B : Type} {m : M S A} (k : A -> M S B) {s s1 : S}
    {a : A} {t1 : list event} :
  m s = (Done a, s1, t1) ->
  bind m k s = (outcome (k a s1), fields (k a s1), t1 ++ effects (k a s1)).
Proof.
  intros E. unfold bind, outcome, fields, effects. rewrite E.
  destruct (k a s1) as [[r s2] t2]. reflexivity.
Qed.

Lemma bind_raise {S A B : Type} {m : M S A} (k : A -> M S B) {s s1 : S}
    {e : exn} {t1 : list event} :
  m s = (Raise e, s1, t1) -> bind m k s = (Raise e, s1, t1).
Proof. intros E. unfold bind. rewrite E. reflexivity. Qed.

Lemma result_eta {S A : Type} (r : res A * S * list event) :
  r = (outcome r, fields r, effects r).
Proof. destruct r as [[o s] t]. reflexivity. Qed.

(** A method body all of whose effects satisfy [p]. *)
Definition emits_only {S A : Type} (p : event -> bool) (m : M S A) : Prop :=
  forall s, forallb p (effects (m s)) = true.

Section EmitsOnly.

Context {S : Type} (p : event -> bool).

Lemma emits_only_ret (A : Type) (a : A) : emits_only p (@ret S A a).
Proof. intros s. reflexivity. Qed.

Lemma emits_only_raise (A : Type) (e : exn) : emits_only p (@raise S A e).
Proof. intros s. reflexivity. Qed.

Lemma emits_only_get : emits_only p (@get S).
Proof. intros s. reflexivity. Qed.

Lemma emits_only_emit (e : event) : p e = true -> emits_only p (@emit S e).
Proof. intros H s. unfold emit, effects. simpl. rewrite H. reflexivity. Qed.

Lemma emits_only_bind (A B : Type) (m : M S A) (k : A -> M S B) :
  emits_only p m -> (forall a, emits_only p (k a)) ->
  emits_only p (bind m k).
Proof.
  intros Hm Hk s. specialize (Hm s). unfold bind.
  destruct (m s) as [[[a | e] s1] t1]; unfold effects in *; simpl in *.
  - specialize (Hk a s1). unfold effects in Hk.
    destruct (k a s1) as [[r s2] t2]. simpl in *.
    rewrite forallb_app, Hm, Hk. reflexivity.
  - exact Hm.
Qed.

End EmitsOnly.

Lemma emits_only_zoom (S T A : Type) (p : event -> bool) (proj : S -> T)
    (upd : T -> S -> S) (m : M T A) :
  emits_only p m -> emits_only p (zoom proj upd m).
Proof.
  intros Hm s. specialize (Hm (proj s)). unfold zoom, effects in *.
  destruct (m (proj s)) as [[r t'] tr]. exact Hm.
Qed.

Lemma emits_only_set_sock (p : event -> bool) (s : option handle) :
  emits_only p (DataChannelConn.set_sock s).
Proof. intros self. reflexivity. Qed.

Ltac emits_only_step :=
  first
    [ apply emits_only_ret
    | apply emits_only_raise
    | apply emits_only_get
    | apply emits_only_set_sock
    | apply emits_only_emit; reflexivity
    | apply emits_only_bind; [ | intro ]
    | match goal with
      | |- emits_only _ (match ?x with _ => _ end) => destruct x
      end ].

(** ** The transport: [DataChannelConn.send] *)

(** The effects that belong to the socket layer. *)
Definition transport_event (e : event) : bool :=
  match e with
  | Log _ _ | OpenSocket | SendTo _ _ _ _ => true
  | _ => false
  end.

(** [send] only logs, opens a socket and transmits. *)
Lemma send_effects_transport (MAX_PAYLOAD_SIZE python_version : Z) (o : os)
    (payload : list byte) :
  emits_only transport_event
    (DataChannelConn.send MAX_PAYLOAD_SIZE python_version o payload).
Proof.
  unfold DataChannelConn.send. repeat emits_only_step.
Qed.

(** In Python 3 every [OSError] is a [socket.error]: the first [except]
    clause of the transmission takes it, the second is never reached. *)
Lemma OSError_is_socket_error_py3 (ex : exn) :
  DataChannelConn.is_OSError 3 ex = true ->
  DataChannelConn.is_socket_error 3 ex = true.
Proof. destruct ex; simpl; congruence. Qed.

(** C7: a payload longer than [MAX_PAYLOAD_SIZE] makes [send] a no-op apart
    from one error log: it returns normally, the socket handle and the rest
    of the object are left as they were, no socket is opened and nothing is
    transmitted, whatever the operating system would have answered. *)
Theorem oversized_payload_is_dropped
    (MAX_PAYLOAD_SIZE python_version : Z) (o : os) (payload : list byte)
    (self : DataChannelConn.t) :
  (MAX_PAYLOAD_SIZE < Z.of_nat (length payload))%Z ->
  DataChannelConn.send MAX_PAYLOAD_SIZE python_version o payload self =
  (Done tt, self, [Log ERROR "datachannel payload too big (%s)"]).
Proof.
  intros Hbig. unfold DataChannelConn.send.
  apply Z.ltb_lt in Hbig. rewrite Hbig. reflexivity.
Qed.

(** C4 (what the code does): a transmission that fails with a
    [socket.error] is logged and the payload dropped, nothing is raised, but
    the socket handle stays in place, and the next [send] transmits on that
    same handle without opening a socket. *)
Theorem failed_transmission_keeps_handle
    (MAX_PAYLOAD_SIZE python_version : Z) (o o' : os)
    (payload payload' : list byte) (addr : string) (port : Z) (h : handle)
    (ex : exn) :
  (Z.of_nat (length payload) <= MAX_PAYLOAD_SIZE)%Z ->
  (Z.of_nat (length payload') <= MAX_PAYLOAD_SIZE)%Z ->
  sendto o h payload = Some ex ->
  DataChannelConn.is_socket_error python_version ex = true ->
  let send := DataChannelConn.send MAX_PAYLOAD_SIZE python_version in
  let self := DataChannelConn.Self addr port (Some h) in
  send o payload self =
    (Done tt, self,
     [SendTo h payload addr port;
      Log ERROR "could not send to janus datachannel (%s)"]) /\
  exists rest,
    effects (send o' payload' (fields (send o payload self))) =
    SendTo h payload' addr port :: rest.
Proof.
  intros Hsize Hsize' Hfail Hcls send self. subst send self.
  apply Z.ltb_ge in Hsize, Hsize'.
  assert (Hfirst :
    DataChannelConn.send MAX_PAYLOAD_SIZE python_version o payload
      (DataChannelConn.Self addr port (Some h)) =
    (Done tt, DataChannelConn.Self addr port (Some h),
     [SendTo h payload addr port;
      Log ERROR "could not send to janus datachannel (%s)"])).
  { unfold DataChannelConn.send. rewrite Hsize. run_method. cbn.
    rewrite Hfail, Hcls. reflexivity. }
  split; [ exact Hfirst | ].
  rewrite Hfirst. unfold fields. cbn [fst snd].
  unfold DataChannelConn.send. rewrite Hsize'. run_method. cbn.
  destruct (sendto o' h payload') as [ ex' | ].
  - destruct (DataChannelConn.is_socket_error python_version ex');
      [ | destruct (DataChannelConn.is_OSError python_version ex') ];
      eexists; reflexivity.
  - eexists. reflexivity.
Qed.

(** In Python 3 no answer of the operating system makes [send] give up a
    handle it holds. *)
Lemma handle_never_discarded_py3 (MAX_PAYLOAD_SIZE : Z) (o : os)
    (payload : list byte) (addr : string) (port : Z) (h : handle) :
  DataChannelConn.sock
    (fields (DataChannelConn.send MAX_PAYLOAD_SIZE 3 o payload
               (DataChannelConn.Self addr port (Some h)))) = Some h.
Proof.
  unfold DataChannelConn.send.
  destruct (MAX_PAYLOAD_SIZE <? Z.of_nat (length payload))%Z; [ reflexivity | ].
  run_method. cbn.
  destruct (sendto o h payload) as [ ex | ]; [ | reflexivity ].
  destruct (DataChannelConn.is_socket_error 3 ex) eqn:Hs; [ reflexivity | ].
  destruct (DataChannelConn.is_OSError 3 ex) eqn:Ho; [ | reflexivity ].
  rewrite (OSError_is_socket_error_py3 ex Ho) in Hs. discriminate.
Qed.

(** The second [except] clause is what the code has for discarding the
    handle: it runs only for an [OSError] that is not a [socket.error],
    which exists in Python 2 alone. *)
Lemma plain_OSError_discards_handle_py2 (MAX_PAYLOAD_SIZE : Z) (o : os)
    (payload : list byte) (addr : string) (port : Z) (h : handle)
    (what : string) :
  (Z.of_nat (length payload) <= MAX_PAYLOAD_SIZE)%Z ->
  sendto o h payload = Some (OSError what) ->
  DataChannelConn.send MAX_PAYLOAD_SIZE 2 o payload
    (DataChannelConn.Self addr port (Some h)) =
  (Done tt, DataChannelConn.Self addr port None,
   [SendTo h payload addr port; Log ERROR "udp socket might be closed (%s)"]).
Proof.
  intros Hsize Hfail. apply Z.ltb_ge in Hsize.
  unfold DataChannelConn.send. rewrite Hsize. run_method. cbn.
  rewrite Hfail. reflexivity.
Qed.

(** ** Method bodies that neither read nor write the ledger *)

Definition with_ledger (d : deque) (s : ClientConn.t) : ClientConn.t :=
  ClientConn.Self (ClientConn.data_channel_conn s) d.

(** Run from the same fields but another ledger, [m] has the same outcome
    and effects, changes the other fields the same way, and hands the ledger
    back as it got it. *)
Definition ledger_blind {A : Type} (m : M ClientConn.t A) : Prop :=
  forall s d,
    m (with_ledger d s) = (outcome (m s), with_ledger d (fields (m s)), effects (m s)).

Lemma with_ledger_same (s : ClientConn.t) :
  with_ledger (ClientConn.seen_refs s) s = s.
Proof. destruct s. reflexivity. Qed.

Lemma ledger_blind_keeps {A : Type} {m : M ClientConn.t A} (s : ClientConn.t) :
  ledger_blind m ->
  ClientConn.seen_refs (fields (m s)) = ClientConn.seen_refs s.
Proof.
  intros Hm. specialize (Hm s (ClientConn.seen_refs s)).
  rewrite with_ledger_same in Hm.
  rewrite (result_eta (m s)) in Hm at 1.
  injection Hm as Hf. rewrite Hf at 1. reflexivity.
Qed.

Lemma ledger_blind_ret (A : Type) (a : A) : ledger_blind (ret a).
Proof. intros s d. reflexivity. Qed.

Lemma ledger_blind_raise (A : Type) (e : exn) : ledger_blind (@raise _ A e).
Proof. intros s d. reflexivity. Qed.

Lemma ledger_blind_emit (e : event) : ledger_blind (emit e).
Proof. intros s d. reflexivity. Qed.

Lemma ledger_blind_bind (A B : Type) (m : M ClientConn.t A)
    (k : A -> M ClientConn.t B) :
  ledger_blind m -> (forall a, ledger_blind (k a)) -> ledger_blind (bind m k).
Proof.
  intros Hm Hk s d. unfold bind. rewrite (Hm s d).
  destruct (m s) as [[[a | e] s1] t1]; unfold outcome, fields, effects;
    cbn [fst snd]; [ | reflexivity ].
  rewrite (Hk a s1 d).
  destruct (k a s1) as [[r s2] t2]. reflexivity.
Qed.

Lemma ledger_blind_zoom (A : Type) (m : M DataChannelConn.t A) :
  ledger_blind
    (zoom ClientConn.data_channel_conn ClientConn.set_data_channel_conn m).
Proof.
  intros s d. unfold zoom. cbn [with_ledger ClientConn.data_channel_conn].
  destruct (m (ClientConn.data_channel_conn s)) as [[r c] tr]. reflexivity.
Qed.

Ltac ledger_blind_step :=
  first
    [ apply ledger_blind_ret
    | apply ledger_blind_raise
    | apply ledger_blind_emit
    | apply ledger_blind_zoom
    | apply ledger_blind_bind; [ | intro ]
    | match goal with
      | |- ledger_blind (match ?x with _ => _ end) => destruct x
      end ].

Lemma ledger_blind_subscript (d : dict) (k : string) :
  ledger_blind (subscript d k).
Proof. unfold subscript. repeat ledger_blind_step. Qed.

Lemma ledger_blind_getattr_plugin (plugin : Plugin) (name : pyval) :
  ledger_blind (ClientConn.getattr_plugin plugin name).
Proof. unfold ClientConn.getattr_plugin. repeat ledger_blind_step. Qed.

Lemma ledger_blind_getattr_default (target : pyobj) (name : pyval) :
  ledger_blind (ClientConn.getattr_default target name).
Proof. unfold ClientConn.getattr_default. repeat ledger_blind_step. Qed.

Lemma ledger_blind_star_args (x : pyval) :
  ledger_blind (ClientConn.star_args x).
Proof. unfold ClientConn.star_args. repeat ledger_blind_step. Qed.

Lemma ledger_blind_call (target func : pyval) (f : option attr)
    (args : list pyval) :
  ledger_blind (ClientConn.call target func f args).
Proof. unfold ClientConn.call. repeat ledger_blind_step. Qed.

(** ** The dispatcher, stage by stage *)

(** The identity check lets the envelope through: its [printer_id] is
    missing or false, or it equals the id of the linked printer. *)
Definition passes_identity (plugin : Plugin) (msg : dict) : Prop :=
  truthy (dict_get msg "printer_id") = false \/
  exists theirs,
    dict_lookup "id" (linked_printer plugin) = Some theirs /\
    py_eq (dict_get msg "printer_id") theirs = true.

(** The envelope names the attribute [tn] of the agent and, on it, the
    attribute [fn], which is [f]. *)
Definition resolves_to (plugin : Plugin) (msg : dict) (tn fn : string)
    (f : attr) : Prop :=
  dict_get msg "target" = PyStr tn /\
  dict_lookup "func" msg = Some (PyStr fn) /\
  exists target, plugin_attr plugin tn = Some target /\ target fn = Some f.

Definition is_invoke (e : event) : bool :=
  match e with Invoke _ _ _ => true | _ => false end.
Definition is_ws_reply (e : event) : bool :=
  match e with SendWs _ => true | _ => false end.
Definition is_transport_reply (e : event) : bool :=
  match e with DataChannelSend _ => true | _ => false end.

(** How many effects of a trace satisfy [p]. *)
Definition count (p : event -> bool) (tr : list event) : nat :=
  length (filter p tr).

Lemma count_app (p : event -> bool) (tr1 tr2 : list event) :
  count p (tr1 ++ tr2) = count p tr1 + count p tr2.
Proof. unfold count. rewrite filter_app, length_app. reflexivity. Qed.

Lemma count_none (p q : event -> bool) (tr : list event) :
  forallb q tr = true -> (forall e, q e = true -> p e = false) ->
  count p tr = 0.
Proof.
  intros Hq Hpq. unfold count.
  induction tr as [ | e tr IH ]; [ reflexivity | ].
  simpl in Hq. apply andb_true_iff in Hq as [He Htr].
  simpl. rewrite (Hpq e He). apply IH, Htr.
Qed.

Section Dispatcher.

Variable MAX_PAYLOAD_SIZE : Z.
Variable python_version : Z.
Variable json_dumps : pyval -> list byte.
Variable zlib_compress : list byte -> list byte.

Let on_message_to_plugin :=
  ClientConn.on_message_to_plugin MAX_PAYLOAD_SIZE python_version
    json_dumps zlib_compress.
Let send_msg_to_client :=
  ClientConn.send_msg_to_client MAX_PAYLOAD_SIZE python_version
    json_dumps zlib_compress.
Let send := DataChannelConn.send MAX_PAYLOAD_SIZE python_version.

(** Lines 27-29 of [on_message_to_plugin]. *)
Definition check_identity (plugin : Plugin) (msg : dict)
    : M ClientConn.t unit :=
  if truthy (dict_get msg "printer_id") then
    mine <- subscript msg "printer_id" ;;
    theirs <- subscript (linked_printer plugin) "id" ;;
    if py_ne mine theirs then raise (Exception_ "printer_id mismatch")
    else ret tt
  else ret tt.

(** Lines 47-56: invocation, reply, settle and refresh. *)
Definition invoke_and_reply (plugin : Plugin) (o : os) (msg : dict)
    (name : pyval) (func : option attr) : M ClientConn.t unit :=
  let ack_ref := dict_get msg "ref" in
  args <- ClientConn.star_args (dict_get_default msg "args" (PyList [])) ;;
  ret_ <- ClientConn.call (dict_get msg "target") name func args ;;
  (if truthy ack_ref then
     emit (SendWs (PyDict [("passthru",
             PyDict [("ref", ack_ref); ("ret", ret_)])])) ;;
     send_msg_to_client plugin o
       [("ref", ack_ref); ("ret", ret_); ("_webrtc", PyBool true)]
   else ret tt) ;;
  emit (Sleep 200) ;;
  emit PostUpdate.

(** Lines 36-56: the dedup gate in front of the invocation. *)
Definition dedup_and_invoke (plugin : Plugin) (o : os) (msg : dict)
    (name : pyval) (func : option attr) : M ClientConn.t unit :=
  let ack_ref := dict_get msg "ref" in
  if is_not_None ack_ref then
    self <- get ;;
    if deque_contains ack_ref (ClientConn.seen_refs self) then
      emit (Log DEBUG "Got duplicate ref, ignoring msg")
    else
      ClientConn.set_seen_refs
        (deque_append ack_ref (ClientConn.seen_refs self)) ;;
      invoke_and_reply plugin o msg name func
  else invoke_and_reply plugin o msg name func.

(** Lines 31-56: resolution and what follows it. *)
Definition resolve_and_dispatch (plugin : Plugin) (o : os) (msg : dict)
    : M ClientConn.t unit :=
  target <- ClientConn.getattr_plugin plugin (dict_get msg "target") ;;
  name <- subscript msg "func" ;;
  func <- ClientConn.getattr_default target name ;;
  if negb (ClientConn.attr_truthy func) then ret tt
  else dedup_and_invoke plugin o msg name func.

(** The method is its stages, one after the other. *)
Lemma on_message_stages (plugin : Plugin) (o : os) (msg : dict) :
  on_message_to_plugin plugin o msg =
  (check_identity plugin msg ;; resolve_and_dispatch plugin o msg).
Proof. reflexivity. Qed.

Lemma dict_get_lookup (d : dict) (k : string) :
  truthy (dict_get d k) = true -> dict_lookup k d = Some (dict_get d k).
Proof.
  unfold dict_get. destruct (dict_lookup k d); [ reflexivity | discriminate ].
Qed.

Lemma check_identity_passes {plugin : Plugin} {msg : dict}
    (s : ClientConn.t) :
  passes_identity plugin msg ->
  check_identity plugin msg s = (Done tt, s, []).
Proof.
  unfold check_identity. intros [ Hfalse | (theirs & Hid & Heq) ].
  - rewrite Hfalse. reflexivity.
  - destruct (truthy (dict_get msg "printer_id")) eqn:Ht; [ | reflexivity ].
    run_method. rewrite (dict_get_lookup _ _ Ht), Hid. run_method.
    unfold py_ne. rewrite Heq. reflexivity.
Qed.

Lemma check_identity_mismatch {plugin : Plugin} {msg : dict}
    {theirs : pyval} (s : ClientConn.t) :
  truthy (dict_get msg "printer_id") = true ->
  dict_lookup "id" (linked_printer plugin) = Some theirs ->
  py_ne (dict_get msg "printer_id") theirs = true ->
  check_identity plugin msg s = (Raise (Exception_ "printer_id mismatch"), s, []).
Proof.
  intros Ht Hid Hne. unfold check_identity. rewrite Ht.
  run_method. rewrite (dict_get_lookup _ _ Ht), Hid. run_method.
  rewrite Hne. reflexivity.
Qed.

Lemma past_identity (plugin : Plugin) (o : os) (msg : dict)
    (s : ClientConn.t) :
  passes_identity plugin msg ->
  on_message_to_plugin plugin o msg s = resolve_and_dispatch plugin o msg s.
Proof.
  intros Hid. rewrite on_message_stages.
  rewrite (bind_done _ (check_identity_passes s Hid)).
  cbn [app]. symmetry. apply result_eta.
Qed.

Lemma past_resolution (plugin : Plugin) (o : os) (msg : dict)
    {tn fn : string} {f : attr} (s : ClientConn.t) :
  resolves_to plugin msg tn fn f ->
  ClientConn.attr_truthy (Some f) = true ->
  resolve_and_dispatch plugin o msg s =
  dedup_and_invoke plugin o msg (PyStr fn) (Some f) s.
Proof.
  intros (Ht & Hf & target & Hp & Ha) Htrue.
  unfold resolve_and_dispatch. rewrite Ht.
  unfold ClientConn.getattr_plugin, ClientConn.getattr_default, subscript.
  rewrite Hp, Hf.
  unfold bind at 1. unfold ret at 1. unfold bind at 1. unfold ret at 1.
  unfold bind at 1. unfold ret at 1. rewrite Ha, Htrue. cbn [negb app].
  destruct (dedup_and_invoke plugin o msg (PyStr fn) (Some f) s)
    as [[r s'] tr].
  reflexivity.
Qed.

(** *** The dedup gate *)

Lemma dedup_duplicate (plugin : Plugin) (o : os) (msg : dict)
    (name : pyval) (func : option attr) (s : ClientConn.t) :
  is_not_None (dict_get msg "ref") = true ->
  deque_contains (dict_get msg "ref") (ClientConn.seen_refs s) = true ->
  dedup_and_invoke plugin o msg name func s =
  (Done tt, s, [Log DEBUG "Got duplicate ref, ignoring msg"]).
Proof.
  intros Hsome Hin. unfold dedup_and_invoke. rewrite Hsome.
  run_method. rewrite Hin. reflexivity.
Qed.

Lemma dedup_fresh (plugin : Plugin) (o : os) (msg : dict)
    (name : pyval) (func : option attr) (s : ClientConn.t) :
  is_not_None (dict_get msg "ref") = true ->
  deque_contains (dict_get msg "ref") (ClientConn.seen_refs s) = false ->
  dedup_and_invoke plugin o msg name func s =
  invoke_and_reply plugin o msg name func
    (with_ledger (deque_append (dict_get msg "ref") (ClientConn.seen_refs s)) s).
Proof.
  intros Hsome Hin. unfold dedup_and_invoke. rewrite Hsome.
  unfold bind at 1. unfold get at 1. rewrite Hin.
  unfold bind at 1. unfold ClientConn.set_seen_refs at 1.
  fold (with_ledger (deque_append (dict_get msg "ref") (ClientConn.seen_refs s)) s).
  destruct (invoke_and_reply plugin o msg name func _) as [[r s'] tr].
  reflexivity.
Qed.

Lemma dedup_no_ref (plugin : Plugin) (o : os) (msg : dict)
    (name : pyval) (func : option attr) (s : ClientConn.t) :
  dict_get msg "ref" = PyNone ->
  dedup_and_invoke plugin o msg name func s =
  invoke_and_reply plugin o msg name func s.
Proof. intros Hnone. unfold dedup_and_invoke. rewrite Hnone. reflexivity. Qed.

(** *** The reply to the client *)

Lemma send_msg_to_client_unlinked (plugin : Plugin) (o : os) (data : dict)
    (s : ClientConn.t) :
  truthy (dict_get (linked_printer plugin) "id") = false ->
  send_msg_to_client plugin o data s = (Done tt, s, []).
Proof.
  intros Hid. unfold send_msg_to_client, ClientConn.send_msg_to_client.
  rewrite Hid. reflexivity.
Qed.

Lemma send_msg_to_client_linked (plugin : Plugin) (o : os) (data : dict)
    (id : pyval) (s : ClientConn.t) :
  dict_lookup "id" (linked_printer plugin) = Some id ->
  truthy id = true ->
  let payload :=
    zlib_compress (json_dumps (PyDict (dict_set "printer_id" id data))) in
  let r := send o payload (ClientConn.data_channel_conn s) in
  send_msg_to_client plugin o data s =
  (outcome r, ClientConn.set_data_channel_conn (fields r) s,
   DataChannelSend payload :: effects r).
Proof.
  intros Hid Ht payload r. subst payload r.
  unfold send_msg_to_client, ClientConn.send_msg_to_client, dict_get.
  rewrite Hid, Ht. cbn [negb]. run_method. rewrite Hid. run_method.
  unfold send.
  destruct (DataChannelConn.send _ _ _ _ _) as [[r c] tr]. reflexivity.
Qed.

Lemma ledger_blind_send_msg_to_client (plugin : Plugin) (o : os)
    (data : dict) :
  ledger_blind (send_msg_to_client plugin o data).
Proof.
  unfold send_msg_to_client, ClientConn.send_msg_to_client.
  destruct (negb _); [ apply ledger_blind_ret | ].
  apply ledger_blind_bind; [ apply ledger_blind_subscript | intro ].
  repeat ledger_blind_step.
Qed.

Lemma ledger_blind_check_identity (plugin : Plugin) (msg : dict) :
  ledger_blind (check_identity plugin msg).
Proof.
  unfold check_identity.
  destruct (truthy _); [ | apply ledger_blind_ret ].
  repeat (apply ledger_blind_bind; [ apply ledger_blind_subscript | intro ]).
  repeat ledger_blind_step.
Qed.

Lemma ledger_blind_invoke_and_reply (plugin : Plugin) (o : os) (msg : dict)
    (name : pyval) (func : option attr) :
  ledger_blind (invoke_and_reply plugin o msg name func).
Proof.
  unfold invoke_and_reply.
  apply ledger_blind_bind; [ apply ledger_blind_star_args | intro ].
  apply ledger_blind_bind; [ apply ledger_blind_call | intro ].
  apply ledger_blind_bind; [ | intro; repeat ledger_blind_step ].
  destruct (truthy _); [ | apply ledger_blind_ret ].
  apply ledger_blind_bind; [ apply ledger_blind_emit | intro ].
  apply ledger_blind_send_msg_to_client.
Qed.

Lemma counts_after_send (payload : list byte) (tr : list event) :
  forallb transport_event tr = true ->
  count is_invoke (DataChannelSend payload :: tr) = 0 /\
  count is_ws_reply (DataChannelSend payload :: tr) = 0 /\
  count is_transport_reply (DataChannelSend payload :: tr) <= 1.
Proof.
  intros Htr.
  change (DataChannelSend payload :: tr) with ([DataChannelSend payload] ++ tr).
  rewrite !count_app.
  rewrite (count_none is_invoke _ _ Htr),
    (count_none is_ws_reply _ _ Htr),
    (count_none is_transport_reply _ _ Htr);
    try (intros [ ]; simpl; congruence).
  cbn. repeat split; lia.
Qed.

Lemma send_msg_to_client_counts (plugin : Plugin) (o : os) (data : dict)
    (s : ClientConn.t) :
  let tr := effects (send_msg_to_client plugin o data s) in
  count is_invoke tr = 0 /\ count is_ws_reply tr = 0 /\
  count is_transport_reply tr <= 1.
Proof.
  destruct (truthy (dict_get (linked_printer plugin) "id")) eqn:Hid.
  - pose proof (dict_get_lookup _ _ Hid) as Hlook.
    pose proof (send_msg_to_client_linked plugin o data _ s Hlook Hid) as E.
    cbv zeta in E. rewrite E. cbv zeta.
    unfold effects at 1 3 5. cbn [snd].
    apply counts_after_send. apply send_effects_transport.
  - rewrite (send_msg_to_client_unlinked plugin o data s Hid).
    cbn. repeat split; lia.
Qed.

(** *** Invocation and reply, for an envelope that resolved to [h] *)

Section Invocation.

Variables (plugin : Plugin) (o : os) (msg : dict) (tn fn : string).
Variables (h : list pyval -> call_result) (args : list pyval).

Hypothesis Htarget : dict_get msg "target" = PyStr tn.
Hypothesis Hargs :
  ClientConn.unpack (dict_get_default msg "args" (PyList [])) = Some args.

Let run := invoke_and_reply plugin o msg (PyStr fn) (Some (Callable h)).
Let ws_reply (v : pyval) : pyval :=
  PyDict [("passthru", PyDict [("ref", dict_get msg "ref"); ("ret", v)])].
Let client_reply (v : pyval) : dict :=
  [("ref", dict_get msg "ref"); ("ret", v); ("_webrtc", PyBool true)].

Lemma invoke_raises (s : ClientConn.t) {e : exn} :
  h args = Raises e -> run s = (Raise e, s, [Invoke tn fn args]).
Proof.
  intros Hh. unfold run, invoke_and_reply, ClientConn.star_args,
    ClientConn.call.
  rewrite Hargs, Htarget. run_method. rewrite Hh. reflexivity.
Qed.

Lemma invoke_without_reply (s : ClientConn.t) {v : pyval} :
  h args = Returns v -> truthy (dict_get msg "ref") = false ->
  run s = (Done tt, s, [Invoke tn fn args; Sleep 200; PostUpdate]).
Proof.
  intros Hh Hfalse. unfold run, invoke_and_reply, ClientConn.star_args,
    ClientConn.call.
  rewrite Hargs, Htarget, Hfalse. run_method. rewrite Hh. reflexivity.
Qed.

Lemma invoke_with_reply (s : ClientConn.t) {v : pyval} :
  h args = Returns v -> truthy (dict_get msg "ref") = true ->
  let r := send_msg_to_client plugin o (client_reply v) s in
  run s =
  (outcome r, fields r,
   Invoke tn fn args :: SendWs (ws_reply v) :: effects r ++
   match outcome r with
   | Done _ => [Sleep 200; PostUpdate]
   | Raise _ => []
   end).
Proof.
  intros Hh Htrue r. subst r.
  unfold run, invoke_and_reply, ClientConn.star_args, ClientConn.call.
  rewrite Hargs, Htarget, Htrue. run_method. rewrite Hh.
  fold (client_reply v).
  destruct (send_msg_to_client plugin o (client_reply v) s)
    as [[[ [] | e ] s'] tr]; unfold outcome, fields, effects;
    cbn [fst snd app]; [ reflexivity | ].
  rewrite app_nil_r. reflexivity.
Qed.

(** One invocation, at most one reply on each channel. *)
Lemma invoke_and_reply_counts (s : ClientConn.t) :
  exists tr,
    effects (run s) = Invoke tn fn args :: tr /\
    count is_invoke tr = 0 /\
    count is_ws_reply tr <= 1 /\
    count is_transport_reply tr <= 1.
Proof.
  destruct (h args) as [ v | e ] eqn:Hh.
  - destruct (truthy (dict_get msg "ref")) eqn:Href.
    + rewrite (invoke_with_reply s Hh Href).
      destruct (send_msg_to_client_counts plugin o (client_reply v) s)
        as (Hi & Hw & Ht).
      eexists. split; [ reflexivity | ].
      change (SendWs (ws_reply v) :: ?l) with ([SendWs (ws_reply v)] ++ l).
      rewrite !count_app, Hi, Hw.
      destruct (outcome _); cbn; repeat split; lia.
    + rewrite (invoke_without_reply s Hh Href).
      eexists. split; [ reflexivity | ]. cbn. repeat split; lia.
  - rewrite (invoke_raises s Hh).
    eexists. split; [ reflexivity | ]. cbn. repeat split; lia.
Qed.

End Invocation.

(** *** The whole method on an envelope that passes the first stages *)

Lemma on_message_routed (plugin : Plugin) (o : os) (msg : dict)
    {tn fn : string} {f : attr} (s : ClientConn.t) :
  passes_identity plugin msg ->
  resolves_to plugin msg tn fn f ->
  ClientConn.attr_truthy (Some f) = true ->
  on_message_to_plugin plugin o msg s =
  dedup_and_invoke plugin o msg (PyStr fn) (Some f) s.
Proof.
  intros Hid Hres Htrue. rewrite (past_identity plugin o msg s Hid).
  apply (past_resolution plugin o msg s Hres Htrue).
Qed.

Lemma on_message_duplicate (plugin : Plugin) (o : os) (msg : dict)
    {tn fn : string} {f : attr} (s : ClientConn.t) :
  passes_identity plugin msg ->
  resolves_to plugin msg tn fn f ->
  ClientConn.attr_truthy (Some f) = true ->
  is_not_None (dict_get msg "ref") = true ->
  deque_contains (dict_get msg "ref") (ClientConn.seen_refs s) = true ->
  on_message_to_plugin plugin o msg s =
  (Done tt, s, [Log DEBUG "Got duplicate ref, ignoring msg"]).
Proof.
  intros Hid Hres Htrue Hsome Hin.
  rewrite (on_message_routed plugin o msg s Hid Hres Htrue).
  apply dedup_duplicate; assumption.
Qed.

Lemma on_message_fresh (plugin : Plugin) (o : os) (msg : dict)
    {tn fn : string} {f : attr} (s : ClientConn.t) :
  passes_identity plugin msg ->
  resolves_to plugin msg tn fn f ->
  ClientConn.attr_truthy (Some f) = true ->
  is_not_None (dict_get msg "ref") = true ->
  deque_contains (dict_get msg "ref") (ClientConn.seen_refs s) = false ->
  on_message_to_plugin plugin o msg s =
  invoke_and_reply plugin o msg (PyStr fn) (Some f)
    (with_ledger (deque_append (dict_get msg "ref") (ClientConn.seen_refs s)) s).
Proof.
  intros Hid Hres Htrue Hsome Hin.
  rewrite (on_message_routed plugin o msg s Hid Hres Htrue).
  apply dedup_fresh; assumption.
Qed.

(** A fresh ref is in the ledger when the method is left, however the
    invocation ended. *)
Lemma on_message_records (plugin : Plugin) (o : os) (msg : dict)
    {tn fn : string} {f : attr} (s : ClientConn.t) :
  passes_identity plugin msg ->
  resolves_to plugin msg tn fn f ->
  ClientConn.attr_truthy (Some f) = true ->
  is_not_None (dict_get msg "ref") = true ->
  deque_contains (dict_get msg "ref") (ClientConn.seen_refs s) = false ->
  ClientConn.seen_refs (fields (on_message_to_plugin plugin o msg s)) =
  deque_append (dict_get msg "ref") (ClientConn.seen_refs s).
Proof.
  intros Hid Hres Htrue Hsome Hin.
  rewrite (on_message_fresh plugin o msg s Hid Hres Htrue Hsome Hin).
  rewrite (ledger_blind_keeps _
             (ledger_blind_invoke_and_reply plugin o msg (PyStr fn) (Some f))).
  reflexivity.
Qed.

(** No item of the ledger equals [x]: the lookup finds nothing. *)
Lemma deque_contains_none (x : pyval) (d : deque) :
  Forall (fun item => py_eq item x = false) (items d) ->
  deque_contains x d = false.
Proof.
  unfold deque_contains. induction 1 as [ | item l Hitem _ IH ];
    [ reflexivity | ].
  cbn [existsb]. rewrite Hitem, IH. reflexivity.
Qed.

(** What the lookup finds is an item of the ledger that equals [x]. *)
Lemma deque_contains_some (x : pyval) (d : deque) :
  deque_contains x d = true ->
  Exists (fun item => py_eq item x = true) (items d).
Proof.
  unfold deque_contains. intros H.
  apply existsb_exists in H as (item & Hin & Heq).
  apply Exists_exists. exists item. split; assumption.
Qed.

(** C1: an envelope with a dedup ref [R] that passes the identity check and
    resolves to an operation is submitted twice in a row.  If no item of the
    ledger equals [R] at the first arrival (as on a new connection), the
    operation is invoked exactly once, by the first arrival, and [R] is
    appended to the ledger.  In every case there is at most one invocation
    and at most one reply on each channel, and the second arrival finds an
    item equal to [R] in the ledger, leaves the fields (so the ledger) as
    they are and returns with nothing but the debug trace. *)
Theorem duplicate_envelope_processed_once
    (plugin : Plugin) (o o' : os) (msg : dict) (tn fn : string)
    (h : list pyval -> call_result) (args : list pyval) (R : pyval)
    (s : ClientConn.t) :
  ledger_ok (ClientConn.seen_refs s) ->
  passes_identity plugin msg ->
  resolves_to plugin msg tn fn (Callable h) ->
  ClientConn.unpack (dict_get_default msg "args" (PyList [])) = Some args ->
  dict_get msg "ref" = R ->
  is_not_None R = true ->
  let first := on_message_to_plugin plugin o msg s in
  let second := on_message_to_plugin plugin o' msg (fields first) in
  (Forall (fun item => py_eq item R = false) (items (ClientConn.seen_refs s)) ->
   (exists tr,
      effects first = Invoke tn fn args :: tr /\
      count is_invoke (tr ++ effects second) = 0) /\
   count is_invoke (effects first ++ effects second) = 1 /\
   items (ClientConn.seen_refs (fields first)) =
     lastn 25 (items (ClientConn.seen_refs s) ++ [R])) /\
  count is_invoke (effects first ++ effects second) <= 1 /\
  count is_ws_reply (effects first ++ effects second) <= 1 /\
  count is_transport_reply (effects first ++ effects second) <= 1 /\
  Exists (fun item => py_eq item R = true)
         (items (ClientConn.seen_refs (fields first))) /\
  deque_contains R (ClientConn.seen_refs (fields first)) = true /\
  second =
    (Done tt, fields first, [Log DEBUG "Got duplicate ref, ignoring msg"]).
Proof.
  intros Hok Hid Hres Hargs HR Hsome first second. subst R.
  assert (Htrue : ClientConn.attr_truthy (Some (Callable h)) = true)
    by reflexivity.
  assert (Htn : dict_get msg "target" = PyStr tn) by apply Hres.
  assert (Hseen :
    deque_contains (dict_get msg "ref") (ClientConn.seen_refs (fields first)) = true).
  { subst first.
    destruct (deque_contains (dict_get msg "ref") (ClientConn.seen_refs s))
      eqn:Hin.
    - rewrite (on_message_duplicate plugin o msg s Hid Hres Htrue Hsome Hin).
      exact Hin.
    - rewrite (on_message_records plugin o msg s Hid Hres Htrue Hsome Hin).
      apply deque_contains_append_self. destruct Hok as [Hm _]. lia. }
  assert (Hsecond : second =
    (Done tt, fields first, [Log DEBUG "Got duplicate ref, ignoring msg"])).
  { subst second.
    apply (on_message_duplicate plugin o' msg (fields first)
             Hid Hres Htrue Hsome Hseen). }
  assert (Hrecorded :
    deque_contains (dict_get msg "ref") (ClientConn.seen_refs s) = false ->
    items (ClientConn.seen_refs (fields first)) =
      lastn 25 (items (ClientConn.seen_refs s) ++ [dict_get msg "ref"])).
  { intros Hin. subst first.
    rewrite (on_message_records plugin o msg s Hid Hres Htrue Hsome Hin).
    destruct Hok as [Hm Hl].
    rewrite deque_append_items by lia. rewrite Hm. reflexivity. }
  pose proof (deque_contains_some _ _ Hseen) as Hitem.
  rewrite Hsecond. unfold effects at 2 4 6 8 10. cbn [snd].
  assert (Hfirst :
    (deque_contains (dict_get msg "ref") (ClientConn.seen_refs s) = true /\
     effects first = [Log DEBUG "Got duplicate ref, ignoring msg"]) \/
    (deque_contains (dict_get msg "ref") (ClientConn.seen_refs s) = false /\
     exists tr, effects first = Invoke tn fn args :: tr /\
       count is_invoke tr = 0 /\ count is_ws_reply tr <= 1 /\
       count is_transport_reply tr <= 1)).
  { subst first.
    destruct (deque_contains (dict_get msg "ref") (ClientConn.seen_refs s))
      eqn:Hin.
    - left. split; [ reflexivity | ].
      rewrite (on_message_duplicate plugin o msg s Hid Hres Htrue Hsome Hin).
      reflexivity.
    - right. split; [ reflexivity | ].
      rewrite (on_message_fresh plugin o msg s Hid Hres Htrue Hsome Hin).
      apply (invoke_and_reply_counts plugin o msg tn fn h args Htn Hargs). }
  destruct Hfirst as [ (Hin & E) | (Hin & tr & E & Hi & Hw & Ht) ].
  - split.
    { intros Hfresh. apply deque_contains_none in Hfresh. congruence. }
    rewrite E. repeat split; try (cbn; lia); assumption.
  - split.
    { intros _. rewrite E. split; [ | split ].
      - exists tr. split; [ reflexivity | ].
        rewrite count_app, Hi. reflexivity.
      - change (Invoke tn fn args :: tr) with ([Invoke tn fn args] ++ tr).
        rewrite !count_app, Hi. reflexivity.
      - apply Hrecorded, Hin. }
    rewrite E. repeat split; try assumption.
    + change (Invoke tn fn args :: tr) with ([Invoke tn fn args] ++ tr).
      rewrite !count_app, Hi. cbn. lia.
    + change (Invoke tn fn args :: tr) with ([Invoke tn fn args] ++ tr).
      rewrite !count_app. cbn. lia.
    + change (Invoke tn fn args :: tr) with ([Invoke tn fn args] ++ tr).
      rewrite !count_app. cbn. lia.
Qed.

(** *** Envelopes without a ref *)

Lemma ledger_blind_without_ref (plugin : Plugin) (o : os) (msg : dict) :
  dict_get msg "ref" = PyNone ->
  ledger_blind (on_message_to_plugin plugin o msg).
Proof.
  intros Hnone. rewrite on_message_stages.
  apply ledger_blind_bind; [ apply ledger_blind_check_identity | intro ].
  unfold resolve_and_dispatch.
  apply ledger_blind_bind; [ apply ledger_blind_getattr_plugin | intro ].
  apply ledger_blind_bind; [ apply ledger_blind_subscript | intro ].
  apply ledger_blind_bind; [ apply ledger_blind_getattr_default | intro ].
  destruct (negb _); [ apply ledger_blind_ret | ].
  unfold dedup_and_invoke. rewrite Hnone. cbn [is_not_None].
  apply ledger_blind_invoke_and_reply.
Qed.

(** C8: for an envelope whose ref is absent or null the ledger is neither
    read nor written: the ledger is the same after the call, the outcome,
    the effects and the other fields are those of a run with any other
    ledger, and an envelope that passes the identity check and resolves to
    an operation has that operation invoked, on the items of its [args] (on
    no argument when it has no [args]), whatever the ledger holds. *)
Theorem envelope_without_ref_bypasses_ledger
    (plugin : Plugin) (o : os) (msg : dict) (s : ClientConn.t) :
  dict_lookup "ref" msg = None \/ dict_lookup "ref" msg = Some PyNone ->
  let r := on_message_to_plugin plugin o msg s in
  ClientConn.seen_refs (fields r) = ClientConn.seen_refs s /\
  (forall d : deque,
     on_message_to_plugin plugin o msg (with_ledger d s) =
     (outcome r, with_ledger d (fields r), effects r)) /\
  (forall (tn fn : string) (h : list pyval -> call_result)
          (args : list pyval),
     passes_identity plugin msg ->
     resolves_to plugin msg tn fn (Callable h) ->
     dict_get_default msg "args" (PyList []) = PyList args ->
     exists tr, effects r = Invoke tn fn args :: tr).
Proof.
  intros Href r.
  assert (Hnone : dict_get msg "ref" = PyNone).
  { unfold dict_get. destruct Href as [ E | E ]; rewrite E; reflexivity. }
  pose proof (ledger_blind_without_ref plugin o msg Hnone) as Hblind.
  split; [ apply (ledger_blind_keeps s Hblind) | ].
  split; [ intros d; apply Hblind | ].
  intros tn fn h args Hid Hres Hlist. subst r.
  assert (Hargs :
    ClientConn.unpack (dict_get_default msg "args" (PyList [])) = Some args)
    by (rewrite Hlist; reflexivity).
  rewrite (on_message_routed plugin o msg s Hid Hres eq_refl).
  rewrite dedup_no_ref by exact Hnone.
  destruct (invoke_and_reply_counts plugin o msg tn fn h args
              (proj1 Hres) Hargs s) as (tr & E & _).
  exists tr. exact E.
Qed.

(** *** The two presence tests on the ref *)

(** C10: a ref that is present but false (the empty string, 0) passes the
    [is not None] test of the dedup gate and fails the truth test of the
    reply gate: for a non-duplicate envelope that resolved to an operation
    returning [v], the ref is appended to the ledger, the operation is
    invoked, nothing is sent on either channel, and the settle delay and
    the status refresh follow. *)
Theorem falsy_ref_recorded_but_unanswered
    (plugin : Plugin) (o : os) (msg : dict) (tn fn : string)
    (h : list pyval -> call_result) (args : list pyval) (R v : pyval)
    (s : ClientConn.t) :
  passes_identity plugin msg ->
  resolves_to plugin msg tn fn (Callable h) ->
  ClientConn.unpack (dict_get_default msg "args" (PyList [])) = Some args ->
  dict_get msg "ref" = R ->
  is_not_None R = true ->
  truthy R = false ->
  deque_contains R (ClientConn.seen_refs s) = false ->
  h args = Returns v ->
  on_message_to_plugin plugin o msg s =
  (Done tt,
   with_ledger (deque_append R (ClientConn.seen_refs s)) s,
   [Invoke tn fn args; Sleep 200; PostUpdate]).
Proof.
  intros Hid Hres Hargs HR Hsome Hfalse Hfresh Hh. subst R.
  rewrite (on_message_fresh plugin o msg s Hid Hres eq_refl Hsome Hfresh).
  apply (invoke_without_reply plugin o msg tn fn h args (proj1 Hres) Hargs
           _ Hh Hfalse).
Qed.


(** *** The identity check *)

(** C5 (amended): an envelope whose [printer_id] is true and differs from
    the id of the linked printer is aborted with the mismatch error before
    anything else happens: the fields (so the ledger) are untouched and
    there is no effect at all; an envelope whose [printer_id] is absent,
    false, or equal to the linked id goes on to resolution. *)
Theorem identity_check_guards_dispatch
    (plugin : Plugin) (o : os) (msg : dict) (s : ClientConn.t) :
  (forall theirs,
     truthy (dict_get msg "printer_id") = true ->
     dict_lookup "id" (linked_printer plugin) = Some theirs ->
     py_ne (dict_get msg "printer_id") theirs = true ->
     on_message_to_plugin plugin o msg s =
     (Raise (Exception_ "printer_id mismatch"), s, [])) /\
  (passes_identity plugin msg ->
   on_message_to_plugin plugin o msg s = resolve_and_dispatch plugin o msg s).
Proof.
  split.
  - intros theirs Ht Hid Hne. rewrite on_message_stages.
    apply bind_raise. apply (check_identity_mismatch s Ht Hid Hne).
  - apply past_identity.
Qed.

(** *** Resolution *)

(** An unknown operation on a known group: the envelope is dropped without
    a trace. *)
Lemma unknown_func_is_dropped (plugin : Plugin) (o : os) (msg : dict)
    (tn fn : string) (target : pyobj) (s : ClientConn.t) :
  passes_identity plugin msg ->
  dict_get msg "target" = PyStr tn ->
  plugin_attr plugin tn = Some target ->
  dict_lookup "func" msg = Some (PyStr fn) ->
  target fn = None ->
  on_message_to_plugin plugin o msg s = (Done tt, s, []).
Proof.
  intros Hid Ht Hp Hf Hnone. rewrite (past_identity plugin o msg s Hid).
  unfold resolve_and_dispatch, ClientConn.getattr_plugin,
    ClientConn.getattr_default.
  rewrite Ht, Hp. run_method. rewrite Hf. run_method. rewrite Hnone.
  reflexivity.
Qed.

(** C3 (what the code does): an envelope whose target names no attribute
    of the agent is not dropped silently: [getattr] has no default there,
    and the method leaves with [AttributeError]. *)
Theorem unknown_target_raises
    (plugin : Plugin) (o : os) (msg : dict) (tn : string)
    (s : ClientConn.t) :
  passes_identity plugin msg ->
  dict_get msg "target" = PyStr tn ->
  plugin_attr plugin tn = None ->
  on_message_to_plugin plugin o msg s = (Raise (AttributeError tn), s, []).
Proof.
  intros Hid Ht Hp. rewrite (past_identity plugin o msg s Hid).
  unfold resolve_and_dispatch, ClientConn.getattr_plugin.
  rewrite Ht, Hp. reflexivity.
Qed.

(** *** The reply to the client and the linked id *)

(** C9 (amended): when the linked printer has no id, or a false one (null,
    0, empty), [send_msg_to_client] returns at once: nothing is encoded,
    nothing handed to the transport, no field changes; when it has a true
    id, the id is stored under [printer_id] in the message, and the
    compressed encoding of that message is what the transport is handed. *)
Theorem client_reply_needs_linked_id
    (plugin : Plugin) (o : os) (data : dict) (s : ClientConn.t) :
  (truthy (dict_get (linked_printer plugin) "id") = false ->
   send_msg_to_client plugin o data s = (Done tt, s, [])) /\
  (forall id,
     dict_lookup "id" (linked_printer plugin) = Some id ->
     truthy id = true ->
     let payload :=
       zlib_compress (json_dumps (PyDict (dict_set "printer_id" id data))) in
     let r := send o payload (ClientConn.data_channel_conn s) in
     send_msg_to_client plugin o data s =
     (outcome r, ClientConn.set_data_channel_conn (fields r) s,
      DataChannelSend payload :: effects r)).
Proof.
  split.
  - apply send_msg_to_client_unlinked.
  - intros id. apply send_msg_to_client_linked.
Qed.

(** *** The ledger over a run of envelopes *)

(** One arrival: the agent and the operating system as they are then, and
    the envelope. *)
Definition arrival : Type := Plugin * os * dict.

Definition ref_of (a : arrival) : pyval := dict_get (snd a) "ref".

(** The fields after the arrivals have been handled one after the other
    (an exception ends one call, not the run). *)
Fixpoint dispatch_all (arrivals : list arrival) (s : ClientConn.t)
    : ClientConn.t :=
  match arrivals with
  | [] => s
  | (plugin, o, msg) :: rest =>
      dispatch_all rest (fields (on_message_to_plugin plugin o msg s))
  end.

(** The envelope gets as far as the dedup gate. *)
Definition reaches_ledger (a : arrival) : Prop :=
  passes_identity (fst (fst a)) (snd a) /\
  exists tn fn f,
    resolves_to (fst (fst a)) (snd a) tn fn f /\
    ClientConn.attr_truthy (Some f) = true.

(** A method body that leaves the ledger alone or appends [R] to it. *)
Definition ledger_steps {A : Type} (R : pyval) (m : M ClientConn.t A)
    : Prop :=
  forall s,
    ClientConn.seen_refs (fields (m s)) = ClientConn.seen_refs s \/
    ClientConn.seen_refs (fields (m s)) =
      deque_append R (ClientConn.seen_refs s).

Lemma ledger_steps_blind (A : Type) (R : pyval) (m : M ClientConn.t A) :
  ledger_blind m -> ledger_steps R m.
Proof. intros Hm s. left. apply (ledger_blind_keeps s Hm). Qed.

Lemma ledger_steps_bind (A B : Type) (R : pyval) (m : M ClientConn.t A)
    (k : A -> M ClientConn.t B) :
  ledger_blind m -> (forall a, ledger_steps R (k a)) ->
  ledger_steps R (bind m k).
Proof.
  intros Hm Hk s. pose proof (ledger_blind_keeps s Hm) as Hs.
  unfold bind. destruct (m s) as [[[ a | e ] s1] t1];
    unfold fields in *; cbn [fst snd] in *; [ | left; exact Hs ].
  specialize (Hk a s1). unfold fields in Hk.
  destruct (k a s1) as [[r s2] t2]. cbn [fst snd] in *.
  rewrite <- Hs. exact Hk.
Qed.

Lemma ledger_steps_dedup (plugin : Plugin) (o : os) (msg : dict)
    (name : pyval) (func : option attr) :
  ledger_steps (dict_get msg "ref")
    (dedup_and_invoke plugin o msg name func).
Proof.
  intros s.
  destruct (is_not_None (dict_get msg "ref")) eqn:Hsome.
  - destruct (deque_contains (dict_get msg "ref") (ClientConn.seen_refs s))
      eqn:Hin.
    + left. rewrite dedup_duplicate by assumption. reflexivity.
    + right. rewrite dedup_fresh by assumption.
      rewrite (ledger_blind_keeps _
        (ledger_blind_invoke_and_reply plugin o msg name func)).
      reflexivity.
  - left. rewrite dedup_no_ref
      by (destruct (dict_get msg "ref"); [ reflexivity | discriminate .. ]).
    apply (ledger_blind_keeps _
      (ledger_blind_invoke_and_reply plugin o msg name func)).
Qed.

(** Whatever the envelope, the ledger is left alone or gets the ref
    appended. *)
Lemma on_message_ledger_step (plugin : Plugin) (o : os) (msg : dict) :
  ledger_steps (dict_get msg "ref") (on_message_to_plugin plugin o msg).
Proof.
  rewrite on_message_stages.
  apply ledger_steps_bind; [ apply ledger_blind_check_identity | intro ].
  unfold resolve_and_dispatch.
  apply ledger_steps_bind; [ apply ledger_blind_getattr_plugin | intro ].
  apply ledger_steps_bind; [ apply ledger_blind_subscript | intro ].
  apply ledger_steps_bind; [ apply ledger_blind_getattr_default | intro ].
  destruct (negb _).
  - apply ledger_steps_blind, ledger_blind_ret.
  - apply ledger_steps_dedup.
Qed.

(** The ledger never outgrows its 25 places. *)
Lemma ledger_ok_on_message (plugin : Plugin) (o : os) (msg : dict)
    (s : ClientConn.t) :
  ledger_ok (ClientConn.seen_refs s) ->
  ledger_ok (ClientConn.seen_refs (fields (on_message_to_plugin plugin o msg s))).
Proof.
  intros Hok.
  destruct (on_message_ledger_step plugin o msg s) as [ E | E ]; rewrite E.
  - exact Hok.
  - apply deque_append_ok, Hok.
Qed.

Lemma ledger_ok_dispatch_all (arrivals : list arrival) (s : ClientConn.t) :
  ledger_ok (ClientConn.seen_refs s) ->
  ledger_ok (ClientConn.seen_refs (dispatch_all arrivals s)).
Proof.
  revert s. induction arrivals as [ | [[plugin o] msg] rest IH ]; intros s Hok.
  - exact Hok.
  - simpl. apply IH, ledger_ok_on_message, Hok.
Qed.

Lemma py_distinct_head (x y : pyval) (l : list pyval) :
  py_distinct (x :: l) = true -> In y l -> py_eq x y = false.
Proof.
  simpl. intros H Hy. apply andb_true_iff in H as [H _].
  apply negb_true_iff in H.
  destruct (py_eq x y) eqn:E; [ | reflexivity ].
  rewrite <- H. symmetry. apply existsb_exists. exists y. split; assumption.
Qed.

(** Fresh, pairwise different refs are appended one by one: the ledger
    ends up holding the last 25 of what it held followed by the new refs. *)
Lemma dispatch_all_fresh (arrivals : list arrival) (s : ClientConn.t) :
  ledger_ok (ClientConn.seen_refs s) ->
  Forall reaches_ledger arrivals ->
  Forall (fun a => is_not_None (ref_of a) = true) arrivals ->
  py_distinct (map ref_of arrivals) = true ->
  Forall (fun a => deque_contains (ref_of a) (ClientConn.seen_refs s) = false)
         arrivals ->
  items (ClientConn.seen_refs (dispatch_all arrivals s)) =
  lastn 25 (items (ClientConn.seen_refs s) ++ map ref_of arrivals).
Proof.
  revert s.
  induction arrivals as [ | [[plugin o] msg] rest IH ];
    intros s Hok Hreach Hsome Hdist Hfresh.
  - simpl. rewrite app_nil_r. unfold lastn. destruct Hok as [_ Hlen].
    replace (length (items (ClientConn.seen_refs s)) - 25) with 0 by lia.
    reflexivity.
  - inversion Hreach as [ | ? ? (Hid & tn & fn & f & Hres & Htrue) Hreach' ].
    inversion Hsome as [ | ? ? Hsome1 Hsome' ].
    inversion Hfresh as [ | ? ? Hfresh1 Hfresh' ]. subst.
    unfold ref_of in Hsome1, Hfresh1. cbn [fst snd] in *.
    pose proof (on_message_records plugin o msg s Hid Hres Htrue
                  Hsome1 Hfresh1) as Hrec.
    pose proof (ledger_ok_on_message plugin o msg s Hok) as Hok1.
    assert (Hitems :
      items (ClientConn.seen_refs (fields (on_message_to_plugin plugin o msg s))) =
      lastn 25 (items (ClientConn.seen_refs s) ++ [dict_get msg "ref"])).
    { rewrite Hrec. destruct Hok as [Hm Hl].
      rewrite deque_append_items by lia. rewrite Hm. reflexivity. }
    cbn [dispatch_all map].
    rewrite IH; try assumption.
    + rewrite Hitems, lastn_app, <- app_assoc. reflexivity.
    + simpl in Hdist. apply andb_true_iff in Hdist. apply Hdist.
    + apply Forall_forall. intros a Ha.
      unfold deque_contains. rewrite Hitems. apply existsb_skipn_false.
      rewrite existsb_app. apply orb_false_iff. split.
      * rewrite Forall_forall in Hfresh'. apply (Hfresh' a Ha).
      * simpl. rewrite orb_false_r.
        apply (py_distinct_head _ _ _ Hdist). apply in_map, Ha.
Qed.

(** C2: the ledger never holds more than 25 refs, and they are the latest
    inserted: after 26 pairwise different refs have been inserted, the
    ledger holds the last 25 of them, the first one is no longer found in
    it, and a later envelope that carries the first ref again (and passes
    the identity check and resolves to an operation) has its operation
    invoked again. *)
Theorem ledger_forgets_oldest_of_26
    (first : arrival) (later : list arrival) (s : ClientConn.t)
    (plugin : Plugin) (o : os) (msg : dict) (tn fn : string)
    (h : list pyval -> call_result) (args : list pyval) :
  ledger_ok (ClientConn.seen_refs s) ->
  length later = 25 ->
  Forall reaches_ledger (first :: later) ->
  Forall (fun a => is_not_None (ref_of a) = true) (first :: later) ->
  py_distinct (map ref_of (first :: later)) = true ->
  Forall (fun a => deque_contains (ref_of a) (ClientConn.seen_refs s) = false)
         (first :: later) ->
  passes_identity plugin msg ->
  resolves_to plugin msg tn fn (Callable h) ->
  ClientConn.unpack (dict_get_default msg "args" (PyList [])) = Some args ->
  dict_get msg "ref" = ref_of first ->
  let s' := dispatch_all (first :: later) s in
  length (items (ClientConn.seen_refs s')) <= 25 /\
  items (ClientConn.seen_refs s') = map ref_of later /\
  deque_contains (ref_of first) (ClientConn.seen_refs s') = false /\
  exists tr,
    effects (on_message_to_plugin plugin o msg s') = Invoke tn fn args :: tr.
Proof.
  intros Hok Hlen Hreach Hsome Hdist Hfresh Hid Hres Hargs Href s'.
  assert (Hitems : items (ClientConn.seen_refs s') = map ref_of later).
  { subst s'. rewrite dispatch_all_fresh by assumption.
    cbn [map]. apply lastn_overflow; [ apply Hok | ].
    simpl. rewrite length_map. lia. }
  assert (Hgone : deque_contains (ref_of first) (ClientConn.seen_refs s') = false).
  { unfold deque_contains. rewrite Hitems.
    destruct (existsb _ _) eqn:E; [ | reflexivity ].
    apply existsb_exists in E as (y & Hy & Hyx).
    rewrite py_eq_sym in Hyx.
    cbn [map] in Hdist. rewrite (py_distinct_head _ _ _ Hdist Hy) in Hyx.
    discriminate. }
  split; [ rewrite Hitems, length_map; lia | ].
  split; [ exact Hitems | ].
  split; [ exact Hgone | ].
  assert (Hsome1 : is_not_None (dict_get msg "ref") = true).
  { rewrite Href. inversion Hsome. assumption. }
  rewrite <- Href in Hgone.
  rewrite (on_message_fresh plugin o msg s' Hid Hres eq_refl Hsome1 Hgone).
  destruct (invoke_and_reply_counts plugin o msg tn fn h args
              (proj1 Hres) Hargs
              (with_ledger (deque_append (dict_get msg "ref")
                              (ClientConn.seen_refs s')) s'))
    as (tr & E & _).
  exists tr. exact E.
Qed.

End Dispatcher.

(** * A concrete agent, and the properties on it *)

Module Scenario.

(** [printer.set_temperature], which returns [None]. *)
Definition set_temperature (args : list pyval) : call_result := Returns PyNone.

Definition printer : pyobj :=
  fun name =>
    if String.eqb name "set_temperature" then Some (Callable set_temperature)
    else None.

(** An agent linked to the printer ["p1"]. *)
Definition plugin : Plugin := {|
  linked_printer := [("is_pro", PyBool false); ("id", PyStr "p1")];
  plugin_attr := fun name => if String.eqb name "printer" then Some printer else None
|}.

(** The same agent before it is linked. *)
Definition unlinked_plugin : Plugin := {|
  linked_printer := [("is_pro", PyBool false)];
  plugin_attr := plugin_attr plugin
|}.

(** The same agent linked to a printer whose id is 7. *)
Definition plugin_id_7 : Plugin := {|
  linked_printer := [("is_pro", PyBool false); ("id", PyInt 7)];
  plugin_attr := plugin_attr plugin
|}.

(** The same agent linked to a printer whose id is 0. *)
Definition plugin_id_0 : Plugin := {|
  linked_printer := [("is_pro", PyBool false); ("id", PyInt 0)];
  plugin_attr := plugin_attr plugin
|}.

(** Sockets open and datagrams leave. *)
Definition healthy : os := OS (Created 1) (fun _ _ => None).

(** Sockets open, every transmission fails with [OSError]. *)
Definition unreachable : os :=
  OS (Created 1) (fun _ _ => Some (OSError "Network is unreachable")).

Definition MAX_PAYLOAD_SIZE : Z := 1500.
Definition python_version : Z := 3.

(** Stand-ins for the two library encoders: the properties hold for any. *)
Definition json_dumps (v : pyval) : list byte := [x7b; x7d].
Definition zlib_compress (payload : list byte) : list byte :=
  x78 :: x9c :: payload.

Definition conn : ClientConn.t := ClientConn.__init__ "127.0.0.1" 8009.

Definition on_message_to_plugin :=
  ClientConn.on_message_to_plugin MAX_PAYLOAD_SIZE python_version
    json_dumps zlib_compress.

Definition envelope (ref : pyval) : dict :=
  [("target", PyStr "printer"); ("func", PyStr "set_temperature");
   ("args", PyList [PyInt 200]); ("ref", ref)].

Definition envelope_without_ref : dict :=
  [("target", PyStr "printer"); ("func", PyStr "set_temperature");
   ("args", PyList [PyInt 200])].

(** Arrivals carrying the refs [n], [n+1], ... *)
Definition numbered (n : nat) : arrival :=
  (plugin, healthy, envelope (PyInt (Z.of_nat n))).

Lemma envelope_passes (ref : pyval) : passes_identity plugin (envelope ref).
Proof. left. reflexivity. Defined.

Lemma envelope_resolves (p : Plugin) (ref : pyval) :
  plugin_attr p = plugin_attr plugin ->
  resolves_to p (envelope ref) "printer" "set_temperature"
    (Callable set_temperature).
Proof.
  intros E. split; [ reflexivity | ]. split; [ reflexivity | ].
  exists printer. rewrite E. split; reflexivity.
Defined.

Lemma numbered_reaches (n : nat) : reaches_ledger (numbered n).
Proof.
  split; [ apply envelope_passes | ].
  exists "printer", "set_temperature", (Callable set_temperature).
  split; [ apply envelope_resolves; reflexivity | reflexivity ].
Defined.

End Scenario.

Import Scenario.

Lemma duplicate_envelope_processed_once_witness :
  let first := on_message_to_plugin plugin healthy (envelope (PyStr "abc123")) conn in
  let second :=
    on_message_to_plugin plugin healthy (envelope (PyStr "abc123")) (fields first) in
  ((exists tr,
      effects first = Invoke "printer" "set_temperature" [PyInt 200] :: tr /\
      count is_invoke (tr ++ effects second) = 0) /\
   count is_invoke (effects first ++ effects second) = 1 /\
   items (ClientConn.seen_refs (fields first)) =
     lastn 25 (items (ClientConn.seen_refs conn) ++ [PyStr "abc123"])) /\
  count is_invoke (effects first ++ effects second) <= 1 /\
  count is_ws_reply (effects first ++ effects second) <= 1 /\
  count is_transport_reply (effects first ++ effects second) <= 1 /\
  Exists (fun item => py_eq item (PyStr "abc123") = true)
         (items (ClientConn.seen_refs (fields first))) /\
  deque_contains (PyStr "abc123") (ClientConn.seen_refs (fields first)) = true /\
  second = (Done tt, fields first, [Log DEBUG "Got duplicate ref, ignoring msg"]).
Proof.
  unshelve epose proof
    (duplicate_envelope_processed_once MAX_PAYLOAD_SIZE python_version
       json_dumps zlib_compress plugin healthy healthy
       (envelope (PyStr "abc123")) "printer" "set_temperature"
       set_temperature [PyInt 200] (PyStr "abc123") conn _ _ _ _ _ _)
    as (Hfresh & Hrest).
  - split; [ reflexivity | simpl; lia ].
  - apply envelope_passes.
  - apply envelope_resolves. reflexivity.
  - reflexivity.
  - reflexivity.
  - reflexivity.
  - split; [ apply Hfresh; constructor | exact Hrest ].
Defined.

Lemma ledger_forgets_oldest_of_26_witness :
  let s' := dispatch_all MAX_PAYLOAD_SIZE python_version json_dumps
              zlib_compress (map numbered (seq 1 26)) conn in
  length (items (ClientConn.seen_refs s')) <= 25 /\
  items (ClientConn.seen_refs s') =
    map (fun n => PyInt (Z.of_nat n)) (seq 2 25) /\
  deque_contains (PyInt 1) (ClientConn.seen_refs s') = false /\
  exists tr,
    effects (on_message_to_plugin plugin healthy (envelope (PyInt 1)) s') =
    Invoke "printer" "set_temperature" [PyInt 200] :: tr.
Proof.
  apply (ledger_forgets_oldest_of_26 MAX_PAYLOAD_SIZE python_version
           json_dumps zlib_compress (numbered 1) (map numbered (seq 2 25))
           conn plugin healthy (envelope (PyInt 1)) "printer"
           "set_temperature" set_temperature [PyInt 200]).
  - split; [ reflexivity | simpl; lia ].
  - reflexivity.
  - apply Forall_forall. intros a Ha.
    change (numbered 1 :: map numbered (seq 2 25))
      with (map numbered (seq 1 26)) in Ha.
    apply in_map_iff in Ha as (n & <- & _). apply numbered_reaches.
  - repeat constructor.
  - vm_compute. reflexivity.
  - repeat constructor.
  - apply envelope_passes.
  - apply envelope_resolves. reflexivity.
  - reflexivity.
  - reflexivity.
Defined.

Lemma unknown_target_raises_witness :
  on_message_to_plugin plugin healthy
    [("target", PyStr "nozzle_cam"); ("func", PyStr "set_temperature");
     ("args", PyList [PyInt 200]); ("ref", PyStr "abc123")] conn =
  (Raise (AttributeError "nozzle_cam"), conn, []).
Proof.
  apply (unknown_target_raises MAX_PAYLOAD_SIZE python_version json_dumps
           zlib_compress plugin healthy).
  - left. reflexivity.
  - reflexivity.
  - reflexivity.
Defined.

Lemma failed_transmission_keeps_handle_witness :
  let send := DataChannelConn.send MAX_PAYLOAD_SIZE python_version in
  let self := DataChannelConn.Self "127.0.0.1" 8009 (Some 1) in
  send unreachable [x01] self =
    (Done tt, self,
     [SendTo 1 [x01] "127.0.0.1" 8009;
      Log ERROR "could not send to janus datachannel (%s)"]) /\
  exists rest,
    effects (send healthy [x02] (fields (send unreachable [x01] self))) =
    SendTo 1 [x02] "127.0.0.1" 8009 :: rest.
Proof.
  apply (failed_transmission_keeps_handle MAX_PAYLOAD_SIZE python_version
           unreachable healthy [x01] [x02] "127.0.0.1" 8009 1
           (OSError "Network is unreachable")).
  - vm_compute. discriminate.
  - vm_compute. discriminate.
  - reflexivity.
  - reflexivity.
Defined.

Lemma oversized_payload_is_dropped_witness :
  DataChannelConn.send MAX_PAYLOAD_SIZE python_version healthy
    (repeat x00 1501) (DataChannelConn.__init__ "127.0.0.1" 8009) =
  (Done tt, DataChannelConn.__init__ "127.0.0.1" 8009,
   [Log ERROR "datachannel payload too big (%s)"]).
Proof.
  apply (oversized_payload_is_dropped MAX_PAYLOAD_SIZE python_version healthy
           (repeat x00 1501) (DataChannelConn.__init__ "127.0.0.1" 8009)).
  vm_compute. reflexivity.
Defined.

Lemma envelope_without_ref_bypasses_ledger_witness :
  let s := with_ledger (Deque 25 [PyStr "abc123"]) conn in
  let r := on_message_to_plugin plugin healthy envelope_without_ref s in
  ClientConn.seen_refs (fields r) = ClientConn.seen_refs s /\
  (forall d : deque,
     on_message_to_plugin plugin healthy envelope_without_ref (with_ledger d s) =
     (outcome r, with_ledger d (fields r), effects r)) /\
  exists tr,
    effects r = Invoke "printer" "set_temperature" [PyInt 200] :: tr.
Proof.
  unshelve epose proof
    (envelope_without_ref_bypasses_ledger MAX_PAYLOAD_SIZE python_version
       json_dumps zlib_compress plugin healthy envelope_without_ref
       (with_ledger (Deque 25 [PyStr "abc123"]) conn) _)
    as (Hkept & Hblind & Hinvoked).
  - left. reflexivity.
  - split; [ exact Hkept | ]. split; [ exact Hblind | ].
    apply (Hinvoked "printer" "set_temperature" set_temperature [PyInt 200]).
    + left. reflexivity.
    + split; [ reflexivity | ]. split; [ reflexivity | ].
      exists printer. split; reflexivity.
    + reflexivity.
Defined.

Lemma falsy_ref_recorded_but_unanswered_witness :
  on_message_to_plugin plugin healthy (envelope (PyStr "")) conn =
  (Done tt, with_ledger (Deque 25 [PyStr ""]) conn,
   [Invoke "printer" "set_temperature" [PyInt 200]; Sleep 200; PostUpdate]).
Proof.
  apply (falsy_ref_recorded_but_unanswered MAX_PAYLOAD_SIZE python_version
           json_dumps zlib_compress plugin healthy (envelope (PyStr ""))
           "printer" "set_temperature" set_temperature [PyInt 200]
           (PyStr "") PyNone conn).
  - apply envelope_passes.
  - apply envelope_resolves. reflexivity.
  - reflexivity.
  - reflexivity.
  - reflexivity.
  - reflexivity.
  - reflexivity.
  - reflexivity.
Defined.


Lemma identity_check_guards_dispatch_witness :
  on_message_to_plugin plugin healthy
    (("printer_id", PyStr "other") :: envelope (PyStr "abc123")) conn =
  (Raise (Exception_ "printer_id mismatch"), conn, []) /\
  on_message_to_plugin plugin healthy
    (("printer_id", PyStr "p1") :: envelope (PyStr "abc123")) conn =
  resolve_and_dispatch MAX_PAYLOAD_SIZE python_version json_dumps zlib_compress
    plugin healthy (("printer_id", PyStr "p1") :: envelope (PyStr "abc123")) conn.
Proof.
  split.
  - apply (proj1 (identity_check_guards_dispatch MAX_PAYLOAD_SIZE
             python_version json_dumps zlib_compress plugin healthy
             (("printer_id", PyStr "other") :: envelope (PyStr "abc123")) conn)
             (PyStr "p1")); reflexivity.
  - apply (proj2 (identity_check_guards_dispatch MAX_PAYLOAD_SIZE
             python_version json_dumps zlib_compress plugin healthy
             (("printer_id", PyStr "p1") :: envelope (PyStr "abc123")) conn)).
    right. exists (PyStr "p1"). split; reflexivity.
Defined.

Lemma client_reply_needs_linked_id_witness :
  let data := [("ref", PyStr "abc123"); ("ret", PyNone); ("_webrtc", PyBool true)] in
  let send_msg_to_client :=
    ClientConn.send_msg_to_client MAX_PAYLOAD_SIZE python_version json_dumps
      zlib_compress in
  send_msg_to_client unlinked_plugin healthy data conn = (Done tt, conn, []) /\
  effects (send_msg_to_client plugin healthy data conn) =
    DataChannelSend
      (zlib_compress (json_dumps (PyDict
         [("ref", PyStr "abc123"); ("ret", PyNone); ("_webrtc", PyBool true);
          ("printer_id", PyStr "p1")]))) ::
    effects (DataChannelConn.send MAX_PAYLOAD_SIZE python_version healthy
               (zlib_compress (json_dumps (PyDict
                  [("ref", PyStr "abc123"); ("ret", PyNone);
                   ("_webrtc", PyBool true); ("printer_id", PyStr "p1")])))
               (ClientConn.data_channel_conn conn)).
Proof.
  intros data send_msg_to_client. split.
  - apply (proj1 (client_reply_needs_linked_id MAX_PAYLOAD_SIZE python_version
             json_dumps zlib_compress unlinked_plugin healthy data conn)).
    reflexivity.
  - unfold send_msg_to_client.
    rewrite (proj2 (client_reply_needs_linked_id MAX_PAYLOAD_SIZE
               python_version json_dumps zlib_compress plugin healthy data conn)
               (PyStr "p1") eq_refl eq_refl).
    reflexivity.
Defined.

(** ** Where the spec's wording and the code part *)

(** C5, as stated, fails: an envelope carries the [printer_id] 0, the
    linked printer's id is 7, the two differ, and yet no mismatch error is
    raised: the operation is invoked and the status refresh follows. *)
Lemma falsy_printer_id_is_not_checked :
  dict_lookup "printer_id" (("printer_id", PyInt 0) :: envelope_without_ref) =
    Some (PyInt 0) /\
  dict_lookup "id" (linked_printer plugin_id_7) = Some (PyInt 7) /\
  py_ne (PyInt 0) (PyInt 7) = true /\
  on_message_to_plugin plugin_id_7 healthy
    (("printer_id", PyInt 0) :: envelope_without_ref) conn =
  (Done tt, conn,
   [Invoke "printer" "set_temperature" [PyInt 200]; Sleep 200; PostUpdate]).
Proof. repeat split. Qed.


(** C9, as stated, fails: the linked printer has the id 0, and still
    nothing is encoded or handed to the transport. *)
Lemma present_id_0_suppresses_reply :
  dict_lookup "id" (linked_printer plugin_id_0) = Some (PyInt 0) /\
  ClientConn.send_msg_to_client MAX_PAYLOAD_SIZE python_version json_dumps
    zlib_compress plugin_id_0 healthy
    [("ref", PyStr "abc123"); ("ret", PyNone); ("_webrtc", PyBool true)] conn =
  (Done tt, conn, []).
Proof. repeat split. Qed.

(** * Further properties of the transport *)

(** The fields of a connection after [send] was called with each payload in
    turn, and everything those calls did; an exception ends one call, not
    the run.  Each call comes with the answers the operating system has for
    it. *)
Fixpoint send_all (MAX_PAYLOAD_SIZE python_version : Z)
    (calls : list (os * list byte)) (self : DataChannelConn.t)
    : DataChannelConn.t * list event :=
  match calls with
  | [] => (self, [])
  | (o, payload) :: rest =>
      let r := DataChannelConn.send MAX_PAYLOAD_SIZE python_version o payload self in
      let run := send_all MAX_PAYLOAD_SIZE python_version rest (fields r) in
      (fst run, effects r ++ snd run)
  end.

Definition is_open_socket (e : event) : bool :=
  match e with OpenSocket => true | _ => false end.

Definition is_send_to (e : event) : bool :=
  match e with SendTo _ _ _ _ => true | _ => false end.

(** A transmission, if [e] is one, goes to [addr], [port]. *)
Definition goes_to (addr : string) (port : Z) (e : event) : Prop :=
  match e with
  | SendTo _ _ a p => a = addr /\ p = port
  | _ => True
  end.

(** A transmission, if [e] is one, is made on the handle [h]. *)
Definition goes_through (h : handle) (e : event) : Prop :=
  match e with
  | SendTo h' _ _ _ => h' = h
  | _ => True
  end.

(** The operating system fails, if it does, with an [OSError]. *)
Definition fails_with_OSError_only (python_version : Z) (o : os) : Prop :=
  (forall ex, socket_socket o = CreateFails ex ->
              DataChannelConn.is_OSError python_version ex = true) /\
  (forall h payload ex, sendto o h payload = Some ex ->
              DataChannelConn.is_OSError python_version ex = true).

Section TransportCases.

Variable MAX_PAYLOAD_SIZE : Z.
Variable python_version : Z.

Let send := DataChannelConn.send MAX_PAYLOAD_SIZE python_version.
Let is_socket_error := DataChannelConn.is_socket_error python_version.
Let is_OSError := DataChannelConn.is_OSError python_version.

(** [send] on a connection that holds a handle. *)
Lemma send_with_handle (o : os) (payload : list byte) (addr : string)
    (port : Z) (h : handle) :
  (Z.of_nat (length payload) <= MAX_PAYLOAD_SIZE)%Z ->
  send o payload (DataChannelConn.Self addr port (Some h)) =
  match sendto o h payload with
  | None =>
      (Done tt, DataChannelConn.Self addr port (Some h),
       [SendTo h payload addr port])
  | Some ex =>
      if is_socket_error ex then
        (Done tt, DataChannelConn.Self addr port (Some h),
         [SendTo h payload addr port;
          Log ERROR "could not send to janus datachannel (%s)"])
      else if is_OSError ex then
        (Done tt, DataChannelConn.Self addr port None,
         [SendTo h payload addr port;
          Log ERROR "udp socket might be closed (%s)"])
      else
        (Raise ex, DataChannelConn.Self addr port (Some h),
         [SendTo h payload addr port])
  end.
Proof.
  intros Hsize. apply Z.ltb_ge in Hsize.
  unfold send, DataChannelConn.send. rewrite Hsize. run_method. cbn.
  destruct (sendto o h payload) as [ ex | ]; [ | reflexivity ].
  fold (is_socket_error ex). fold (is_OSError ex).
  destruct (is_socket_error ex); [ reflexivity | ].
  destruct (is_OSError ex); reflexivity.
Qed.

(** [send] on a connection that holds no handle. *)
Lemma send_without_handle (o : os) (payload : list byte) (addr : string)
    (port : Z) :
  (Z.of_nat (length payload) <= MAX_PAYLOAD_SIZE)%Z ->
  send o payload (DataChannelConn.Self addr port None) =
  match socket_socket o with
  | Created h =>
      let r := send o payload (DataChannelConn.Self addr port (Some h)) in
      (outcome r, fields r, OpenSocket :: effects r)
  | CreateFails ex =>
      if is_OSError ex then
        (Done tt, DataChannelConn.Self addr port None,
         [OpenSocket; Log ERROR "could not open udp socket (%s)"])
      else (Raise ex, DataChannelConn.Self addr port None, [OpenSocket])
  end.
Proof.
  intros Hsize. destruct (socket_socket o) as [ h | ex ] eqn:Hcreate.
  - cbv zeta. rewrite (send_with_handle o payload addr port h Hsize).
    apply Z.ltb_ge in Hsize.
    unfold send, DataChannelConn.send. rewrite Hsize. run_method. cbn.
    rewrite Hcreate. cbn.
    destruct (sendto o h payload) as [ ex | ]; [ | reflexivity ].
    fold (is_socket_error ex). fold (is_OSError ex).
    destruct (is_socket_error ex); [ reflexivity | ].
    destruct (is_OSError ex); reflexivity.
  - apply Z.ltb_ge in Hsize.
    unfold send, DataChannelConn.send. rewrite Hsize. run_method. cbn.
    rewrite Hcreate. fold (is_OSError ex).
    destruct (is_OSError ex); reflexivity.
Qed.

Lemma send_too_big (o : os) (payload : list byte) (self : DataChannelConn.t) :
  (MAX_PAYLOAD_SIZE < Z.of_nat (length payload))%Z ->
  send o payload self =
  (Done tt, self, [Log ERROR "datachannel payload too big (%s)"]).
Proof.
  intros Hbig. apply Z.ltb_lt in Hbig.
  unfold send, DataChannelConn.send. rewrite Hbig. reflexivity.
Qed.

End TransportCases.

(** ** class DataChannelConn and class ClientConn: [close] *)

Module Teardown.

(** What [close] does to the outside. *)
Inductive socket_call : Type :=
| SocketClose (h : handle).   (* [h.close()] is called *)

(** [def close(self)] of [DataChannelConn]; [close_answer h] is what
    [h.close()] does, [None] when it returns.  With no socket [self.sock]
    is [None], which has no attribute [close]. *)
Definition DataChannelConn_close (close_answer : handle -> option exn)
    (self : DataChannelConn.t)
    : res unit * DataChannelConn.t * list socket_call :=
  match DataChannelConn.sock self with
  | None => (Raise (AttributeError "close"), self, [])
  | Some h =>
      match close_answer h with
      | None =>
          (Done tt,
           DataChannelConn.Self (DataChannelConn.addr self)
             (DataChannelConn.port self) None,
           [SocketClose h])
      | Some ex => (Raise ex, self, [SocketClose h])
      end
  end.


End Teardown.

Section TransportRuns.

Variable MAX_PAYLOAD_SIZE : Z.
Variable python_version : Z.

Let send := DataChannelConn.send MAX_PAYLOAD_SIZE python_version.
Let send_all := send_all MAX_PAYLOAD_SIZE python_version.

(** Splits a goal about one [send] into the cases of the method. *)
Ltac send_cases o payload self :=
  let Hbig := fresh "Hbig" in
  let Hcreate := fresh "Hcreate" in
  destruct (Z.ltb_spec MAX_PAYLOAD_SIZE (Z.of_nat (length payload)))
    as [ Hbig | Hbig ];
  [ unfold send; rewrite (send_too_big MAX_PAYLOAD_SIZE python_version o payload self Hbig)
  | destruct self as [ ?addr ?port [ ?h | ] ];
    [ unfold send; rewrite (send_with_handle MAX_PAYLOAD_SIZE python_version o payload _ _ _ Hbig)
    | unfold send; rewrite (send_without_handle MAX_PAYLOAD_SIZE python_version o payload _ _ Hbig);
      destruct (socket_socket o) as [ ?h | ?ex ] eqn:Hcreate;
      [ cbv zeta;
        rewrite (send_with_handle MAX_PAYLOAD_SIZE python_version o payload _ _ _ Hbig)
      | ] ] ].

Lemma send_all_app (calls calls' : list (os * list byte))
    (self : DataChannelConn.t) :
  send_all (calls ++ calls') self =
  (fst (send_all calls' (fst (send_all calls self))),
   snd (send_all calls self) ++ snd (send_all calls' (fst (send_all calls self)))).
Proof.
  revert self. induction calls as [ | [o payload] calls IH ]; intros self.
  - cbn. destruct (send_all calls' self). reflexivity.
  - cbn. unfold send_all in IH. rewrite IH. cbn. rewrite app_assoc.
    reflexivity.
Qed.

Lemma send_keeps_peer (o : os) (payload : list byte)
    (self : DataChannelConn.t) :
  DataChannelConn.addr (fields (send o payload self)) = DataChannelConn.addr self /\
  DataChannelConn.port (fields (send o payload self)) = DataChannelConn.port self /\
  Forall (goes_to (DataChannelConn.addr self) (DataChannelConn.port self))
         (effects (send o payload self)).
Proof.
  send_cases o payload self;
    repeat match goal with
           | |- context [ match ?x with _ => _ end ] => destruct x
           end;
    cbn; repeat split; repeat constructor.
Qed.

(** X1: whatever is sent and whatever the operating system answers, every
    transmission of a connection goes to the address and port it was built
    with, and these two fields never change. *)
Theorem peer_is_fixed (calls : list (os * list byte))
    (JANUS_SERVER : string) (JANUS_DATA_PORT : Z) :
  let run := send_all calls (DataChannelConn.__init__ JANUS_SERVER JANUS_DATA_PORT) in
  DataChannelConn.addr (fst run) = JANUS_SERVER /\
  DataChannelConn.port (fst run) = JANUS_DATA_PORT /\
  Forall (goes_to JANUS_SERVER JANUS_DATA_PORT) (snd run).
Proof.
  cbv zeta.
  assert (H : forall self,
    DataChannelConn.addr (fst (send_all calls self)) = DataChannelConn.addr self /\
    DataChannelConn.port (fst (send_all calls self)) = DataChannelConn.port self /\
    Forall (goes_to (DataChannelConn.addr self) (DataChannelConn.port self))
           (snd (send_all calls self))).
  { induction calls as [ | [o payload] rest IH ]; intros self.
    - cbn. repeat split. constructor.
    - cbn. destruct (send_keeps_peer o payload self) as (Ha & Hp & Hf).
      destruct (IH (fields (DataChannelConn.send MAX_PAYLOAD_SIZE
                              python_version o payload self)))
        as (Ha' & Hp' & Hf').
      fold send in Ha', Hp', Hf'. rewrite Ha, Hp in *.
      repeat split; try assumption.
      apply Forall_app. split; assumption. }
  apply (H (DataChannelConn.__init__ JANUS_SERVER JANUS_DATA_PORT)).
Qed.

Lemma fails_with_OSError_only_caught (o : os) (h : handle)
    (payload : list byte) (ex : exn) :
  fails_with_OSError_only python_version o ->
  sendto o h payload = Some ex ->
  DataChannelConn.is_socket_error python_version ex = false ->
  DataChannelConn.is_OSError python_version ex = true.
Proof. intros [_ H] Hfail _. apply (H h payload ex Hfail). Qed.

(** X2: when the operating system fails only with [OSError], [send] never
    raises: a socket that cannot be opened and a datagram that cannot be
    sent are logged, and the caller gets a normal return. *)
Theorem send_returns_normally (o : os) (payload : list byte)
    (self : DataChannelConn.t) :
  fails_with_OSError_only python_version o ->
  outcome (send o payload self) = Done tt.
Proof.
  intros Hos.
  send_cases o payload self; try reflexivity.
  - destruct (sendto o h payload) as [ ex | ] eqn:Hfail; [ | reflexivity ].
    destruct (DataChannelConn.is_socket_error python_version ex) eqn:Hs;
      [ reflexivity | ].
    rewrite (fails_with_OSError_only_caught o h payload ex Hos Hfail Hs).
    reflexivity.
  - destruct (sendto o h payload) as [ ex | ] eqn:Hfail; [ | reflexivity ].
    destruct (DataChannelConn.is_socket_error python_version ex) eqn:Hs;
      [ reflexivity | ].
    rewrite (fails_with_OSError_only_caught o h payload ex Hos Hfail Hs).
    reflexivity.
  - destruct Hos as [Hc _]. rewrite (Hc ex Hcreate). reflexivity.
Qed.

(** X3: a socket that cannot be opened is tried again by the next [send].
    The failing call transmits nothing and leaves the connection without a
    handle: when the failure is an [OSError] (in Python 3 this includes
    [socket.error]) it is logged and the call returns normally; any other
    exception, so [socket.error] in Python 2, leaves [send] uncaught and
    unlogged.  Either way the next call opens a socket, keeps it and
    transmits on it. *)
Theorem creation_failure_is_retried (o o' : os) (payload payload' : list byte)
    (addr : string) (port : Z) (ex : exn) (h' : handle) :
  (Z.of_nat (length payload) <= MAX_PAYLOAD_SIZE)%Z ->
  (Z.of_nat (length payload') <= MAX_PAYLOAD_SIZE)%Z ->
  socket_socket o = CreateFails ex ->
  socket_socket o' = Created h' ->
  sendto o' h' payload' = None ->
  let self := DataChannelConn.__init__ addr port in
  send o payload self =
    (if DataChannelConn.is_OSError python_version ex
     then (Done tt, self,
           [OpenSocket; Log ERROR "could not open udp socket (%s)"])
     else (Raise ex, self, [OpenSocket])) /\
  send o' payload' (fields (send o payload self)) =
    (Done tt, DataChannelConn.Self addr port (Some h'),
     [OpenSocket; SendTo h' payload' addr port]).
Proof.
  intros Hsize Hsize' Hcreate Hcreate' Hsent self. subst self.
  unfold DataChannelConn.__init__.
  assert (Hfirst : send o payload (DataChannelConn.Self addr port None) =
    (if DataChannelConn.is_OSError python_version ex
     then (Done tt, DataChannelConn.Self addr port None,
           [OpenSocket; Log ERROR "could not open udp socket (%s)"])
     else (Raise ex, DataChannelConn.Self addr port None, [OpenSocket]))).
  { unfold send.
    rewrite (send_without_handle MAX_PAYLOAD_SIZE python_version o payload
               addr port Hsize), Hcreate. reflexivity. }
  split; [ exact Hfirst | ].
  assert (Hfields :
    fields (send o payload (DataChannelConn.Self addr port None)) =
    DataChannelConn.Self addr port None).
  { rewrite Hfirst.
    destruct (DataChannelConn.is_OSError python_version ex); reflexivity. }
  rewrite Hfields. unfold send.
  rewrite (send_without_handle MAX_PAYLOAD_SIZE python_version o' payload'
             addr port Hsize'), Hcreate'. cbv zeta.
  rewrite (send_with_handle MAX_PAYLOAD_SIZE python_version o' payload'
             addr port h' Hsize'), Hsent. reflexivity.
Qed.

Lemma send_all_too_big (bigs : list (os * list byte))
    (self : DataChannelConn.t) :
  Forall (fun c => (MAX_PAYLOAD_SIZE < Z.of_nat (length (snd c)))%Z) bigs ->
  send_all bigs self =
  (self, map (fun _ => Log ERROR "datachannel payload too big (%s)") bigs).
Proof.
  induction 1 as [ | [o payload] bigs Hbig _ IH ]; [ reflexivity | ].
  cbn [snd] in Hbig.
  change (send_all ((o, payload) :: bigs) self)
    with (fst (send_all bigs (fields (send o payload self))),
          effects (send o payload self) ++
          snd (send_all bigs (fields (send o payload self)))).
  unfold send.
  rewrite (send_too_big MAX_PAYLOAD_SIZE python_version o payload self Hbig).
  unfold fields, effects. cbn [fst snd]. rewrite IH. reflexivity.
Qed.

(** X4: the socket is opened by the first payload that fits, not before:
    any number of oversized payloads leave a new connection as it was built,
    with one error log each; the first payload of at most [MAX_PAYLOAD_SIZE]
    bytes opens the socket and is transmitted on it to the peer. *)
Theorem socket_opened_by_first_fitting_payload
    (bigs : list (os * list byte)) (o : os) (payload : list byte)
    (addr : string) (port : Z) (h : handle) :
  Forall (fun c => (MAX_PAYLOAD_SIZE < Z.of_nat (length (snd c)))%Z) bigs ->
  (Z.of_nat (length payload) <= MAX_PAYLOAD_SIZE)%Z ->
  socket_socket o = Created h ->
  sendto o h payload = None ->
  send_all (bigs ++ [(o, payload)]) (DataChannelConn.__init__ addr port) =
  (DataChannelConn.Self addr port (Some h),
   map (fun _ => Log ERROR "datachannel payload too big (%s)") bigs ++
   [OpenSocket; SendTo h payload addr port]).
Proof.
  intros Hbigs Hsize Hcreate Hsent.
  rewrite send_all_app, (send_all_too_big _ _ Hbigs). cbn [fst snd].
  change (send_all [(o, payload)] (DataChannelConn.__init__ addr port))
    with (fields (send o payload (DataChannelConn.Self addr port None)),
          effects (send o payload (DataChannelConn.Self addr port None)) ++ []).
  unfold send.
  rewrite (send_without_handle MAX_PAYLOAD_SIZE python_version o payload
             addr port Hsize), Hcreate. cbv zeta.
  rewrite (send_with_handle MAX_PAYLOAD_SIZE python_version o payload
             addr port h Hsize), Hsent. reflexivity.
Qed.

End TransportRuns.

(** X5: in Python 3 a connection that holds a socket keeps it for good:
    over any run of sends, whatever the operating system answers, the handle
    stays the same, no socket is opened, and every transmission is made on
    that handle. *)
Theorem socket_kept_for_life_py3 (MAX_PAYLOAD_SIZE : Z)
    (calls : list (os * list byte)) (addr : string) (port : Z) (h : handle) :
  let run := send_all MAX_PAYLOAD_SIZE 3 calls
               (DataChannelConn.Self addr port (Some h)) in
  fst run = DataChannelConn.Self addr port (Some h) /\
  count is_open_socket (snd run) = 0 /\
  Forall (goes_through h) (snd run).
Proof.
  cbv zeta. induction calls as [ | [o payload] rest IH ].
  - cbn. repeat split. constructor.
  - assert (Hstep :
      fields (DataChannelConn.send MAX_PAYLOAD_SIZE 3 o payload
                (DataChannelConn.Self addr port (Some h))) =
        DataChannelConn.Self addr port (Some h) /\
      count is_open_socket
        (effects (DataChannelConn.send MAX_PAYLOAD_SIZE 3 o payload
                    (DataChannelConn.Self addr port (Some h)))) = 0 /\
      Forall (goes_through h)
        (effects (DataChannelConn.send MAX_PAYLOAD_SIZE 3 o payload
                    (DataChannelConn.Self addr port (Some h))))).
    { destruct (Z.ltb_spec MAX_PAYLOAD_SIZE (Z.of_nat (length payload)))
        as [ Hbig | Hfit ].
      - rewrite (send_too_big MAX_PAYLOAD_SIZE 3 o payload _ Hbig).
        cbn. repeat split. repeat constructor.
      - rewrite (send_with_handle MAX_PAYLOAD_SIZE 3 o payload addr port h Hfit).
        destruct (sendto o h payload) as [ ex | ].
        + destruct (DataChannelConn.is_socket_error 3 ex) eqn:Hs.
          * cbn. repeat split. repeat constructor.
          * destruct (DataChannelConn.is_OSError 3 ex) eqn:Ho.
            -- rewrite (OSError_is_socket_error_py3 ex Ho) in Hs. discriminate.
            -- cbn. repeat split. repeat constructor.
        + cbn. repeat split. repeat constructor. }
    destruct Hstep as (Hf & Hc & Hg). destruct IH as (IHf & IHc & IHg).
    cbn [send_all]. cbv zeta. rewrite Hf. cbn [fst snd].
    repeat split.
    + exact IHf.
    + rewrite count_app, Hc, IHc. reflexivity.
    + apply Forall_app. split; assumption.
Qed.

(** X6: [close] gives the socket back once.  On a connection that holds a
    handle it calls [close] on that handle and forgets it; a second [close]
    then raises [AttributeError], and a later [send] opens a new socket and
    transmits on the new handle. *)
Theorem close_releases_the_socket (MAX_PAYLOAD_SIZE python_version : Z)
    (close_answer : handle -> option exn) (o : os) (payload : list byte)
    (addr : string) (port : Z) (h h' : handle) :
  close_answer h = None ->
  (Z.of_nat (length payload) <= MAX_PAYLOAD_SIZE)%Z ->
  socket_socket o = Created h' ->
  sendto o h' payload = None ->
  let closed := DataChannelConn.Self addr port None in
  Teardown.DataChannelConn_close close_answer
    (DataChannelConn.Self addr port (Some h)) =
    (Done tt, closed, [Teardown.SocketClose h]) /\
  Teardown.DataChannelConn_close close_answer closed =
    (Raise (AttributeError "close"), closed, []) /\
  DataChannelConn.send MAX_PAYLOAD_SIZE python_version o payload closed =
    (Done tt, DataChannelConn.Self addr port (Some h'),
     [OpenSocket; SendTo h' payload addr port]).
Proof.
  intros Hclose Hsize Hcreate Hsent closed. subst closed.
  split; [ | split ].
  - unfold Teardown.DataChannelConn_close. cbn. rewrite Hclose. reflexivity.
  - reflexivity.
  - rewrite (send_without_handle MAX_PAYLOAD_SIZE python_version o payload
               addr port Hsize), Hcreate. cbv zeta.
    rewrite (send_with_handle MAX_PAYLOAD_SIZE python_version o payload
               addr port h' Hsize), Hsent. reflexivity.
Qed.


(** * Further properties of the dispatcher *)

Definition is_post_update (e : event) : bool :=
  match e with PostUpdate => true | _ => false end.


(** A method body without effects. *)
Definition silent {S A : Type} (m : M S A) : Prop :=
  forall s, effects (m s) = [].

(** A method body that leaves the transport object as it is. *)
Definition keeps_transport {A : Type} (m : M ClientConn.t A) : Prop :=
  forall s,
    ClientConn.data_channel_conn (fields (m s)) = ClientConn.data_channel_conn s.

(** The ledger is left alone, or [R], which is not [None] and was not in
    it, is appended. *)
Definition ledger_grows_by (R : pyval) (d d' : deque) : Prop :=
  d' = d \/
  (d' = deque_append R d /\ is_not_None R = true /\ deque_contains R d = false).

(** No item is [None], and each is the ref of one of the arrivals. *)
Definition refs_of_arrivals (arrivals : list arrival) (l : list pyval) : Prop :=
  Forall (fun r => is_not_None r = true /\
                   exists a, In a arrivals /\ ref_of a = r) l.

Lemma silent_ret (S A : Type) (a : A) : silent (@ret S A a).
Proof. intros s. reflexivity. Qed.

Lemma silent_raise (S A : Type) (e : exn) : silent (@raise S A e).
Proof. intros s. reflexivity. Qed.

Lemma silent_subscript (S : Type) (d : dict) (k : string) :
  silent (@subscript S d k).
Proof. intros s. unfold subscript. destruct (dict_lookup k d); reflexivity. Qed.

Lemma silent_getattr_plugin (plugin : Plugin) (name : pyval) :
  silent (ClientConn.getattr_plugin plugin name).
Proof.
  intros s. unfold ClientConn.getattr_plugin.
  destruct name as [ | | | n | | ]; try reflexivity.
  destruct (plugin_attr plugin n); reflexivity.
Qed.

Lemma silent_getattr_default (target : pyobj) (name : pyval) :
  silent (ClientConn.getattr_default target name).
Proof. intros s. unfold ClientConn.getattr_default. destruct name; reflexivity. Qed.

Lemma silent_star_args (x : pyval) : silent (ClientConn.star_args x).
Proof.
  intros s. unfold ClientConn.star_args.
  destruct (ClientConn.unpack x); reflexivity.
Qed.

Lemma silent_check_identity (plugin : Plugin) (msg : dict) :
  silent (check_identity plugin msg).
Proof.
  intros s. unfold check_identity.
  destruct (truthy (dict_get msg "printer_id")); [ | reflexivity ].
  run_method.
  destruct (dict_lookup "printer_id" msg) as [ mine | ]; [ | reflexivity ].
  run_method.
  destruct (dict_lookup "id" (linked_printer plugin)) as [ theirs | ];
    [ | reflexivity ].
  run_method. destruct (py_ne mine theirs); reflexivity.
Qed.

(** A property of traces holds after a silent first step when it holds for
    the empty trace and for the traces of what follows. *)
Lemma after_silent (S A B : Type) (P : list event -> Prop) (m : M S A)
    (k : A -> M S B) :
  silent m -> P [] -> (forall a s, P (effects (k a s))) ->
  forall s, P (effects (bind m k s)).
Proof.
  intros Hm Hnil Hk s. specialize (Hm s). unfold bind.
  destruct (m s) as [[[ a | e ] s1] t1]; unfold effects in Hm; cbn in Hm;
    subst t1.
  - specialize (Hk a s1). unfold effects in *.
    destruct (k a s1) as [[r s2] t2]. exact Hk.
  - exact Hnil.
Qed.

Section EveryEnvelope.

Variable MAX_PAYLOAD_SIZE : Z.
Variable python_version : Z.
Variable json_dumps : pyval -> list byte.
Variable zlib_compress : list byte -> list byte.

Let on_message_to_plugin :=
  ClientConn.on_message_to_plugin MAX_PAYLOAD_SIZE python_version
    json_dumps zlib_compress.
Let send_msg_to_client :=
  ClientConn.send_msg_to_client MAX_PAYLOAD_SIZE python_version
    json_dumps zlib_compress.
Let send := DataChannelConn.send MAX_PAYLOAD_SIZE python_version.
Let invoke :=
  invoke_and_reply MAX_PAYLOAD_SIZE python_version json_dumps zlib_compress.
Let dedup :=
  dedup_and_invoke MAX_PAYLOAD_SIZE python_version json_dumps zlib_compress.
Let run_all :=
  dispatch_all MAX_PAYLOAD_SIZE python_version json_dumps zlib_compress.

(** What one envelope may do, in numbers. *)
Definition one_dispatch (tr : list event) : Prop :=
  count is_invoke tr <= 1 /\
  count is_ws_reply tr <= count is_invoke tr /\
  count is_transport_reply tr <= count is_ws_reply tr /\
  count is_post_update tr <= count is_invoke tr.

Lemma send_msg_to_client_shape (plugin : Plugin) (o : os) (data : dict)
    (s : ClientConn.t) :
  effects (send_msg_to_client plugin o data s) = [] \/
  exists payload tr,
    effects (send_msg_to_client plugin o data s) = DataChannelSend payload :: tr /\
    forallb transport_event tr = true.
Proof.
  destruct (truthy (dict_get (linked_printer plugin) "id")) eqn:Hid.
  - right.
    pose proof (dict_get_lookup _ _ Hid) as Hlook.
    pose proof (send_msg_to_client_linked MAX_PAYLOAD_SIZE python_version
                  json_dumps zlib_compress plugin o data _ s Hlook Hid) as E.
    cbv zeta in E. unfold send_msg_to_client. rewrite E.
    eexists. eexists. split; [ reflexivity | ].
    apply send_effects_transport.
  - left. unfold send_msg_to_client.
    rewrite (send_msg_to_client_unlinked MAX_PAYLOAD_SIZE python_version
               json_dumps zlib_compress plugin o data s Hid).
    reflexivity.
Qed.

Lemma transport_counts (tr : list event) :
  forallb transport_event tr = true ->
  count is_invoke tr = 0 /\ count is_ws_reply tr = 0 /\
  count is_transport_reply tr = 0 /\ count is_post_update tr = 0.
Proof.
  intros Htr. repeat split;
    apply (count_none _ _ _ Htr); intros [ ]; simpl; congruence.
Qed.

Lemma count_cons (p : event -> bool) (e : event) (tr : list event) :
  count p (e :: tr) = (if p e then 1 else 0) + count p tr.
Proof. unfold count. simpl. destruct (p e); reflexivity. Qed.

Lemma invoke_and_reply_shape (plugin : Plugin) (o : os) (msg : dict)
    (name : pyval) (func : option attr) (s : ClientConn.t) :
  one_dispatch (effects (invoke plugin o msg name func s)).
Proof.
  unfold invoke, invoke_and_reply, ClientConn.star_args.
  destruct (ClientConn.unpack (dict_get_default msg "args" (PyList [])))
    as [ args | ];
    [ | unfold one_dispatch; run_method; cbn; repeat split; lia ].
  unfold ClientConn.call.
  destruct func as [ [ h | v ] | ];
    try (unfold one_dispatch; run_method; cbn; repeat split; lia).
  run_method.
  destruct (h args) as [ v | e ];
    [ | unfold one_dispatch; run_method; cbn; repeat split; lia ].
  destruct (truthy (dict_get msg "ref"));
    [ | unfold one_dispatch; run_method; cbn; repeat split; lia ].
  run_method.
  fold (send_msg_to_client plugin o
          [("ref", dict_get msg "ref"); ("ret", v); ("_webrtc", PyBool true)] s).
  destruct (send_msg_to_client_shape plugin o
              [("ref", dict_get msg "ref"); ("ret", v); ("_webrtc", PyBool true)] s)
    as [ E | (payload & tr & E & Htr) ];
    unfold effects in E;
    destruct (send_msg_to_client plugin o _ s) as [[[ [] | e ] s'] t];
    cbn [fst snd] in E; subst t; unfold effects; cbn [fst snd app];
    unfold one_dispatch.
  - cbn. repeat split; lia.
  - cbn. repeat split; lia.
  - destruct (transport_counts tr Htr) as (Hi & Hw & Ht & Hp).
    repeat rewrite count_cons. repeat rewrite count_app.
    rewrite Hi, Hw, Ht, Hp. cbn. repeat split; lia.
  - destruct (transport_counts tr Htr) as (Hi & Hw & Ht & Hp).
    repeat rewrite count_cons.
    rewrite Hi, Hw, Ht, Hp. cbn. repeat split; lia.
Qed.

Lemma dedup_and_invoke_shape (plugin : Plugin) (o : os) (msg : dict)
    (name : pyval) (func : option attr) (s : ClientConn.t) :
  one_dispatch (effects (dedup plugin o msg name func s)).
Proof.
  unfold dedup.
  destruct (is_not_None (dict_get msg "ref")) eqn:Hsome.
  - destruct (deque_contains (dict_get msg "ref") (ClientConn.seen_refs s))
      eqn:Hin.
    + rewrite dedup_duplicate by assumption.
      unfold one_dispatch. cbn. repeat split; lia.
    + rewrite dedup_fresh by assumption. apply invoke_and_reply_shape.
  - rewrite dedup_no_ref
      by (destruct (dict_get msg "ref"); [ reflexivity | discriminate .. ]).
    apply invoke_and_reply_shape.
Qed.

(** X7: whatever the envelope, the agent, the ledger and the transport, one
    call of [on_message_to_plugin] invokes at most one operation, replies on
    the reliable channel only if it invoked one, hands a reply to the
    transport only if it replied on the reliable channel, and triggers the
    status refresh only if it invoked one. *)
Theorem one_envelope_one_dispatch (plugin : Plugin) (o : os) (msg : dict)
    (s : ClientConn.t) :
  let tr := effects (on_message_to_plugin plugin o msg s) in
  count is_invoke tr <= 1 /\
  count is_ws_reply tr <= count is_invoke tr /\
  count is_transport_reply tr <= count is_ws_reply tr /\
  count is_post_update tr <= count is_invoke tr.
Proof.
  cbv zeta. fold (one_dispatch (effects (on_message_to_plugin plugin o msg s))).
  assert (Hnil : one_dispatch []) by (unfold one_dispatch; cbn; repeat split; lia).
  unfold on_message_to_plugin. rewrite on_message_stages.
  revert s. apply after_silent;
    [ apply silent_check_identity | exact Hnil | intros _ ].
  unfold resolve_and_dispatch.
  apply after_silent;
    [ apply silent_getattr_plugin | exact Hnil | intros target ].
  apply after_silent; [ apply silent_subscript | exact Hnil | intros name ].
  apply after_silent;
    [ apply silent_getattr_default | exact Hnil | intros func s ].
  destruct (negb (ClientConn.attr_truthy func)); [ exact Hnil | ].
  apply dedup_and_invoke_shape.
Qed.

(** X8: an operation that raises is not tried again under the same ref.
    The exception leaves [on_message_to_plugin] after the ref was recorded
    and the operation invoked, with no reply and no status refresh; the same
    envelope submitted again is dropped as a duplicate. *)
Theorem failed_invocation_is_not_retried
    (plugin : Plugin) (o o' : os) (msg : dict) (tn fn : string)
    (h : list pyval -> call_result) (args : list pyval) (e : exn)
    (s : ClientConn.t) :
  ledger_ok (ClientConn.seen_refs s) ->
  passes_identity plugin msg ->
  resolves_to plugin msg tn fn (Callable h) ->
  ClientConn.unpack (dict_get_default msg "args" (PyList [])) = Some args ->
  is_not_None (dict_get msg "ref") = true ->
  deque_contains (dict_get msg "ref") (ClientConn.seen_refs s) = false ->
  h args = Raises e ->
  let recorded :=
    with_ledger (deque_append (dict_get msg "ref") (ClientConn.seen_refs s)) s in
  on_message_to_plugin plugin o msg s =
    (Raise e, recorded, [Invoke tn fn args]) /\
  on_message_to_plugin plugin o' msg recorded =
    (Done tt, recorded, [Log DEBUG "Got duplicate ref, ignoring msg"]).
Proof.
  intros Hok Hid Hres Hargs Hsome Hfresh Hh recorded. subst recorded.
  unfold on_message_to_plugin. split.
  - rewrite (on_message_fresh MAX_PAYLOAD_SIZE python_version json_dumps
               zlib_compress plugin o msg s Hid Hres eq_refl Hsome Hfresh).
    apply (invoke_raises MAX_PAYLOAD_SIZE python_version json_dumps
             zlib_compress plugin o msg tn fn h args (proj1 Hres) Hargs _ Hh).
  - apply (on_message_duplicate MAX_PAYLOAD_SIZE python_version json_dumps
             zlib_compress plugin o' msg _ Hid Hres eq_refl Hsome).
    cbn [with_ledger ClientConn.seen_refs].
    apply deque_contains_append_self. destruct Hok as [Hm _]. lia.
Qed.

(** X9: an agent that is not linked (its [linked_printer] has no [id])
    cannot compare identities: every envelope with a true [printer_id]
    leaves [on_message_to_plugin] with [KeyError], before anything else is
    done. *)
Theorem printer_id_on_unlinked_agent_raises
    (plugin : Plugin) (o : os) (msg : dict) (s : ClientConn.t) :
  truthy (dict_get msg "printer_id") = true ->
  dict_lookup "id" (linked_printer plugin) = None ->
  on_message_to_plugin plugin o msg s = (Raise (KeyError "id"), s, []).
Proof.
  intros Ht Hnone. unfold on_message_to_plugin. rewrite on_message_stages.
  apply bind_raise. unfold check_identity. rewrite Ht. run_method.
  rewrite (dict_get_lookup _ _ Ht). run_method. rewrite Hnone. reflexivity.
Qed.

(** X10: an envelope that lacks a routing field is not dropped but raises,
    with nothing done: without [target] the attribute name is [None] and
    [getattr] raises [TypeError]; with a known target and without [func]
    the subscript raises [KeyError]. *)
Theorem envelope_without_route_raises
    (plugin : Plugin) (o : os) (msg : dict) (s : ClientConn.t) :
  passes_identity plugin msg ->
  (dict_lookup "target" msg = None ->
   on_message_to_plugin plugin o msg s =
   (Raise (TypeError "attribute name must be string"), s, [])) /\
  (forall tn target,
     dict_get msg "target" = PyStr tn ->
     plugin_attr plugin tn = Some target ->
     dict_lookup "func" msg = None ->
     on_message_to_plugin plugin o msg s = (Raise (KeyError "func"), s, [])).
Proof.
  intros Hid. unfold on_message_to_plugin. split.
  - intros Hnone.
    rewrite (past_identity MAX_PAYLOAD_SIZE python_version json_dumps
               zlib_compress plugin o msg s Hid).
    unfold resolve_and_dispatch, dict_get. rewrite Hnone. reflexivity.
  - intros tn target Ht Hp Hnone.
    rewrite (past_identity MAX_PAYLOAD_SIZE python_version json_dumps
               zlib_compress plugin o msg s Hid).
    unfold resolve_and_dispatch, ClientConn.getattr_plugin.
    rewrite Ht, Hp. run_method. rewrite Hnone. reflexivity.
Qed.

(** X11: what goes wrong between the dedup gate and the invocation costs
    the ref.  When the arguments cannot be unpacked, or [func] names a true
    attribute that is not callable, [TypeError] is raised with no operation
    invoked, and the ref has already been appended to the ledger. *)
Theorem uncallable_envelope_consumes_ref
    (plugin : Plugin) (o : os) (msg : dict) (tn fn : string) (f : attr)
    (s : ClientConn.t) :
  passes_identity plugin msg ->
  resolves_to plugin msg tn fn f ->
  ClientConn.attr_truthy (Some f) = true ->
  is_not_None (dict_get msg "ref") = true ->
  deque_contains (dict_get msg "ref") (ClientConn.seen_refs s) = false ->
  ClientConn.unpack (dict_get_default msg "args" (PyList [])) = None \/
  (exists v, f = Data v) ->
  exists what,
    on_message_to_plugin plugin o msg s =
    (Raise (TypeError what),
     with_ledger (deque_append (dict_get msg "ref") (ClientConn.seen_refs s)) s,
     []).
Proof.
  intros Hid Hres Htrue Hsome Hfresh Hbad. unfold on_message_to_plugin.
  rewrite (on_message_fresh MAX_PAYLOAD_SIZE python_version json_dumps
             zlib_compress plugin o msg s Hid Hres Htrue Hsome Hfresh).
  unfold invoke_and_reply, ClientConn.star_args.
  destruct (ClientConn.unpack (dict_get_default msg "args" (PyList [])))
    as [ args | ] eqn:Hargs.
  - destruct Hbad as [ Hbad | (v & ->) ]; [ discriminate | ].
    eexists. unfold ClientConn.call. run_method. reflexivity.
  - eexists. run_method. reflexivity.
Qed.

(** *** Envelopes that need no transport *)














(** *** The ledger over any run *)

Lemma py_distinct_snoc (l : list pyval) (x : pyval) :
  py_distinct l = true ->
  existsb (fun item => py_eq item x) l = false ->
  py_distinct (l ++ [x]) = true.
Proof.
  induction l as [ | a l IH ]; intros Hd Hx; [ reflexivity | ].
  simpl in *. apply andb_true_iff in Hd as [Ha Hl].
  apply orb_false_iff in Hx as [Hax Hlx].
  rewrite (IH Hl Hlx), existsb_app. simpl.
  rewrite Hax. apply negb_true_iff in Ha. rewrite Ha. reflexivity.
Qed.

Lemma py_distinct_skipn (n : nat) (l : list pyval) :
  py_distinct l = true -> py_distinct (skipn n l) = true.
Proof.
  revert l. induction n as [ | n IH ]; intros [ | a l ] Hd; try assumption.
  simpl in *. apply andb_true_iff in Hd as [_ Hl]. apply IH, Hl.
Qed.

Lemma Forall_skipn_pyval (P : pyval -> Prop) (n : nat) (l : list pyval) :
  Forall P l -> Forall P (skipn n l).
Proof.
  revert l. induction n as [ | n IH ]; intros [ | a l ] H; try assumption.
  simpl. apply IH. inversion H. assumption.
Qed.

(** A method body under which the ledger grows by [R] at most. *)
Definition ledger_grows {A : Type} (R : pyval) (m : M ClientConn.t A) : Prop :=
  forall s,
    ledger_grows_by R (ClientConn.seen_refs s)
      (ClientConn.seen_refs (fields (m s))).

Lemma ledger_grows_blind (A : Type) (R : pyval) (m : M ClientConn.t A) :
  ledger_blind m -> ledger_grows R m.
Proof. intros Hm s. left. apply (ledger_blind_keeps s Hm). Qed.

Lemma ledger_grows_bind (A B : Type) (R : pyval) (m : M ClientConn.t A)
    (k : A -> M ClientConn.t B) :
  ledger_blind m -> (forall a, ledger_grows R (k a)) ->
  ledger_grows R (bind m k).
Proof.
  intros Hm Hk s. pose proof (ledger_blind_keeps s Hm) as Hs.
  unfold bind. destruct (m s) as [[[ a | e ] s1] t1];
    unfold fields in *; cbn [fst snd] in *; [ | left; exact Hs ].
  specialize (Hk a s1). unfold fields in Hk.
  destruct (k a s1) as [[r s2] t2]. cbn [fst snd] in *.
  rewrite <- Hs. exact Hk.
Qed.

Lemma on_message_ledger_grows (plugin : Plugin) (o : os) (msg : dict) :
  ledger_grows (dict_get msg "ref") (on_message_to_plugin plugin o msg).
Proof.
  unfold on_message_to_plugin. rewrite on_message_stages.
  apply ledger_grows_bind; [ apply ledger_blind_check_identity | intros _ ].
  unfold resolve_and_dispatch.
  apply ledger_grows_bind;
    [ apply ledger_blind_getattr_plugin | intros target ].
  apply ledger_grows_bind; [ apply ledger_blind_subscript | intros name ].
  apply ledger_grows_bind;
    [ apply ledger_blind_getattr_default | intros func ].
  destruct (negb _); [ apply ledger_grows_blind, ledger_blind_ret | ].
  intros s.
  destruct (is_not_None (dict_get msg "ref")) eqn:Hsome.
  - destruct (deque_contains (dict_get msg "ref") (ClientConn.seen_refs s))
      eqn:Hin.
    + left. rewrite dedup_duplicate by assumption. reflexivity.
    + right. rewrite dedup_fresh by assumption.
      rewrite (ledger_blind_keeps _
        (ledger_blind_invoke_and_reply MAX_PAYLOAD_SIZE python_version
           json_dumps zlib_compress plugin o msg name func)).
      repeat split; assumption.
  - left. rewrite dedup_no_ref
      by (destruct (dict_get msg "ref"); [ reflexivity | discriminate .. ]).
    apply (ledger_blind_keeps _
      (ledger_blind_invoke_and_reply MAX_PAYLOAD_SIZE python_version
         json_dumps zlib_compress plugin o msg name func)).
Qed.

(** What holds of the ledger once the arrivals [seen] have been handled. *)
Definition ledger_sound (seen : list arrival) (d : deque) : Prop :=
  ledger_ok d /\ py_distinct (items d) = true /\ refs_of_arrivals seen (items d).

Lemma ledger_sound_step (seen : list arrival) (a : arrival) (d d' : deque) :
  ledger_sound seen d ->
  ledger_grows_by (ref_of a) d d' ->
  ledger_sound (seen ++ [a]) d'.
Proof.
  intros (Hok & Hd & Hrefs) Hgrow.
  assert (Hrefs' : refs_of_arrivals (seen ++ [a]) (items d)).
  { apply Forall_forall. intros r Hr. unfold refs_of_arrivals in Hrefs.
    rewrite Forall_forall in Hrefs. destruct (Hrefs r Hr) as (Hn & b & Hb & E).
    split; [ exact Hn | ]. exists b. split; [ | exact E ].
    apply in_or_app. left. exact Hb. }
  destruct Hgrow as [ -> | (-> & Hsome & Hfresh) ].
  - repeat split; try assumption; apply Hok.
  - split; [ apply deque_append_ok, Hok | ].
    destruct Hok as [Hm Hl].
    rewrite deque_append_items by lia. unfold lastn. split.
    + apply py_distinct_skipn, py_distinct_snoc; assumption.
    + apply Forall_skipn_pyval, Forall_app. split; [ exact Hrefs' | ].
      constructor; [ | constructor ].
      split; [ exact Hsome | ]. exists a. split; [ | reflexivity ].
      apply in_or_app. right. left. reflexivity.
Qed.

Lemma ledger_sound_run (arrivals seen : list arrival) (s : ClientConn.t) :
  ledger_sound seen (ClientConn.seen_refs s) ->
  ledger_sound (seen ++ arrivals) (ClientConn.seen_refs (run_all arrivals s)).
Proof.
  revert seen s.
  induction arrivals as [ | [[plugin o] msg] rest IH ]; intros seen s Hs.
  - rewrite app_nil_r. exact Hs.
  - change (seen ++ (plugin, o, msg) :: rest)
      with (seen ++ [(plugin, o, msg)] ++ rest).
    rewrite app_assoc.
    change (run_all ((plugin, o, msg) :: rest) s)
      with (run_all rest (fields (on_message_to_plugin plugin o msg s))).
    apply IH.
    apply (ledger_sound_step seen (plugin, o, msg) (ClientConn.seen_refs s));
      [ exact Hs | ].
    apply (on_message_ledger_grows plugin o msg s).
Qed.

(** X15: whatever envelopes arrive, well formed or not, and however their
    handling ends, the ledger of a [ClientConn] holds at most 25 refs, no
    two of them equal, none of them [None], and each the ref of an envelope
    that arrived. *)
Theorem ledger_is_sound_after_any_run
    (arrivals : list arrival) (JANUS_SERVER : string) (JANUS_DATA_PORT : Z) :
  let d := ClientConn.seen_refs
             (run_all arrivals (ClientConn.__init__ JANUS_SERVER JANUS_DATA_PORT)) in
  length (items d) <= 25 /\
  py_distinct (items d) = true /\
  Forall (fun r => is_not_None r = true /\
                   exists a, In a arrivals /\ ref_of a = r) (items d).
Proof.
  cbv zeta.
  destruct (ledger_sound_run arrivals []
              (ClientConn.__init__ JANUS_SERVER JANUS_DATA_PORT))
    as (Hok & Hd & Hrefs).
  - split; [ apply deque_new_ok | ]. split; [ reflexivity | constructor ].
  - split; [ apply Hok | ]. split; assumption.
Qed.

(** *** The id on the reply *)

Lemma dict_lookup_set_same (k : string) (v : pyval) (d : dict) :
  dict_lookup k (dict_set k v d) = Some v.
Proof.
  induction d as [ | [k' v'] d IH ]; simpl.
  - rewrite String.eqb_refl. reflexivity.
  - destruct (String.eqb k k') eqn:E; simpl; rewrite E; [ reflexivity | exact IH ].
Qed.

Lemma dict_lookup_set_other (k k0 : string) (v : pyval) (d : dict) :
  k0 <> k -> dict_lookup k0 (dict_set k v d) = dict_lookup k0 d.
Proof.
  intros Hne. induction d as [ | [k' v'] d IH ]; simpl.
  - apply String.eqb_neq in Hne. rewrite Hne. reflexivity.
  - destruct (String.eqb k k') eqn:E; simpl.
    + apply String.eqb_eq in E. subst k'.
      apply String.eqb_neq in Hne. rewrite Hne. reflexivity.
    + rewrite IH. reflexivity.
Qed.

(** X16: what the transport is handed is the encoding of the caller's
    message with [printer_id] set to the linked id: the other keys keep
    their values, and a [printer_id] that the message already carried is
    replaced. *)
Theorem reply_is_tagged_with_linked_id
    (plugin : Plugin) (o : os) (data : dict) (id : pyval) (s : ClientConn.t) :
  dict_lookup "id" (linked_printer plugin) = Some id ->
  truthy id = true ->
  exists tagged tr,
    effects (send_msg_to_client plugin o data s) =
      DataChannelSend (zlib_compress (json_dumps (PyDict tagged))) :: tr /\
    dict_lookup "printer_id" tagged = Some id /\
    (forall k, k <> "printer_id" -> dict_lookup k tagged = dict_lookup k data) /\
    forallb transport_event tr = true.
Proof.
  intros Hlook Hidt.
  pose proof (send_msg_to_client_linked MAX_PAYLOAD_SIZE python_version
                json_dumps zlib_compress plugin o data id s Hlook Hidt) as E.
  cbv zeta in E. unfold send_msg_to_client. rewrite E.
  exists (dict_set "printer_id" id data). eexists.
  split; [ reflexivity | ].
  split; [ apply dict_lookup_set_same | ].
  split; [ intros k Hk; apply dict_lookup_set_other, Hk | ].
  apply send_effects_transport.
Qed.

(** *** Closing a connection that never answered *)




End EveryEnvelope.


(** ** The further properties on concrete cases *)

Module Cases.

(** No socket can be opened: the process is out of file descriptors. *)
Definition exhausted : os :=
  OS (CreateFails (OSError "Too many open files")) (fun _ _ => None).

(** The same under Python 2, where [socket.socket] fails with
    [socket.error]. *)
Definition exhausted_py2 : os :=
  OS (CreateFails (SocketError "Too many open files")) (fun _ _ => None).

(** Sockets open under the handle 2 and datagrams leave. *)
Definition healthy_again : os := OS (Created 2) (fun _ _ => None).

(** [printer.home], which raises, and [printer.name], which is no method. *)
Definition faulty_printer : pyobj :=
  fun name =>
    if String.eqb name "home"
    then Some (Callable (fun _ => Raises (OtherError "PrinterError")))
    else if String.eqb name "name" then Some (Data (PyStr "mk3"))
    else None.

Definition faulty_plugin : Plugin := {|
  linked_printer := [("is_pro", PyBool false); ("id", PyStr "p1")];
  plugin_attr :=
    fun name => if String.eqb name "printer" then Some faulty_printer else None
|}.

Definition home_envelope : dict :=
  [("target", PyStr "printer"); ("func", PyStr "home"); ("ref", PyStr "r1")].

Definition name_envelope : dict :=
  [("target", PyStr "printer"); ("func", PyStr "name"); ("ref", PyStr "r2")].

Lemma unreachable_fails_with_OSError_only :
  fails_with_OSError_only 3 unreachable.
Proof.
  split.
  - intros ex H. discriminate H.
  - intros h payload ex H. injection H as <-. reflexivity.
Defined.

End Cases.

Import Cases.

Lemma send_returns_normally_witness :
  outcome (DataChannelConn.send MAX_PAYLOAD_SIZE 3 unreachable [x01]
             (DataChannelConn.__init__ "127.0.0.1" 8009)) = Done tt.
Proof.
  apply (send_returns_normally MAX_PAYLOAD_SIZE 3 unreachable [x01]
           (DataChannelConn.__init__ "127.0.0.1" 8009)).
  apply unreachable_fails_with_OSError_only.
Defined.

Lemma creation_failure_is_retried_witness :
  (DataChannelConn.send MAX_PAYLOAD_SIZE 3 exhausted [x01]
     (DataChannelConn.__init__ "127.0.0.1" 8009) =
     (Done tt, DataChannelConn.__init__ "127.0.0.1" 8009,
      [OpenSocket; Log ERROR "could not open udp socket (%s)"]) /\
   DataChannelConn.send MAX_PAYLOAD_SIZE 3 healthy [x02]
     (fields (DataChannelConn.send MAX_PAYLOAD_SIZE 3 exhausted
                [x01] (DataChannelConn.__init__ "127.0.0.1" 8009))) =
     (Done tt, DataChannelConn.Self "127.0.0.1" 8009 (Some 1),
      [OpenSocket; SendTo 1 [x02] "127.0.0.1" 8009])) /\
  (DataChannelConn.send MAX_PAYLOAD_SIZE 2 exhausted_py2 [x01]
     (DataChannelConn.__init__ "127.0.0.1" 8009) =
     (Raise (SocketError "Too many open files"),
      DataChannelConn.__init__ "127.0.0.1" 8009, [OpenSocket]) /\
   DataChannelConn.send MAX_PAYLOAD_SIZE 2 healthy [x02]
     (fields (DataChannelConn.send MAX_PAYLOAD_SIZE 2 exhausted_py2
                [x01] (DataChannelConn.__init__ "127.0.0.1" 8009))) =
     (Done tt, DataChannelConn.Self "127.0.0.1" 8009 (Some 1),
      [OpenSocket; SendTo 1 [x02] "127.0.0.1" 8009])).
Proof.
  split.
  - apply (creation_failure_is_retried MAX_PAYLOAD_SIZE 3
             exhausted healthy [x01] [x02] "127.0.0.1" 8009
             (OSError "Too many open files") 1).
    + vm_compute. discriminate.
    + vm_compute. discriminate.
    + reflexivity.
    + reflexivity.
    + reflexivity.
  - apply (creation_failure_is_retried MAX_PAYLOAD_SIZE 2
             exhausted_py2 healthy [x01] [x02] "127.0.0.1" 8009
             (SocketError "Too many open files") 1).
    + vm_compute. discriminate.
    + vm_compute. discriminate.
    + reflexivity.
    + reflexivity.
    + reflexivity.
Defined.

Lemma socket_opened_by_first_fitting_payload_witness :
  send_all MAX_PAYLOAD_SIZE python_version
    ([(healthy, repeat x00 1501); (healthy, repeat x00 2000)] ++
     [(healthy, repeat x00 1500)])
    (DataChannelConn.__init__ "127.0.0.1" 8009) =
  (DataChannelConn.Self "127.0.0.1" 8009 (Some 1),
   map (fun _ => Log ERROR "datachannel payload too big (%s)")
     [(healthy, repeat x00 1501); (healthy, repeat x00 2000)] ++
   [OpenSocket; SendTo 1 (repeat x00 1500) "127.0.0.1" 8009]).
Proof.
  apply (socket_opened_by_first_fitting_payload MAX_PAYLOAD_SIZE python_version
           [(healthy, repeat x00 1501); (healthy, repeat x00 2000)]
           healthy (repeat x00 1500) "127.0.0.1" 8009 1).
  - repeat constructor.
  - vm_compute. discriminate.
  - reflexivity.
  - reflexivity.
Defined.

Lemma close_releases_the_socket_witness :
  Teardown.DataChannelConn_close (fun _ => None)
    (DataChannelConn.Self "127.0.0.1" 8009 (Some 1)) =
    (Done tt, DataChannelConn.Self "127.0.0.1" 8009 None,
     [Teardown.SocketClose 1]) /\
  Teardown.DataChannelConn_close (fun _ => None)
    (DataChannelConn.Self "127.0.0.1" 8009 None) =
    (Raise (AttributeError "close"),
     DataChannelConn.Self "127.0.0.1" 8009 None, []) /\
  DataChannelConn.send MAX_PAYLOAD_SIZE python_version healthy_again [x01]
    (DataChannelConn.Self "127.0.0.1" 8009 None) =
    (Done tt, DataChannelConn.Self "127.0.0.1" 8009 (Some 2),
     [OpenSocket; SendTo 2 [x01] "127.0.0.1" 8009]).
Proof.
  apply (close_releases_the_socket MAX_PAYLOAD_SIZE python_version
           (fun _ => None) healthy_again [x01] "127.0.0.1" 8009 1 2).
  - reflexivity.
  - vm_compute. discriminate.
  - reflexivity.
  - reflexivity.
Defined.

Lemma failed_invocation_is_not_retried_witness :
  on_message_to_plugin faulty_plugin healthy home_envelope conn =
    (Raise (OtherError "PrinterError"),
     with_ledger (Deque 25 [PyStr "r1"]) conn,
     [Invoke "printer" "home" []]) /\
  on_message_to_plugin faulty_plugin healthy home_envelope
    (with_ledger (Deque 25 [PyStr "r1"]) conn) =
    (Done tt, with_ledger (Deque 25 [PyStr "r1"]) conn,
     [Log DEBUG "Got duplicate ref, ignoring msg"]).
Proof.
  apply (failed_invocation_is_not_retried MAX_PAYLOAD_SIZE python_version
           json_dumps zlib_compress faulty_plugin healthy healthy
           home_envelope "printer" "home"
           (fun _ => Raises (OtherError "PrinterError")) []
           (OtherError "PrinterError") conn).
  - split; [ reflexivity | simpl; lia ].
  - left. reflexivity.
  - split; [ reflexivity | ]. split; [ reflexivity | ].
    exists faulty_printer. split; reflexivity.
  - reflexivity.
  - reflexivity.
  - reflexivity.
  - reflexivity.
Defined.

Lemma printer_id_on_unlinked_agent_raises_witness :
  on_message_to_plugin unlinked_plugin healthy
    (("printer_id", PyStr "p1") :: envelope (PyStr "abc123")) conn =
  (Raise (KeyError "id"), conn, []).
Proof.
  apply (printer_id_on_unlinked_agent_raises MAX_PAYLOAD_SIZE python_version
           json_dumps zlib_compress unlinked_plugin healthy
           (("printer_id", PyStr "p1") :: envelope (PyStr "abc123")) conn).
  - reflexivity.
  - reflexivity.
Defined.

Lemma envelope_without_route_raises_witness :
  on_message_to_plugin plugin healthy
    [("func", PyStr "set_temperature"); ("ref", PyStr "abc123")] conn =
    (Raise (TypeError "attribute name must be string"), conn, []) /\
  on_message_to_plugin plugin healthy
    [("target", PyStr "printer"); ("ref", PyStr "abc123")] conn =
    (Raise (KeyError "func"), conn, []).
Proof.
  split.
  - apply (proj1 (envelope_without_route_raises MAX_PAYLOAD_SIZE
             python_version json_dumps zlib_compress plugin healthy
             [("func", PyStr "set_temperature"); ("ref", PyStr "abc123")] conn
             (or_introl eq_refl))).
    reflexivity.
  - apply (proj2 (envelope_without_route_raises MAX_PAYLOAD_SIZE
             python_version json_dumps zlib_compress plugin healthy
             [("target", PyStr "printer"); ("ref", PyStr "abc123")] conn
             (or_introl eq_refl)) "printer" printer); reflexivity.
Defined.

Lemma uncallable_envelope_consumes_ref_witness :
  exists what,
    on_message_to_plugin faulty_plugin healthy name_envelope conn =
    (Raise (TypeError what), with_ledger (Deque 25 [PyStr "r2"]) conn, []).
Proof.
  apply (uncallable_envelope_consumes_ref MAX_PAYLOAD_SIZE python_version
           json_dumps zlib_compress faulty_plugin healthy name_envelope
           "printer" "name" (Data (PyStr "mk3")) conn).
  - left. reflexivity.
  - split; [ reflexivity | ]. split; [ reflexivity | ].
    exists faulty_printer. split; reflexivity.
  - reflexivity.
  - reflexivity.
  - reflexivity.
  - right. exists (PyStr "mk3"). reflexivity.
Defined.




Lemma reply_is_tagged_with_linked_id_witness :
  exists tagged tr,
    effects (ClientConn.send_msg_to_client MAX_PAYLOAD_SIZE python_version
               json_dumps zlib_compress plugin healthy
               [("printer_id", PyStr "stale"); ("ret", PyInt 1)] conn) =
      DataChannelSend (zlib_compress (json_dumps (PyDict tagged))) :: tr /\
    dict_lookup "printer_id" tagged = Some (PyStr "p1") /\
    (forall k, k <> "printer_id" ->
       dict_lookup k tagged =
       dict_lookup k [("printer_id", PyStr "stale"); ("ret", PyInt 1)]) /\
    forallb transport_event tr = true.
Proof.
  apply (reply_is_tagged_with_linked_id MAX_PAYLOAD_SIZE python_version
           json_dumps zlib_compress plugin healthy
           [("printer_id", PyStr "stale"); ("ret", PyInt 1)] (PyStr "p1") conn).
  - reflexivity.
  - reflexivity.
Defined.


(** * Helpers of [octoprint_obico/utils.py] *)

From Stdlib Require Import QArith Qpower.
Close Scope Q_scope.

(** ** class ExpoBackoff *)

Module ExpoBackoff.

(** [attempts] is a counter: the class stores 0 in it and adds 1 to it.
    [max_seconds] is the caller's number, an integer or a float, kept as
    the rational it is. *)
Record t : Type := Self {
  attempts : nat;
  max_seconds : Q;
  max_attempts : Z
}.

(** What [more] does to the outside.  [TimeSleep delay jitter] stands for
    [time.sleep(delay * (0.5 + jitter))], where [jitter] is what
    [random.random()] returned; the product is taken in floating point and
    is not computed here. *)
Inductive call : Type :=
| LogError (fmt : string) (attempts : nat)
| TimeSleep (delay jitter : Q).

(** From this integer on, an integer has no float: it is half-way between
    the largest float and [2^1024], rounds up, and the conversion raises
    [OverflowError].  The floats end below it, so that a number this big is
    an integer. *)
Definition float_overflow : Q := inject_Z (2 ^ 1024 - 2 ^ 970).

(** [def __init__(self, max_seconds, max_attempts=0)]. *)
Definition __init__ (max_seconds : Q) (max_attempts : Z) : t :=
  Self 0 max_seconds max_attempts.

(** [def reset(self)]. *)
Definition reset (self : t) : t :=
  Self 0 (max_seconds self) (max_attempts self).

(** [def more(self, e)]; [random] is the value of [random.random()], and
    [time_sleep delay random] is what [time.sleep] makes of the length
    [delay * (0.5 + random)]: [None] when it returns, the exception when it
    refuses the length (a negative one, or one too long for the clock of
    the platform).  The product with the float [0.5 + random] converts an
    integer [delay] to a float first, which raises for the integers that
    have none, before anything is logged. *)
Definition more (time_sleep : Q -> Q -> option exn) (random : Q) (e : exn)
    (self : t) : res unit * t * list call :=
  let self := Self (S (attempts self)) (max_seconds self) (max_attempts self) in
  if (0 <? max_attempts self)%Z
     && (max_attempts self <? Z.of_nat (attempts self))%Z
  then
    (Raise e, self,
     [LogError "Giving up after %d attempts on error: %s" (attempts self)])
  else
    let delay := (2 ^ (Z.of_nat (attempts self) - 3))%Q in
    let delay :=
      if Qlt_le_dec (max_seconds self) delay then max_seconds self else delay in
    if Qle_bool float_overflow delay then
      (Raise (OtherError "OverflowError"), self, [])
    else
      (match time_sleep delay random with
       | None => Done tt
       | Some ex => Raise ex
       end,
       self,
       [LogError "Attempt %d - backing off %f seconds: %s" (attempts self);
        TimeSleep delay random]).

End ExpoBackoff.

(** The outcomes of [more] called once for each pair of a random draw and
    an error, the calls it made to the outside, and the fields at the end. *)
Fixpoint more_all (time_sleep : Q -> Q -> option exn) (calls : list (Q * exn))
    (self : ExpoBackoff.t)
    : list (res unit) * list ExpoBackoff.call * ExpoBackoff.t :=
  match calls with
  | [] => ([], [], self)
  | (random, e) :: rest =>
      match ExpoBackoff.more time_sleep random e self with
      | (r, self', tr) =>
          match more_all time_sleep rest self' with
          | (rs, trs, final) => (r :: rs, tr ++ trs, final)
          end
      end
  end.

(** The delays slept, before jitter, in the order of the calls. *)
Fixpoint delays (tr : list ExpoBackoff.call) : list Q :=
  match tr with
  | [] => []
  | ExpoBackoff.TimeSleep d _ :: rest => d :: delays rest
  | _ :: rest => delays rest
  end.

(** The delay of attempt number [n], before jitter. *)
Definition delay_of_attempt (max_seconds : Q) (n : nat) : Q :=
  if Qlt_le_dec max_seconds (2 ^ (Z.of_nat n - 3))%Q
  then max_seconds else (2 ^ (Z.of_nat n - 3))%Q.

(** Attempt number [n] gives up. *)
Definition gives_up (max_attempts : Z) (n : nat) : bool :=
  (0 <? max_attempts)%Z && (max_attempts <? Z.of_nat n)%Z.

(** The delay of attempt number [n] is an integer that has no float. *)
Definition overflows (max_seconds : Q) (n : nat) : bool :=
  Qle_bool ExpoBackoff.float_overflow (delay_of_attempt max_seconds n).

(** How [time.sleep] ends [more]. *)
Definition slept (answer : option exn) : res unit :=
  match answer with
  | None => Done tt
  | Some ex => Raise ex
  end.

Lemma more_outcome (time_sleep : Q -> Q -> option exn) (random : Q) (e : exn)
    (self : ExpoBackoff.t) :
  ExpoBackoff.more time_sleep random e self =
  let n := S (ExpoBackoff.attempts self) in
  let self' := ExpoBackoff.Self n (ExpoBackoff.max_seconds self)
                 (ExpoBackoff.max_attempts self) in
  if gives_up (ExpoBackoff.max_attempts self) n then
    (Raise e, self',
     [ExpoBackoff.LogError "Giving up after %d attempts on error: %s" n])
  else if overflows (ExpoBackoff.max_seconds self) n then
    (Raise (OtherError "OverflowError"), self', [])
  else
    (slept (time_sleep (delay_of_attempt (ExpoBackoff.max_seconds self) n)
              random),
     self',
     [ExpoBackoff.LogError "Attempt %d - backing off %f seconds: %s" n;
      ExpoBackoff.TimeSleep
        (delay_of_attempt (ExpoBackoff.max_seconds self) n) random]).
Proof. reflexivity. Qed.

(** Each item of the list and the next one are related by [R]. *)
Fixpoint chain (R : Q -> Q -> Prop) (l : list Q) : Prop :=
  match l with
  | a :: r => match r with b :: _ => R a b | [] => True end /\ chain R r
  | [] => True
  end.

Lemma gives_up_later (max_attempts : Z) (n : nat) :
  gives_up max_attempts n = true -> gives_up max_attempts (S n) = true.
Proof.
  unfold gives_up. intros H. apply andb_true_iff in H as [H0 Hn].
  apply andb_true_iff. split; [ exact H0 | ].
  apply Z.ltb_lt in Hn. apply Z.ltb_lt. lia.
Qed.




(** No call sleeps any more: the backoff gave up, or the delay has grown
    into the integers that have no float. *)
Definition stopped (max_seconds : Q) (max_attempts : Z) (n : nat) : bool :=
  gives_up max_attempts n || overflows max_seconds n.

Lemma power_of_two_doubles (n : nat) :
  (2 ^ (Z.of_nat (S n) - 3) == 2 * 2 ^ (Z.of_nat n - 3))%Q.
Proof.
  replace (Z.of_nat (S n) - 3)%Z with (1 + (Z.of_nat n - 3))%Z by lia.
  rewrite Qpower_plus by discriminate. reflexivity.
Qed.

Lemma power_of_two_positive (z : Z) : (0 < 2 ^ z)%Q.
Proof. apply Qpower_0_lt. reflexivity. Qed.

Lemma delay_of_attempt_capped (max_seconds : Q) (n : nat) :
  (delay_of_attempt max_seconds n <= max_seconds)%Q.
Proof.
  unfold delay_of_attempt.
  destruct (Qlt_le_dec max_seconds (2 ^ (Z.of_nat n - 3))%Q) as [ H | H ].
  - apply Qle_refl.
  - exact H.
Qed.

Lemma delay_of_attempt_next (max_seconds : Q) (n : nat) :
  (delay_of_attempt max_seconds n <= delay_of_attempt max_seconds (S n))%Q /\
  ((delay_of_attempt max_seconds (S n) == 2 * delay_of_attempt max_seconds n)%Q \/
   (delay_of_attempt max_seconds (S n) == max_seconds)%Q).
Proof.
  unfold delay_of_attempt.
  pose proof (power_of_two_doubles n) as Hd.
  pose proof (power_of_two_positive (Z.of_nat n - 3)) as Hp.
  set (p := (2 ^ (Z.of_nat n - 3))%Q) in *.
  set (p' := (2 ^ (Z.of_nat (S n) - 3))%Q) in *.
  assert (Hpp : (p <= p')%Q).
  { rewrite Hd. rewrite <- (Qmult_1_l p) at 1.
    apply Qmult_le_compat_r; [ discriminate | apply Qlt_le_weak, Hp ]. }
  destruct (Qlt_le_dec max_seconds p) as [ H | H ];
    destruct (Qlt_le_dec max_seconds p') as [ H' | H' ].
  - split; [ apply Qle_refl | right; reflexivity ].
  - exfalso. apply (Qlt_irrefl max_seconds).
    apply (Qlt_le_trans _ p); [ exact H | ].
    apply (Qle_trans _ p'); assumption.
  - split; [ exact H | right; reflexivity ].
  - split; [ exact Hpp | left; exact Hd ].
Qed.

Lemma overflows_later (max_seconds : Q) (n : nat) :
  overflows max_seconds n = true -> overflows max_seconds (S n) = true.
Proof.
  unfold overflows. intros H. apply Qle_bool_iff in H. apply Qle_bool_iff.
  apply (Qle_trans _ _ _ H). apply delay_of_attempt_next.
Qed.

Lemma stopped_later (max_seconds : Q) (max_attempts : Z) (n : nat) :
  stopped max_seconds max_attempts n = true ->
  stopped max_seconds max_attempts (S n) = true.
Proof.
  unfold stopped. intros H. apply orb_true_iff in H. apply orb_true_iff.
  destruct H as [ H | H ];
    [ left; apply gives_up_later, H | right; apply overflows_later, H ].
Qed.

Lemma delays_after_stop (time_sleep : Q -> Q -> option exn)
    (calls : list (Q * exn)) (a : nat) (max_seconds : Q) (max_attempts : Z) :
  stopped max_seconds max_attempts (S a) = true ->
  delays (snd (fst (more_all time_sleep calls
                      (ExpoBackoff.Self a max_seconds max_attempts)))) = [].
Proof.
  revert a. induction calls as [ | [random e] rest IH ]; intros a Hstop;
    [ reflexivity | ].
  cbn [more_all]. rewrite more_outcome. cbv zeta.
  cbn [ExpoBackoff.attempts ExpoBackoff.max_seconds ExpoBackoff.max_attempts].
  specialize (IH (S a) (stopped_later _ _ _ Hstop)).
  unfold stopped in Hstop.
  destruct (gives_up max_attempts (S a));
    [ | cbn [orb] in Hstop; rewrite Hstop ];
    destruct (more_all time_sleep rest _) as [[rs trs] final];
    cbn in *; exact IH.
Qed.

Lemma delays_of_run (time_sleep : Q -> Q -> option exn)
    (calls : list (Q * exn)) (a : nat) (max_seconds : Q) (max_attempts : Z) :
  exists m,
    delays (snd (fst (more_all time_sleep calls
                        (ExpoBackoff.Self a max_seconds max_attempts)))) =
    map (delay_of_attempt max_seconds) (seq (S a) m).
Proof.
  revert a. induction calls as [ | [random e] rest IH ]; intros a.
  - exists 0. reflexivity.
  - destruct (stopped max_seconds max_attempts (S a)) eqn:Hstop.
    + exists 0.
      apply (delays_after_stop time_sleep ((random, e) :: rest) a _ _ Hstop).
    + destruct (IH (S a)) as (m & Hm). exists (S m).
      cbn [more_all]. rewrite more_outcome. cbv zeta.
      cbn [ExpoBackoff.attempts ExpoBackoff.max_seconds ExpoBackoff.max_attempts].
      unfold stopped in Hstop. apply orb_false_iff in Hstop as [ Hup Hover ].
      rewrite Hup, Hover.
      destruct (more_all time_sleep rest _) as [[rs trs] final]. cbn in *.
      rewrite Hm. reflexivity.
Qed.

Lemma chain_delays (max_seconds : Q) (s m : nat) :
  chain (fun d d' => (d <= d')%Q /\ ((d' == 2 * d)%Q \/ (d' == max_seconds)%Q))
        (map (delay_of_attempt max_seconds) (seq s m)).
Proof.
  revert s. induction m as [ | m IH ]; intros s; [ exact I | ].
  cbn [seq map chain]. split; [ | apply IH ].
  destruct m as [ | m ]; [ exact I | ].
  cbn [seq map]. apply delay_of_attempt_next.
Qed.

(** X19: the delays of a backoff, before jitter, grow by doubling up to
    the cap: after a [reset] the first delay is a quarter of a second (if
    the cap allows), each later delay is twice the one before or is
    [max_seconds], no delay is shorter than the one before, and none is
    longer than [max_seconds]. *)
Theorem backoff_delays_double_up_to_the_cap
    (time_sleep : Q -> Q -> option exn)
    (self : ExpoBackoff.t) (calls : list (Q * exn)) :
  let cap := ExpoBackoff.max_seconds self in
  let ds := delays (snd (fst (more_all time_sleep calls
                                (ExpoBackoff.reset self)))) in
  Forall (fun d => (d <= cap)%Q) ds /\
  chain (fun d d' => (d <= d')%Q /\ ((d' == 2 * d)%Q \/ (d' == cap)%Q)) ds /\
  (forall d, ((1 # 4) <= cap)%Q -> hd_error ds = Some d -> (d == 1 # 4)%Q).
Proof.
  cbv zeta. unfold ExpoBackoff.reset.
  destruct (delays_of_run time_sleep calls 0 (ExpoBackoff.max_seconds self)
              (ExpoBackoff.max_attempts self)) as (m & ->).
  split; [ | split ].
  - apply Forall_forall. intros d Hd. apply in_map_iff in Hd as (n & <- & _).
    apply delay_of_attempt_capped.
  - apply chain_delays.
  - intros d Hcap Hd. destruct m as [ | m ]; [ discriminate | ].
    cbn in Hd. injection Hd as <-. unfold delay_of_attempt.
    destruct (Qlt_le_dec (ExpoBackoff.max_seconds self) (2 ^ (Z.of_nat 1 - 3))%Q)
      as [ H | H ]; [ | reflexivity ].
    exfalso. apply (Qlt_irrefl (ExpoBackoff.max_seconds self)).
    apply (Qlt_le_trans _ _ _ H). exact Hcap.
Qed.



(** ** [wait_for_port_to_close] *)

Module WaitForPort.

(** What the function does to the outside; sockets are numbered by the
    round of the loop that made them. *)
Inductive call : Type :=
| SocketOpen (i : nat)
    (* [socket.socket(socket.AF_INET, socket.SOCK_STREAM)] returns *)
| ConnectEx (i : nat) (host : string) (port : Z)
    (* [sock.connect_ex((host, port))] is called *)
| SocketClose (i : nat)
    (* [closing] calls [sock.close()] on leaving the [with] block *)
| TimeSleep.
    (* [time.sleep(0.5)] *)

(** What a library call answers: a value, or an exception. *)
Inductive answer (A : Type) : Type :=
| Gives (a : A)
| Throws (e : exn).
Arguments Gives {A} a.
Arguments Throws {A} e.

(** The network in round [i]: whether a socket can be made, and what
    [connect_ex] returns (0 when the connection is made, an error number
    otherwise). *)
Record network : Type := Network {
  make_socket : nat -> answer unit;
  connect_ex : nat -> answer Z
}.

(** The rounds [i], [i+1], ... of [for i in range(10)], [left] of them to
    go. *)
Fixpoint rounds (net : network) (host : string) (port : Z) (left i : nat)
    : res unit * list call :=
  match left with
  | O => (Done tt, [])
  | S left' =>
      match make_socket net i with
      | Throws e => (Raise e, [])
      | Gives _ =>
          match connect_ex net i with
          | Throws e =>
              (Raise e, [SocketOpen i; ConnectEx i host port; SocketClose i])
          | Gives code =>
              if negb (code =? 0)%Z then
                (Done tt, [SocketOpen i; ConnectEx i host port; SocketClose i])
              else
                match rounds net host port left' (S i) with
                | (r, tr) =>
                    (r, [SocketOpen i; ConnectEx i host port; TimeSleep;
                         SocketClose i] ++ tr)
                end
          end
      end
  end.

(** [def wait_for_port_to_close(host, port)]. *)
Definition wait_for_port_to_close (net : network) (host : string) (port : Z)
    : res unit * list call :=
  rounds net host port 10 0.

End WaitForPort.

Definition is_connect (c : WaitForPort.call) : bool :=
  match c with WaitForPort.ConnectEx _ _ _ => true | _ => false end.

Definition is_sleep (c : WaitForPort.call) : bool :=
  match c with WaitForPort.TimeSleep => true | _ => false end.

(** Reading a trace from the left with the socket [held] open (or none):
    a socket is opened only when none is held, used and closed only while
    it is the one held, and none is held at the end. *)
Fixpoint sockets_paired (held : option nat) (tr : list WaitForPort.call)
    : bool :=
  match tr with
  | [] => match held with None => true | Some _ => false end
  | WaitForPort.SocketOpen i :: rest =>
      match held with
      | None => sockets_paired (Some i) rest
      | Some _ => false
      end
  | WaitForPort.ConnectEx i _ _ :: rest =>
      match held with
      | Some j => Nat.eqb i j && sockets_paired held rest
      | None => false
      end
  | WaitForPort.SocketClose i :: rest =>
      match held with
      | Some j => Nat.eqb i j && sockets_paired None rest
      | None => false
      end
  | WaitForPort.TimeSleep :: rest => sockets_paired held rest
  end.

Definition tally (p : WaitForPort.call -> bool) (tr : list WaitForPort.call)
    : nat :=
  length (filter p tr).

Lemma tally_app (p : WaitForPort.call -> bool)
    (tr tr' : list WaitForPort.call) :
  tally p (tr ++ tr') = tally p tr + tally p tr'.
Proof. unfold tally. rewrite filter_app, length_app. reflexivity. Qed.

Lemma rounds_paired (net : WaitForPort.network) (host : string) (port : Z)
    (left i : nat) :
  sockets_paired None (snd (WaitForPort.rounds net host port left i)) = true /\
  tally is_connect (snd (WaitForPort.rounds net host port left i)) <= left.
Proof.
  revert i. induction left as [ | left IH ]; intros i.
  - split; [ reflexivity | unfold tally; cbn; lia ].
  - cbn [WaitForPort.rounds].
    destruct (WaitForPort.make_socket net i) as [ [] | e ];
      [ | split; [ reflexivity | unfold tally; cbn; lia ] ].
    destruct (WaitForPort.connect_ex net i) as [ code | e ].
    + destruct (negb (code =? 0)%Z).
      * unfold tally. cbn. rewrite Nat.eqb_refl. split; [ reflexivity | lia ].
      * destruct (IH (S i)) as [Hp Hc].
        destruct (WaitForPort.rounds net host port left (S i)) as [r tr].
        cbn [snd] in *. split.
        -- cbn. rewrite !Nat.eqb_refl. exact Hp.
        -- rewrite tally_app. unfold tally at 1. cbn. lia.
    + unfold tally. cbn. rewrite Nat.eqb_refl. split; [ reflexivity | lia ].
Qed.

(** X20: whatever the network does, [wait_for_port_to_close] holds one
    socket at a time and closes each socket it made, also when it returns
    from inside the loop or [connect_ex] raises, and it tries to connect at
    most 10 times. *)
Theorem wait_for_port_to_close_pairs_sockets
    (net : WaitForPort.network) (host : string) (port : Z) :
  let tr := snd (WaitForPort.wait_for_port_to_close net host port) in
  sockets_paired None tr = true /\ tally is_connect tr <= 10.
Proof. apply rounds_paired. Qed.

(** The port is found open in the rounds [i], ..., [i+n-1]. *)
Definition open_for (net : WaitForPort.network) (i n : nat) : Prop :=
  forall j, i <= j < i + n ->
    WaitForPort.make_socket net j = WaitForPort.Gives tt /\
    WaitForPort.connect_ex net j = WaitForPort.Gives 0%Z.

Lemma rounds_while_open (net : WaitForPort.network) (host : string) (port : Z)
    (n left i : nat) :
  open_for net i n -> n <= left ->
  WaitForPort.rounds net host port left i =
  (fst (WaitForPort.rounds net host port (left - n) (i + n)),
   flat_map (fun j => [WaitForPort.SocketOpen j;
                       WaitForPort.ConnectEx j host port;
                       WaitForPort.TimeSleep; WaitForPort.SocketClose j])
            (seq i n) ++
   snd (WaitForPort.rounds net host port (left - n) (i + n))).
Proof.
  revert left i. induction n as [ | n IH ]; intros left i Hopen Hle.
  - rewrite Nat.sub_0_r, Nat.add_0_r. cbn.
    destruct (WaitForPort.rounds net host port left i). reflexivity.
  - destruct left as [ | left ]; [ lia | ].
    cbn [WaitForPort.rounds].
    destruct (Hopen i ltac:(lia)) as [Hs Hc]. rewrite Hs, Hc. cbn [negb Z.eqb].
    rewrite (IH left (S i)); [ | | lia ].
    + replace (S i + n) with (i + S n) by lia.
      replace (S left - S n) with (left - n) by lia.
      cbn [seq flat_map]. rewrite <- app_assoc. reflexivity.
    + intros j Hj. apply Hopen. lia.
Qed.

(** X21: [wait_for_port_to_close] returns the same way whether the port
    closed or not.  If the port is found open in the first [n] rounds and
    refuses the connection in the next, with [n < 10], the function returns
    after [n] sleeps and [n+1] connection attempts; if the port is found
    open in all 10 rounds it returns as well, after 10 sleeps, without any
    signal to the caller. *)
Theorem wait_for_port_to_close_returns_either_way
    (net : WaitForPort.network) (host : string) (port : Z) (n : nat) :
  open_for net 0 n ->
  n = 10 \/
  (n < 10 /\ WaitForPort.make_socket net n = WaitForPort.Gives tt /\
   exists code, code <> 0%Z /\
                WaitForPort.connect_ex net n = WaitForPort.Gives code) ->
  let r := WaitForPort.wait_for_port_to_close net host port in
  fst r = Done tt /\
  tally is_sleep (snd r) = n /\
  tally is_connect (snd r) = Nat.min 10 (S n).
Proof.
  intros Hopen Hn r. subst r. unfold WaitForPort.wait_for_port_to_close.
  assert (Hle : n <= 10) by (destruct Hn as [ -> | [H _] ]; lia).
  rewrite (rounds_while_open net host port n 10 0 Hopen Hle). cbn [fst snd].
  assert (Hloop : forall i m,
    tally is_sleep
      (flat_map (fun j => [WaitForPort.SocketOpen j;
                           WaitForPort.ConnectEx j host port;
                           WaitForPort.TimeSleep; WaitForPort.SocketClose j])
                (seq i m)) = m /\
    tally is_connect
      (flat_map (fun j => [WaitForPort.SocketOpen j;
                           WaitForPort.ConnectEx j host port;
                           WaitForPort.TimeSleep; WaitForPort.SocketClose j])
                (seq i m)) = m).
  { intros i m. revert i. induction m as [ | m IH ]; intros i;
      [ split; reflexivity | ].
    cbn [seq flat_map]. rewrite !tally_app.
    destruct (IH (S i)) as [-> ->]. split; reflexivity. }
  destruct (Hloop 0 n) as [Hs Hc]. rewrite !tally_app, Hs, Hc.
  destruct Hn as [ -> | (Hlt & Hmake & code & Hcode & Hconn) ].
  - unfold tally. cbn. repeat split.
  - destruct (10 - n) as [ | left ] eqn:Hleft; [ lia | ].
    cbn [WaitForPort.rounds]. cbn [Nat.add]. rewrite Hmake, Hconn.
    apply Z.eqb_neq in Hcode. rewrite Hcode. unfold tally.
    cbn [filter length is_sleep is_connect fst snd negb].
    repeat split; lia.
Qed.

Lemma wait_for_port_to_close_returns_either_way_witness :
  let net := WaitForPort.Network
               (fun _ => WaitForPort.Gives tt)
               (fun i => WaitForPort.Gives (if Nat.ltb i 3 then 0 else 111)%Z) in
  let r := WaitForPort.wait_for_port_to_close net "127.0.0.1" 8080 in
  fst r = Done tt /\
  tally is_sleep (snd r) = 3 /\
  tally is_connect (snd r) = Nat.min 10 4.
Proof.
  apply (wait_for_port_to_close_returns_either_way
           (WaitForPort.Network
              (fun _ => WaitForPort.Gives tt)
              (fun i => WaitForPort.Gives (if Nat.ltb i 3 then 0 else 111)%Z))
           "127.0.0.1" 8080 3).
  - intros j Hj. split; [ reflexivity | ].
    cbn. destruct j as [ | [ | [ | j ] ] ]; try reflexivity. lia.
  - right. split; [ lia | ]. split; [ reflexivity | ].
    exists 111%Z. split; [ discriminate | reflexivity ].
Defined.

(** ** [get_image_info] *)

Module ImageInfo.

(** [ord(b)] for a byte. *)
Definition ord (b : byte) : Z := Z.of_N (Byte.to_N b).

Fixpoint bytes_eqb (a b : list byte) : bool :=
  match a, b with
  | [], [] => true
  | x :: a', y :: b' => Byte.eqb x y && bytes_eqb a' b'
  | _, _ => false
  end.

(** [data[i:j]] for [i <= j]. *)
Definition slice (i j : nat) (data : list byte) : list byte :=
  firstn (j - i) (skipn i data).

(** [data.startswith(prefix)]. *)
Definition startswith (data prefix : list byte) : bool :=
  bytes_eqb (firstn (length prefix) data) prefix.

Definition GIF87a : list byte := [x47; x49; x46; x38; x37; x61].
Definition GIF89a : list byte := [x47; x49; x46; x38; x39; x61].
(** ['\211PNG\r\n\032\n']. *)
Definition PNG : list byte := [x89; x50; x4e; x47; x0d; x0a; x1a; x0a].
Definition IHDR : list byte := [x49; x48; x44; x52].
(** ['\377\330']. *)
Definition SOI : list byte := [xff; xd8].

(** [struct.unpack]: [None] stands for [struct.error], raised when the
    buffer has not the size of the format. *)
Definition unpack_le_HH (s : list byte) : option (Z * Z) :=
  match s with
  | [a; b; c; d] => Some (ord a + 256 * ord b, ord c + 256 * ord d)%Z
  | _ => None
  end.

Definition be32 (a b c d : byte) : Z :=
  (((ord a * 256 + ord b) * 256 + ord c) * 256 + ord d)%Z.

Definition unpack_be_LL (s : list byte) : option (Z * Z) :=
  match s with
  | [a; b; c; d; e; f; g; h] => Some (be32 a b c d, be32 e f g h)
  | _ => None
  end.

Definition unpack_be_HH (s : list byte) : option (Z * Z) :=
  match s with
  | [a; b; c; d] => Some (ord a * 256 + ord b, ord c * 256 + ord d)%Z
  | _ => None
  end.

Definition unpack_be_H (s : list byte) : option Z :=
  match s with
  | [a; b] => Some (ord a * 256 + ord b)%Z
  | _ => None
  end.

(** How the scan of a JPEG stream ends. *)
Inductive scan_end : Type :=
| Found (h w : Z)     (* [break], with [h] and [w] assigned *)
| NoFrame             (* the [while] loop ends, [w] was never assigned *)
| StructError         (* [struct.unpack] got a short read *)
| OrdOfEmpty          (* [ord(b)] with [b] empty, at the end of the stream *)
| OutOfFuel.

(** [while (ord(b) != 0xFF): b = jpeg.read(1)], from the byte [b] with
    [rest] unread: what is unread when [b] is [0xFF], or [None] when the
    stream ends first. *)
Fixpoint skip_to_ff (b : byte) (rest : list byte) : option (list byte) :=
  if (ord b =? 255)%Z then Some rest
  else match rest with
       | [] => None
       | b' :: rest' => skip_to_ff b' rest'
       end.

(** [while (ord(b) == 0xFF): b = jpeg.read(1)], entered with [b] equal to
    [0xFF]: the first byte that is not [0xFF] and what is unread after it,
    or [None] when the stream ends first. *)
Fixpoint skip_ff (rest : list byte) : option (byte * list byte) :=
  match rest with
  | [] => None
  | b' :: rest' => if (ord b' =? 255)%Z then skip_ff rest' else Some (b', rest')
  end.

(** [jpeg.read(n)] leaves this unread: nothing when [n] is negative. *)
Definition after_read (n : Z) (rest : list byte) : list byte :=
  if (n <? 0)%Z then [] else skipn (Z.to_nat n) rest.

(** The [while (b and ord(b) != 0xDA)] loop; [b] is [None] for an empty
    read.  One unit of fuel is used for each turn of the loop. *)
Fixpoint scan (fuel : nat) (b : option byte) (rest : list byte) : scan_end :=
  match b with
  | None => NoFrame
  | Some x =>
      if (ord x =? 218)%Z then NoFrame
      else
        match skip_to_ff x rest with
        | None => OrdOfEmpty
        | Some rest1 =>
            match skip_ff rest1 with
            | None => OrdOfEmpty
            | Some (m, rest2) =>
                if (192 <=? ord m)%Z && (ord m <=? 195)%Z then
                  match unpack_be_HH (firstn 4 (after_read 3 rest2)) with
                  | Some (h, w) => Found h w
                  | None => StructError
                  end
                else
                  match unpack_be_H (firstn 2 rest2) with
                  | None => StructError
                  | Some n =>
                      let rest3 := after_read (n - 2) (after_read 2 rest2) in
                      match fuel with
                      | O => OutOfFuel
                      | S fuel' => scan fuel' (hd_error rest3) (tl rest3)
                      end
                  end
            end
        end
  end.

(** [def get_image_info(data)] on a byte string.  In Python 3 [data] is
    decoded to [str] and [struct.unpack] refuses it; the JPEG branch reads
    the bytes themselves. *)
Definition get_image_info (python_version : Z) (data : list byte)
    : res (string * Z * Z) :=
  let size := length data in
  let unpacked (ct : string) (fields : option (Z * Z)) :=
    if (python_version =? 3)%Z
    then Raise (TypeError "a bytes-like object is required, not 'str'")
    else match fields with
         | Some (w, h) => Done (ct, w, h)
         | None => Raise (OtherError "struct.error")
         end in
  if Nat.leb 10 size
     && (bytes_eqb (slice 0 6 data) GIF87a || bytes_eqb (slice 0 6 data) GIF89a)
  then unpacked "image/gif" (unpack_le_HH (slice 6 10 data))
  else if Nat.leb 24 size && startswith data PNG
          && bytes_eqb (slice 12 16 data) IHDR
  then unpacked "image/png" (unpack_be_LL (slice 16 24 data))
  else if Nat.leb 16 size && startswith data PNG
  then unpacked "image/png" (unpack_be_LL (slice 8 16 data))
  else if Nat.leb 2 size && startswith data SOI
  then
    let unread := after_read 2 data in
    match scan (length data) (hd_error unread) (tl unread) with
    | Found h w => Done ("image/jpeg", w, h)
    | StructError => Done ("image/jpeg", (-1)%Z, (-1)%Z)
    | NoFrame => Raise (OtherError "UnboundLocalError")
    | OrdOfEmpty => Raise (TypeError "ord() expected a character")
    | OutOfFuel => Raise (OtherError "OutOfFuel")
    end
  else Done ("", (-1)%Z, (-1)%Z).

End ImageInfo.

(** *** Writing headers, to read them back *)

(** The byte of a number below 256. *)
Definition byte_of (z : Z) : byte :=
  match Byte.of_N (Z.to_N z) with
  | Some b => b
  | None => x00
  end.

Definition be16 (n : Z) : list byte :=
  [byte_of (n / 256); byte_of (n mod 256)].

Definition le16 (n : Z) : list byte :=
  [byte_of (n mod 256); byte_of (n / 256)].

Definition be32_bytes (n : Z) : list byte :=
  [byte_of (n / 16777216); byte_of ((n / 65536) mod 256);
   byte_of ((n / 256) mod 256); byte_of (n mod 256)].

(** A JPEG segment: the marker byte and what follows the length field. *)
Record segment : Type := Segment { marker : byte; body : list byte }.

(** [0xFF], the marker, the length of the rest (the two length bytes
    included) and the body. *)
Definition write_segment (s : segment) : list byte :=
  xff :: marker s :: be16 (Z.of_nat (length (body s)) + 2) ++ body s.

(** The segment is none of the frame headers SOF0 to SOF3, and its length
    fits the two bytes. *)
Definition skippable (s : segment) : Prop :=
  ImageInfo.ord (marker s) <> 255%Z /\
  ~ (192 <= ImageInfo.ord (marker s) <= 195)%Z /\
  (Z.of_nat (length (body s)) + 2 < 65536)%Z.

(** A frame header: [0xFF], a marker among SOF0 to SOF3, two length bytes,
    the precision, the height and the width. *)
Definition write_frame (m l1 l2 precision : byte) (h w : Z) : list byte :=
  xff :: m :: l1 :: l2 :: precision :: be16 h ++ be16 w.

Lemma ord_bounded (b : byte) : (0 <= ImageInfo.ord b < 256)%Z.
Proof.
  unfold ImageInfo.ord. pose proof (Byte.to_N_bounded b). lia.
Qed.

Lemma ord_byte_of (z : Z) : (0 <= z < 256)%Z -> ImageInfo.ord (byte_of z) = z.
Proof.
  intros Hz. unfold byte_of, ImageInfo.ord.
  destruct (Byte.of_N (Z.to_N z)) as [ b | ] eqn:E.
  - apply Byte.to_of_N in E. rewrite E. lia.
  - apply Byte.of_N_None_iff in E. lia.
Qed.

Lemma unpack_be16 (n : Z) (rest : list byte) :
  (0 <= n < 65536)%Z ->
  ImageInfo.unpack_be_H (firstn 2 (be16 n ++ rest)) = Some n.
Proof.
  intros Hn. unfold be16. cbn.
  rewrite !ord_byte_of.
  - f_equal. pose proof (Z.div_mod n 256). lia.
  - apply Z.mod_pos_bound. lia.
  - split; [ apply Z.div_pos; lia | apply Z.div_lt_upper_bound; lia ].
Qed.

Lemma unpack_be16_pair (h w : Z) (rest : list byte) :
  (0 <= h < 65536)%Z -> (0 <= w < 65536)%Z ->
  ImageInfo.unpack_be_HH (firstn 4 (be16 h ++ be16 w ++ rest)) = Some (h, w).
Proof.
  intros Hh Hw. unfold be16. cbn.
  rewrite !ord_byte_of.
  - pose proof (Z.div_mod h 256). pose proof (Z.div_mod w 256).
    f_equal. f_equal; lia.
  - apply Z.mod_pos_bound. lia.
  - split; [ apply Z.div_pos; lia | apply Z.div_lt_upper_bound; lia ].
  - apply Z.mod_pos_bound. lia.
  - split; [ apply Z.div_pos; lia | apply Z.div_lt_upper_bound; lia ].
Qed.

Lemma skip_body (l rest : list byte) :
  ImageInfo.after_read (Z.of_nat (length l) + 2 - 2) (l ++ rest) = rest.
Proof.
  unfold ImageInfo.after_read.
  replace (Z.of_nat (length l) + 2 - 2)%Z with (Z.of_nat (length l)) by lia.
  destruct (Z.ltb_spec (Z.of_nat (length l)) 0); [ lia | ].
  rewrite Nat2Z.id, skipn_app, skipn_all, Nat.sub_diag. reflexivity.
Qed.

(** One turn of the loop over a segment that is skipped. *)
Lemma scan_segment (fuel : nat) (s : segment) (next : list byte) :
  skippable s ->
  ImageInfo.scan (S fuel) (Some xff) (tl (write_segment s) ++ next) =
  ImageInfo.scan fuel (hd_error next) (tl next).
Proof.
  intros (Hff & Hsof & Hlen). unfold write_segment. cbn [tl app].
  cbn [ImageInfo.scan].
  change (ImageInfo.ord xff =? 218)%Z with false. cbv iota.
  cbn [ImageInfo.skip_to_ff].
  change (ImageInfo.ord xff =? 255)%Z with true. cbv iota.
  cbn [ImageInfo.skip_ff].
  apply Z.eqb_neq in Hff. rewrite Hff.
  assert (Hno : ((192 <=? ImageInfo.ord (marker s))%Z
                 && (ImageInfo.ord (marker s) <=? 195)%Z) = false).
  { apply andb_false_iff.
    destruct (Z.leb_spec 192 (ImageInfo.ord (marker s)));
      destruct (Z.leb_spec (ImageInfo.ord (marker s)) 195); auto.
    exfalso. apply Hsof. lia. }
  rewrite Hno. rewrite <- app_assoc.
  rewrite unpack_be16 by lia.
  unfold be16. cbn [app].
  change (ImageInfo.after_read 2 (?a :: ?b :: ?l)) with l.
  rewrite skip_body. reflexivity.
Qed.

(** The loop over any number of segments that are skipped. *)
Lemma scan_segments (segs : list segment) (fuel : nat) (next : list byte) :
  Forall skippable segs ->
  length segs <= fuel ->
  ImageInfo.scan fuel
    (hd_error (flat_map write_segment segs ++ next))
    (tl (flat_map write_segment segs ++ next)) =
  ImageInfo.scan (fuel - length segs) (hd_error next) (tl next).
Proof.
  intros Hs. revert fuel.
  induction Hs as [ | s segs Hskip _ IH ]; intros fuel Hfuel.
  - cbn. rewrite Nat.sub_0_r. reflexivity.
  - destruct fuel as [ | fuel ]; [ cbn in Hfuel; lia | ].
    cbn [flat_map length]. rewrite <- app_assoc.
    change (hd_error (write_segment s ++ flat_map write_segment segs ++ next))
      with (Some xff).
    change (tl (write_segment s ++ flat_map write_segment segs ++ next))
      with (tl (write_segment s) ++ flat_map write_segment segs ++ next).
    rewrite (scan_segment fuel s _ Hskip).
    rewrite IH by (cbn in Hfuel; lia). reflexivity.
Qed.

(** The turn of the loop that meets a frame header. *)
Lemma scan_frame (fuel : nat) (m l1 l2 precision : byte) (h w : Z)
    (tail : list byte) :
  (192 <= ImageInfo.ord m <= 195)%Z ->
  (0 <= h < 65536)%Z -> (0 <= w < 65536)%Z ->
  ImageInfo.scan fuel (Some xff)
    (tl (write_frame m l1 l2 precision h w) ++ tail) =
  ImageInfo.Found h w.
Proof.
  intros Hm Hh Hw. unfold write_frame. cbn [tl app].
  destruct fuel; cbn [ImageInfo.scan];
    change (ImageInfo.ord xff =? 218)%Z with false; cbv iota;
    cbn [ImageInfo.skip_to_ff];
    change (ImageInfo.ord xff =? 255)%Z with true; cbv iota;
    cbn [ImageInfo.skip_ff];
    (replace (ImageInfo.ord m =? 255)%Z with false
       by (symmetry; apply Z.eqb_neq; lia));
    (replace ((192 <=? ImageInfo.ord m)%Z && (ImageInfo.ord m <=? 195)%Z)
       with true
       by (symmetry; apply andb_true_iff; split; apply Z.leb_le; lia));
    change (ImageInfo.after_read 3 (?a :: ?b :: ?c :: ?l)) with l;
    rewrite <- app_assoc, unpack_be16_pair by assumption; reflexivity.
Qed.

Lemma length_segments (segs : list segment) :
  length segs <= length (flat_map write_segment segs).
Proof.
  induction segs as [ | s segs IH ]; [ apply Nat.le_refl | ].
  cbn [flat_map]. rewrite length_app. unfold write_segment at 1. cbn. lia.
Qed.

(** *** The fuel of [scan] is enough *)

Lemma skip_to_ff_length (rest : list byte) :
  forall (b : byte) (r : list byte),
    ImageInfo.skip_to_ff b rest = Some r -> length r <= length rest.
Proof.
  induction rest as [ | b' rest IH ]; intros b r; cbn.
  - destruct (ImageInfo.ord b =? 255)%Z; [ | discriminate ].
    intros E. injection E as <-. apply Nat.le_refl.
  - destruct (ImageInfo.ord b =? 255)%Z.
    + intros E. injection E as <-. apply Nat.le_refl.
    + intros E. apply IH in E. cbn. lia.
Qed.

Lemma skip_ff_length (rest : list byte) :
  forall (m : byte) (r : list byte),
    ImageInfo.skip_ff rest = Some (m, r) -> length r < length rest.
Proof.
  induction rest as [ | b' rest IH ]; intros m r; cbn; [ discriminate | ].
  destruct (ImageInfo.ord b' =? 255)%Z.
  - intros E. apply IH in E. lia.
  - intros E. injection E as _ <-. lia.
Qed.

Lemma after_read_length (n : Z) (rest : list byte) :
  length (ImageInfo.after_read n rest) <= length rest.
Proof.
  unfold ImageInfo.after_read. destruct (n <? 0)%Z; cbn; [ lia | ].
  rewrite length_skipn. lia.
Qed.

Lemma tl_length (rest : list byte) : length (tl rest) <= length rest.
Proof. destruct rest; cbn; lia. Qed.

Lemma scan_has_fuel (fuel : nat) :
  forall (b : option byte) (rest : list byte),
    length rest <= fuel ->
    ImageInfo.scan fuel b rest <> ImageInfo.OutOfFuel.
Proof.
  induction fuel as [ | fuel IH ]; intros [ x | ] rest Hlen;
    cbn [ImageInfo.scan]; try discriminate.
  - destruct (ImageInfo.ord x =? 218)%Z; [ discriminate | ].
    destruct (ImageInfo.skip_to_ff x rest) as [ rest1 | ] eqn:E1;
      [ | discriminate ].
    destruct (ImageInfo.skip_ff rest1) as [ [ m rest2 ] | ] eqn:E2;
      [ | discriminate ].
    apply skip_to_ff_length in E1. apply skip_ff_length in E2. lia.
  - destruct (ImageInfo.ord x =? 218)%Z; [ discriminate | ].
    destruct (ImageInfo.skip_to_ff x rest) as [ rest1 | ] eqn:E1;
      [ | discriminate ].
    destruct (ImageInfo.skip_ff rest1) as [ [ m rest2 ] | ] eqn:E2;
      [ | discriminate ].
    apply skip_to_ff_length in E1. apply skip_ff_length in E2.
    destruct ((192 <=? ImageInfo.ord m)%Z && (ImageInfo.ord m <=? 195)%Z).
    + destruct (ImageInfo.unpack_be_HH _) as [ [ h w ] | ]; discriminate.
    + destruct (ImageInfo.unpack_be_H _) as [ n | ]; [ | discriminate ].
      cbv zeta. apply IH.
      pose proof (tl_length
        (ImageInfo.after_read (n - 2) (ImageInfo.after_read 2 rest2))).
      pose proof (after_read_length (n - 2) (ImageInfo.after_read 2 rest2)).
      pose proof (after_read_length 2 rest2). lia.
Qed.

(** What [scan] finds was written on two bytes each. *)
Lemma scan_found_bounds (fuel : nat) :
  forall (b : option byte) (rest : list byte) (h w : Z),
    ImageInfo.scan fuel b rest = ImageInfo.Found h w ->
    (0 <= h < 65536)%Z /\ (0 <= w < 65536)%Z.
Proof.
  assert (Hpair : forall (s : list byte) (h w : Z),
             ImageInfo.unpack_be_HH s = Some (h, w) ->
             (0 <= h < 65536)%Z /\ (0 <= w < 65536)%Z).
  { intros s h w.
    destruct s as [ | a [ | b [ | c [ | d [ | e s ] ] ] ] ]; cbn;
      try discriminate.
    intros E. injection E as <- <-.
    pose proof (ord_bounded a). pose proof (ord_bounded b).
    pose proof (ord_bounded c). pose proof (ord_bounded d). lia. }
  induction fuel as [ | fuel IH ]; intros [ x | ] rest h w;
    cbn [ImageInfo.scan]; try discriminate.
  - destruct (ImageInfo.ord x =? 218)%Z; [ discriminate | ].
    destruct (ImageInfo.skip_to_ff x rest) as [ rest1 | ]; [ | discriminate ].
    destruct (ImageInfo.skip_ff rest1) as [ [ m rest2 ] | ]; [ | discriminate ].
    destruct ((192 <=? ImageInfo.ord m)%Z && (ImageInfo.ord m <=? 195)%Z).
    + destruct (ImageInfo.unpack_be_HH _) as [ [ h' w' ] | ] eqn:E;
        [ | discriminate ].
      intros F. injection F as <- <-. exact (Hpair _ _ _ E).
    + destruct (ImageInfo.unpack_be_H _); discriminate.
  - destruct (ImageInfo.ord x =? 218)%Z; [ discriminate | ].
    destruct (ImageInfo.skip_to_ff x rest) as [ rest1 | ]; [ | discriminate ].
    destruct (ImageInfo.skip_ff rest1) as [ [ m rest2 ] | ]; [ | discriminate ].
    destruct ((192 <=? ImageInfo.ord m)%Z && (ImageInfo.ord m <=? 195)%Z).
    + destruct (ImageInfo.unpack_be_HH _) as [ [ h' w' ] | ] eqn:E;
        [ | discriminate ].
      intros F. injection F as <- <-. exact (Hpair _ _ _ E).
    + destruct (ImageInfo.unpack_be_H _) as [ n | ]; [ | discriminate ].
      cbv zeta. apply IH.
Qed.

Lemma slice_length (i j : nat) (data : list byte) :
  j <= length data -> length (ImageInfo.slice i j data) = j - i.
Proof.
  intros Hj. unfold ImageInfo.slice.
  rewrite length_firstn, length_skipn. lia.
Qed.

Lemma unpack_le_HH_total (s : list byte) :
  length s = 4 ->
  exists w h : Z,
    ImageInfo.unpack_le_HH s = Some (w, h) /\
    (0 <= w < 65536)%Z /\ (0 <= h < 65536)%Z.
Proof.
  destruct s as [ | a [ | b [ | c [ | d [ | e s ] ] ] ] ];
    cbn [length ImageInfo.unpack_le_HH]; try discriminate.
  intros _. eexists. eexists. split; [ reflexivity | ].
  pose proof (ord_bounded a). pose proof (ord_bounded b).
  pose proof (ord_bounded c). pose proof (ord_bounded d). lia.
Qed.

Lemma unpack_be_LL_total (s : list byte) :
  length s = 8 ->
  exists w h : Z,
    ImageInfo.unpack_be_LL s = Some (w, h) /\
    (0 <= w < 4294967296)%Z /\ (0 <= h < 4294967296)%Z.
Proof.
  destruct s as
    [ | a [ | b [ | c [ | d [ | e [ | f [ | g [ | h [ | i s ] ] ] ] ] ] ] ] ];
    cbn [length ImageInfo.unpack_be_LL]; try discriminate.
  intros _. eexists. eexists. split; [ reflexivity | ].
  unfold ImageInfo.be32.
  pose proof (ord_bounded a). pose proof (ord_bounded b).
  pose proof (ord_bounded c). pose proof (ord_bounded d).
  pose proof (ord_bounded e). pose proof (ord_bounded f).
  pose proof (ord_bounded g). pose proof (ord_bounded h). lia.
Qed.

(** The JPEG branch, for data that starts with the SOI marker. *)
Lemma get_image_info_jpeg (python_version : Z) (rest : list byte) :
  ImageInfo.get_image_info python_version (ImageInfo.SOI ++ rest) =
  match ImageInfo.scan (length (ImageInfo.SOI ++ rest))
          (hd_error rest) (tl rest) with
  | ImageInfo.Found h w => Done ("image/jpeg", w, h)
  | ImageInfo.StructError => Done ("image/jpeg", (-1)%Z, (-1)%Z)
  | ImageInfo.NoFrame => Raise (OtherError "UnboundLocalError")
  | ImageInfo.OrdOfEmpty => Raise (TypeError "ord() expected a character")
  | ImageInfo.OutOfFuel => Raise (OtherError "OutOfFuel")
  end.
Proof.
  unfold ImageInfo.get_image_info. cbv zeta.
  change (ImageInfo.bytes_eqb (ImageInfo.slice 0 6 (ImageInfo.SOI ++ rest))
            ImageInfo.GIF87a) with false.
  change (ImageInfo.bytes_eqb (ImageInfo.slice 0 6 (ImageInfo.SOI ++ rest))
            ImageInfo.GIF89a) with false.
  change (ImageInfo.startswith (ImageInfo.SOI ++ rest) ImageInfo.PNG)
    with false.
  change (ImageInfo.startswith (ImageInfo.SOI ++ rest) ImageInfo.SOI)
    with true.
  change (Nat.leb 2 (length (ImageInfo.SOI ++ rest))) with true.
  change (ImageInfo.after_read 2 (ImageInfo.SOI ++ rest)) with rest.
  rewrite !andb_false_r. cbn [andb orb]. reflexivity.
Qed.

Lemma scan_cut_frame (fuel : nat) (m : byte) (rest : list byte) :
  (192 <= ImageInfo.ord m <= 195)%Z ->
  length rest < 7 ->
  ImageInfo.scan fuel (Some xff) (m :: rest) = ImageInfo.StructError.
Proof.
  intros Hm Hlen.
  assert (Hcut : ImageInfo.unpack_be_HH
                   (firstn 4 (ImageInfo.after_read 3 rest)) = None).
  { destruct rest as
      [ | a [ | b [ | c [ | d [ | e [ | f [ | g rest ] ] ] ] ] ] ];
      try reflexivity.
    cbn in Hlen. lia. }
  destruct fuel; cbn [ImageInfo.scan];
    change (ImageInfo.ord xff =? 218)%Z with false; cbv iota;
    cbn [ImageInfo.skip_to_ff];
    change (ImageInfo.ord xff =? 255)%Z with true; cbv iota;
    cbn [ImageInfo.skip_ff];
    (replace (ImageInfo.ord m =? 255)%Z with false
       by (symmetry; apply Z.eqb_neq; lia));
    (replace ((192 <=? ImageInfo.ord m)%Z && (ImageInfo.ord m <=? 195)%Z)
       with true
       by (symmetry; apply andb_true_iff; split; apply Z.leb_le; lia));
    rewrite Hcut; reflexivity.
Qed.

Lemma unpack_le16_pair (w h : Z) :
  (0 <= w < 65536)%Z -> (0 <= h < 65536)%Z ->
  ImageInfo.unpack_le_HH (le16 w ++ le16 h) = Some (w, h).
Proof.
  intros Hw Hh. unfold le16. cbn [app ImageInfo.unpack_le_HH].
  rewrite !ord_byte_of.
  - pose proof (Z.div_mod h 256). pose proof (Z.div_mod w 256).
    f_equal. f_equal; lia.
  - split; [ apply Z.div_pos; lia | apply Z.div_lt_upper_bound; lia ].
  - apply Z.mod_pos_bound. lia.
  - split; [ apply Z.div_pos; lia | apply Z.div_lt_upper_bound; lia ].
  - apply Z.mod_pos_bound. lia.
Qed.

Lemma be32_of_bytes (n : Z) :
  (0 <= n < 4294967296)%Z ->
  match be32_bytes n with
  | [a; b; c; d] => ImageInfo.be32 a b c d = n
  | _ => False
  end.
Proof.
  intros Hn. unfold be32_bytes, ImageInfo.be32.
  rewrite !ord_byte_of.
  - pose proof (Z.div_mod n 256).
    pose proof (Z.div_mod (n / 256) 256).
    pose proof (Z.div_mod (n / 65536) 256).
    replace (n / 65536)%Z with (n / 256 / 256)%Z in *
      by (rewrite Z.div_div by lia; reflexivity).
    replace (n / 16777216)%Z with (n / 256 / 256 / 256)%Z
      by (rewrite !Z.div_div by lia; reflexivity).
    lia.
  - apply Z.mod_pos_bound. lia.
  - apply Z.mod_pos_bound. lia.
  - apply Z.mod_pos_bound. lia.
  - split; [ apply Z.div_pos; lia | apply Z.div_lt_upper_bound; lia ].
Qed.

Lemma unpack_be32_pair (w h : Z) :
  (0 <= w < 4294967296)%Z -> (0 <= h < 4294967296)%Z ->
  ImageInfo.unpack_be_LL (be32_bytes w ++ be32_bytes h) = Some (w, h).
Proof.
  intros Hw Hh.
  pose proof (be32_of_bytes w Hw) as Ew.
  pose proof (be32_of_bytes h Hh) as Eh.
  unfold be32_bytes in *. cbn [app ImageInfo.unpack_be_LL].
  rewrite Ew, Eh. reflexivity.
Qed.

(** X22: a JPEG stream made of the SOI marker, any number of segments that
    are not frame headers, and a frame header SOF0 to SOF3 carrying a
    height and a width, is sized with this width and this height, whatever
    follows the frame header and in Python 2 and 3 alike. *)
Theorem jpeg_size_is_read_back (python_version : Z) (segs : list segment)
    (m l1 l2 precision : byte) (h w : Z) (tail : list byte) :
  Forall skippable segs ->
  (192 <= ImageInfo.ord m <= 195)%Z ->
  (0 <= h < 65536)%Z -> (0 <= w < 65536)%Z ->
  ImageInfo.get_image_info python_version
    (ImageInfo.SOI ++ flat_map write_segment segs
       ++ write_frame m l1 l2 precision h w ++ tail) =
  Done ("image/jpeg", w, h).
Proof.
  intros Hsegs Hm Hh Hw.
  rewrite get_image_info_jpeg.
  rewrite (scan_segments segs _ _ Hsegs).
  - change (hd_error (write_frame m l1 l2 precision h w ++ tail))
      with (Some xff).
    change (tl (write_frame m l1 l2 precision h w ++ tail))
      with (tl (write_frame m l1 l2 precision h w) ++ tail).
    rewrite scan_frame by assumption. reflexivity.
  - rewrite !length_app. pose proof (length_segments segs). lia.
Qed.

Lemma jpeg_size_is_read_back_witness :
  ImageInfo.get_image_info 3
    (ImageInfo.SOI
       ++ flat_map write_segment
            [Segment xe0 [x4a; x46; x49; x46; x00]; Segment xdb [x00; x10]]
       ++ write_frame xc0 x00 x11 x08 480 640 ++ [x03; x01; x22]) =
  Done ("image/jpeg", 640%Z, 480%Z).
Proof.
  apply (jpeg_size_is_read_back 3
           [Segment xe0 [x4a; x46; x49; x46; x00]; Segment xdb [x00; x10]]
           xc0 x00 x11 x08 480 640 [x03; x01; x22]).
  - repeat constructor; cbn; try discriminate; lia.
  - cbn. lia.
  - lia.
  - lia.
Defined.

(** X23: a JPEG stream that ends after segments none of which is a frame
    header leaves [get_image_info] with the error of a variable read before
    it was assigned, not with the size (-1, -1). *)
Theorem jpeg_without_frame_header_raises (python_version : Z)
    (segs : list segment) :
  Forall skippable segs ->
  ImageInfo.get_image_info python_version
    (ImageInfo.SOI ++ flat_map write_segment segs) =
  Raise (OtherError "UnboundLocalError").
Proof.
  intros Hsegs.
  rewrite <- (app_nil_r (flat_map write_segment segs)).
  rewrite get_image_info_jpeg.
  rewrite (scan_segments segs _ _ Hsegs).
  - cbn [hd_error tl].
    destruct (length (ImageInfo.SOI ++ flat_map write_segment segs ++ [])
              - length segs); reflexivity.
  - rewrite !length_app. pose proof (length_segments segs). lia.
Qed.

Lemma jpeg_without_frame_header_raises_witness :
  ImageInfo.get_image_info 2
    (ImageInfo.SOI
       ++ flat_map write_segment [Segment xe0 [x4a; x46]; Segment xda []]) =
  Raise (OtherError "UnboundLocalError").
Proof.
  apply (jpeg_without_frame_header_raises 2
           [Segment xe0 [x4a; x46]; Segment xda []]).
  repeat constructor; cbn; try discriminate; lia.
Defined.

(** X24: a JPEG stream that ends fewer than seven bytes after the marker of
    a frame header is reported as a JPEG of size (-1, -1); no error leaves
    the function. *)
Theorem jpeg_cut_in_frame_header_is_unsized (python_version : Z)
    (segs : list segment) (m : byte) (rest : list byte) :
  Forall skippable segs ->
  (192 <= ImageInfo.ord m <= 195)%Z ->
  length rest < 7 ->
  ImageInfo.get_image_info python_version
    (ImageInfo.SOI ++ flat_map write_segment segs ++ xff :: m :: rest) =
  Done ("image/jpeg", (-1)%Z, (-1)%Z).
Proof.
  intros Hsegs Hm Hlen.
  rewrite get_image_info_jpeg.
  rewrite (scan_segments segs _ _ Hsegs).
  - cbn [hd_error tl]. rewrite scan_cut_frame by assumption. reflexivity.
  - rewrite !length_app. pose proof (length_segments segs). lia.
Qed.

Lemma jpeg_cut_in_frame_header_is_unsized_witness :
  ImageInfo.get_image_info 3
    (ImageInfo.SOI ++ flat_map write_segment [Segment xe0 [x4a; x46]]
       ++ xff :: xc2 :: [x00; x11; x08; x01; xe0; x02]) =
  Done ("image/jpeg", (-1)%Z, (-1)%Z).
Proof.
  apply (jpeg_cut_in_frame_header_is_unsized 3 [Segment xe0 [x4a; x46]]
           xc2 [x00; x11; x08; x01; xe0; x02]).
  - repeat constructor; cbn; try discriminate; lia.
  - cbn. lia.
  - cbn. lia.
Defined.

(** X25: in Python 2 a GIF header, either signature followed by the width
    and the height on two little-endian bytes each, is sized with this
    width and this height, whatever follows. *)
Theorem gif_size_is_read_back_py2 (python_version : Z) (sig : list byte)
    (w h : Z) (tail : list byte) :
  python_version <> 3%Z ->
  sig = ImageInfo.GIF87a \/ sig = ImageInfo.GIF89a ->
  (0 <= w < 65536)%Z -> (0 <= h < 65536)%Z ->
  ImageInfo.get_image_info python_version
    (sig ++ le16 w ++ le16 h ++ tail) =
  Done ("image/gif", w, h).
Proof.
  intros Hpy Hsig Hw Hh. apply Z.eqb_neq in Hpy.
  unfold ImageInfo.get_image_info. cbv zeta. rewrite Hpy.
  destruct Hsig as [ -> | -> ].
  - change (Nat.leb 10 (length (ImageInfo.GIF87a ++ le16 w ++ le16 h ++ tail)))
      with true.
    change (ImageInfo.bytes_eqb
              (ImageInfo.slice 0 6
                 (ImageInfo.GIF87a ++ le16 w ++ le16 h ++ tail))
              ImageInfo.GIF87a) with true.
    change (ImageInfo.slice 6 10
              (ImageInfo.GIF87a ++ le16 w ++ le16 h ++ tail))
      with (le16 w ++ le16 h).
    cbn [andb orb]. rewrite unpack_le16_pair by assumption. reflexivity.
  - change (Nat.leb 10 (length (ImageInfo.GIF89a ++ le16 w ++ le16 h ++ tail)))
      with true.
    change (ImageInfo.bytes_eqb
              (ImageInfo.slice 0 6
                 (ImageInfo.GIF89a ++ le16 w ++ le16 h ++ tail))
              ImageInfo.GIF89a) with true.
    change (ImageInfo.slice 6 10
              (ImageInfo.GIF89a ++ le16 w ++ le16 h ++ tail))
      with (le16 w ++ le16 h).
    rewrite orb_true_r. cbn [andb].
    rewrite unpack_le16_pair by assumption. reflexivity.
Qed.

Lemma gif_size_is_read_back_py2_witness :
  ImageInfo.get_image_info 2
    (ImageInfo.GIF89a ++ le16 640 ++ le16 480 ++ [xf7; x00; x00]) =
  Done ("image/gif", 640%Z, 480%Z).
Proof.
  apply (gif_size_is_read_back_py2 2 ImageInfo.GIF89a 640 480
           [xf7; x00; x00]).
  - discriminate.
  - right. reflexivity.
  - lia.
  - lia.
Defined.

(** X26: in Python 2 a PNG header, the signature, the four bytes of a chunk
    length, [IHDR] and the width and the height on four big-endian bytes
    each, is sized with this width and this height, whatever follows. *)
Theorem png_size_is_read_back_py2 (python_version : Z)
    (chunk_length : list byte) (w h : Z) (tail : list byte) :
  python_version <> 3%Z ->
  length chunk_length = 4 ->
  (0 <= w < 4294967296)%Z -> (0 <= h < 4294967296)%Z ->
  ImageInfo.get_image_info python_version
    (ImageInfo.PNG ++ chunk_length ++ ImageInfo.IHDR
       ++ be32_bytes w ++ be32_bytes h ++ tail) =
  Done ("image/png", w, h).
Proof.
  intros Hpy Hlen Hw Hh. apply Z.eqb_neq in Hpy.
  destruct chunk_length as [ | a [ | b [ | c [ | d [ | e l ] ] ] ] ];
    try discriminate Hlen.
  unfold ImageInfo.get_image_info. cbv zeta. rewrite Hpy.
  set (data := ImageInfo.PNG ++ [a; b; c; d] ++ ImageInfo.IHDR
                 ++ be32_bytes w ++ be32_bytes h ++ tail).
  change (ImageInfo.bytes_eqb (ImageInfo.slice 0 6 data) ImageInfo.GIF87a)
    with false.
  change (ImageInfo.bytes_eqb (ImageInfo.slice 0 6 data) ImageInfo.GIF89a)
    with false.
  change (Nat.leb 24 (length data)) with true.
  change (ImageInfo.startswith data ImageInfo.PNG) with true.
  change (ImageInfo.bytes_eqb (ImageInfo.slice 12 16 data) ImageInfo.IHDR)
    with true.
  change (ImageInfo.slice 16 24 data) with (be32_bytes w ++ be32_bytes h).
  rewrite andb_false_r. cbn [andb orb].
  rewrite unpack_be32_pair by assumption. reflexivity.
Qed.

Lemma png_size_is_read_back_py2_witness :
  ImageInfo.get_image_info 2
    (ImageInfo.PNG ++ [x00; x00; x00; x0d] ++ ImageInfo.IHDR
       ++ be32_bytes 1920 ++ be32_bytes 1080 ++ [x08; x06]) =
  Done ("image/png", 1920%Z, 1080%Z).
Proof.
  apply (png_size_is_read_back_py2 2 [x00; x00; x00; x0d] 1920 1080
           [x08; x06]).
  - discriminate.
  - reflexivity.
  - lia.
  - lia.
Defined.

(** X27: in Python 3 [get_image_info] never returns a GIF or a PNG: what it
    returns is a JPEG, or the empty content type with the size (-1, -1). *)
Theorem py3_returns_no_gif_or_png (data : list byte) (ct : string) (w h : Z) :
  ImageInfo.get_image_info 3 data = Done (ct, w, h) ->
  ct = "image/jpeg" \/ (ct = "" /\ w = (-1)%Z /\ h = (-1)%Z).
Proof.
  unfold ImageInfo.get_image_info. cbv zeta.
  change (3 =? 3)%Z with true. cbv iota.
  destruct (Nat.leb 10 (length data)
            && (ImageInfo.bytes_eqb (ImageInfo.slice 0 6 data) ImageInfo.GIF87a
                || ImageInfo.bytes_eqb (ImageInfo.slice 0 6 data)
                     ImageInfo.GIF89a)); [ discriminate | ].
  destruct (Nat.leb 24 (length data)
            && ImageInfo.startswith data ImageInfo.PNG
            && ImageInfo.bytes_eqb (ImageInfo.slice 12 16 data)
                 ImageInfo.IHDR); [ discriminate | ].
  destruct (Nat.leb 16 (length data)
            && ImageInfo.startswith data ImageInfo.PNG); [ discriminate | ].
  destruct (Nat.leb 2 (length data)
            && ImageInfo.startswith data ImageInfo.SOI).
  - destruct (ImageInfo.scan _ _ _); try discriminate;
      intros E; injection E as <- _ _; left; reflexivity.
  - intros E. injection E as <- <- <-. right. repeat split.
Qed.

Lemma py3_returns_no_gif_or_png_witness :
  "image/jpeg" = "image/jpeg" \/
  ("image/jpeg" = "" /\ 640%Z = (-1)%Z /\ 480%Z = (-1)%Z).
Proof.
  apply (py3_returns_no_gif_or_png
           (ImageInfo.SOI ++ write_frame xc0 x00 x11 x08 480 640)
           "image/jpeg" 640 480).
  reflexivity.
Defined.

(** X28: whatever the bytes and the Python version, [get_image_info]
    returns the empty content type or a JPEG with the size (-1, -1), or a
    GIF or a JPEG whose width and height fit two bytes each, or a PNG whose
    width and height fit four bytes each; and the only errors that leave it
    are the [TypeError] of [struct.unpack] on a [str], the [TypeError] of
    [ord] at the end of the data, and the error of a variable read before
    it was assigned.  In particular no [struct.error] leaves it, and the
    scan of a JPEG stream ends. *)
Theorem get_image_info_outcomes (python_version : Z) (data : list byte) :
  match ImageInfo.get_image_info python_version data with
  | Done (ct, w, h) =>
      ((ct = "" \/ ct = "image/jpeg") /\ w = (-1)%Z /\ h = (-1)%Z) \/
      ((ct = "image/gif" \/ ct = "image/jpeg") /\
       (0 <= w < 65536)%Z /\ (0 <= h < 65536)%Z) \/
      (ct = "image/png" /\
       (0 <= w < 4294967296)%Z /\ (0 <= h < 4294967296)%Z)
  | Raise e =>
      e = TypeError "a bytes-like object is required, not 'str'" \/
      e = TypeError "ord() expected a character" \/
      e = OtherError "UnboundLocalError"
  end.
Proof.
  unfold ImageInfo.get_image_info. cbv zeta.
  destruct (Nat.leb 10 (length data)
            && (ImageInfo.bytes_eqb (ImageInfo.slice 0 6 data) ImageInfo.GIF87a
                || ImageInfo.bytes_eqb (ImageInfo.slice 0 6 data)
                     ImageInfo.GIF89a)) eqn:Egif.
  { destruct (python_version =? 3)%Z; [ left; reflexivity | ].
    apply andb_true_iff in Egif. destruct Egif as [ Hsize _ ].
    apply Nat.leb_le in Hsize.
    destruct (unpack_le_HH_total (ImageInfo.slice 6 10 data))
      as (w & h & E & Hw & Hh).
    - rewrite slice_length by assumption. reflexivity.
    - rewrite E. right. left. split; [ left; reflexivity | ]. split; assumption. }
  destruct (Nat.leb 24 (length data)
            && ImageInfo.startswith data ImageInfo.PNG
            && ImageInfo.bytes_eqb (ImageInfo.slice 12 16 data)
                 ImageInfo.IHDR) eqn:Epng.
  { destruct (python_version =? 3)%Z; [ left; reflexivity | ].
    apply andb_true_iff in Epng. destruct Epng as [ Epng _ ].
    apply andb_true_iff in Epng. destruct Epng as [ Hsize _ ].
    apply Nat.leb_le in Hsize.
    destruct (unpack_be_LL_total (ImageInfo.slice 16 24 data))
      as (w & h & E & Hw & Hh).
    - rewrite slice_length by assumption. reflexivity.
    - rewrite E. right. right. split; [ reflexivity | ]. split; assumption. }
  destruct (Nat.leb 16 (length data)
            && ImageInfo.startswith data ImageInfo.PNG) eqn:Eold.
  { destruct (python_version =? 3)%Z; [ left; reflexivity | ].
    apply andb_true_iff in Eold. destruct Eold as [ Hsize _ ].
    apply Nat.leb_le in Hsize.
    destruct (unpack_be_LL_total (ImageInfo.slice 8 16 data))
      as (w & h & E & Hw & Hh).
    - rewrite slice_length by assumption. reflexivity.
    - rewrite E. right. right. split; [ reflexivity | ]. split; assumption. }
  destruct (Nat.leb 2 (length data)
            && ImageInfo.startswith data ImageInfo.SOI).
  - destruct (ImageInfo.scan (length data)
                (hd_error (ImageInfo.after_read 2 data))
                (tl (ImageInfo.after_read 2 data))) as [ h w | | | | ] eqn:E.
    + apply scan_found_bounds in E. destruct E as [ Hh Hw ].
      right. left. split; [ right; reflexivity | ]. split; assumption.
    + right. right. reflexivity.
    + left. split; [ right; reflexivity | ]. split; reflexivity.
    + right. left. reflexivity.
    + exfalso. revert E. apply scan_has_fuel.
      pose proof (tl_length (ImageInfo.after_read 2 data)).
      pose proof (after_read_length 2 data). lia.
  - left. split; [ left; reflexivity | ]. split; reflexivity.
Qed.
